(** * A shallow embedding of the resume field-extraction engine

    The engine is [FixedResumeParser] of [fixed_resume_parser.py].  Its
    input is one text (a Python [str]) and an optional file name; its
    output is a nested record.  The embedding follows the source method
    by method and keeps the source's names.

    - A Python [str] is a list of Unicode code points.  Literals are
      written [u "..."] and decoded from UTF-8, so that the en dash and
      the bullet glyphs of the source are single characters here too.
    - The patterns handed to [re] are the source's own pattern strings;
      they are compiled by [Re.parse] and run by a backtracking matcher
      with the priorities of Python's [re] (first alternative first,
      greedy before lazy, leftmost start).
    - A Python [float] is a binary64 [PrimFloat.float].
    - [time.time()] reads an explicit clock. *)

From Stdlib Require Import String Ascii.
From Stdlib Require Import List NArith ZArith Bool Lia.
From Stdlib Require Import Floats.
Import ListNotations.

Set Implicit Arguments.
#[local] Set Warnings "-inexact-float".

(* ===================================================================== *)
(** ** Python strings *)
(* ===================================================================== *)

Module PyStr.

Definition char := N.
Bind Scope N_scope with char.
Definition str := list char.

Fixpoint bytes (s : string) : list N :=
  match s with
  | EmptyString => []
  | String a s' => N_of_ascii a :: bytes s'
  end.

(** UTF-8 decoding of the bytes of a literal (well-formed input only). *)
Fixpoint utf8 (bs : list N) : str :=
  match bs with
  | [] => []
  | b :: r =>
      if (b <? 128)%N then b :: utf8 r
      else if (b <? 224)%N then
        match r with
        | c1 :: r1 => ((b - 192) * 64 + (c1 - 128))%N :: utf8 r1
        | [] => [b]
        end
      else if (b <? 240)%N then
        match r with
        | c1 :: c2 :: r2 =>
            ((b - 224) * 4096 + (c1 - 128) * 64 + (c2 - 128))%N :: utf8 r2
        | _ => [b]
        end
      else
        match r with
        | c1 :: c2 :: c3 :: r3 =>
            ((b - 240) * 262144 + (c1 - 128) * 4096
             + (c2 - 128) * 64 + (c3 - 128))%N :: utf8 r3
        | _ => [b]
        end
  end.

Definition u (s : string) : str := utf8 (bytes s).

Definition ceqb (a b : char) : bool := N.eqb a b.

Fixpoint eqb (a b : str) : bool :=
  match a, b with
  | [], [] => true
  | x :: a', y :: b' => ceqb x y && eqb a' b'
  | _, _ => false
  end.

(** Truth value of a string: non-empty. *)
Definition truthy (s : str) : bool :=
  match s with [] => false | _ => true end.

(** *** Character tables

    [str.isspace], [str.lower], [str.upper] and the classes [\s], [\d],
    [\w] of [re] follow the Unicode database.  The white-space table is
    the complete one; the digit, letter and case tables are the ASCII
    rows (code points above U+007F are uncased and are neither digits
    nor word characters). *)

Definition in_range (lo hi c : N) : bool := ((lo <=? c) && (c <=? hi))%N.

Definition is_space (c : char) : bool :=
  in_range 9 13 c || in_range 28 32 c || ceqb c 133 || ceqb c 160
  || ceqb c 5760 || in_range 8192 8202 c || ceqb c 8232 || ceqb c 8233
  || ceqb c 8239 || ceqb c 8287 || ceqb c 12288.

Definition is_digit (c : char) : bool := in_range 48 57 c.
Definition is_upper (c : char) : bool := in_range 65 90 c.
Definition is_lower (c : char) : bool := in_range 97 122 c.
Definition is_alpha (c : char) : bool := is_upper c || is_lower c.
Definition is_word (c : char) : bool :=
  is_alpha c || is_digit c || ceqb c 95.

Definition lower_c (c : char) : char := if is_upper c then (c + 32)%N else c.
Definition upper_c (c : char) : char := if is_lower c then (c - 32)%N else c.

Definition lower (s : str) : str := map lower_c s.
Definition upper (s : str) : str := map upper_c s.

(** [s.isupper()]: at least one cased character and no lower-case one. *)
Definition isupper (s : str) : bool :=
  existsb is_upper s && negb (existsb is_lower s).

(** [s.capitalize()] *)
Definition capitalize (s : str) : str :=
  match s with
  | [] => []
  | c :: r => upper_c c :: lower r
  end.

(** *** Prefixes, suffixes, substrings *)

Fixpoint startswith (s p : str) : bool :=
  match p, s with
  | [], _ => true
  | x :: p', y :: s' => ceqb x y && startswith s' p'
  | _ :: _, [] => false
  end.

Definition endswith (s p : str) : bool := startswith (rev s) (rev p).

(** [sub in s] *)
Fixpoint contains (s sub : str) : bool :=
  startswith s sub ||
  match s with
  | [] => false
  | _ :: s' => contains s' sub
  end.

Definition startswith_any (s : str) (ps : list str) : bool :=
  existsb (startswith s) ps.

Definition contains_any (s : str) (ks : list str) : bool :=
  existsb (contains s) ks.

(** [x in l] for a list of strings *)
Definition mem (x : str) (l : list str) : bool := existsb (eqb x) l.

(** *** strip *)

Fixpoint lstrip (s : str) : str :=
  match s with
  | c :: r => if is_space c then lstrip r else s
  | [] => []
  end.

Definition rstrip (s : str) : str := rev (lstrip (rev s)).
Definition strip (s : str) : str := rstrip (lstrip s).

(** *** split *)

(** [s.split(sep)] for a non-empty [sep]; [maxsplit] is [None] for no
    bound.  [cur] holds the current field, reversed. *)
Fixpoint split_go (sep : str) (maxsplit : option nat) (cur : str)
    (skip : nat) (s : str) : list str :=
  match s with
  | [] => [rev cur]
  | c :: r =>
      match skip with
      | S k => split_go sep maxsplit cur k r
      | O =>
          let can := match maxsplit with Some O => false | _ => true end in
          if can && startswith s sep then
            rev cur ::
            split_go sep (option_map Nat.pred maxsplit) [] (length sep - 1) r
          else split_go sep maxsplit (c :: cur) 0 r
      end
  end.

Definition split (s sep : str) : list str := split_go sep None [] 0 s.
Definition splitn (s sep : str) (n : nat) : list str :=
  split_go sep (Some n) [] 0 s.

(** [s.rsplit(sep, n)] *)
Definition rsplitn (s sep : str) (n : nat) : list str :=
  rev (map (@rev char) (splitn (rev s) (rev sep) n)).

(** [s.split()]: fields separated by runs of white space. *)
Fixpoint split_ws_go (cur : str) (s : str) : list str :=
  match s with
  | [] => match cur with [] => [] | _ => [rev cur] end
  | c :: r =>
      if is_space c then
        match cur with
        | [] => split_ws_go [] r
        | _ => rev cur :: split_ws_go [] r
        end
      else split_ws_go (c :: cur) r
  end.

Definition split_ws (s : str) : list str := split_ws_go [] s.

(** [sep.join(parts)] *)
Fixpoint join (sep : str) (parts : list str) : str :=
  match parts with
  | [] => []
  | [p] => p
  | p :: rest => p ++ sep ++ join sep rest
  end.

(** [s.replace(old, new)] for a non-empty [old]. *)
Definition replace (s old new : str) : str := join new (split s old).

(** [int(s)] for a string of decimal digits. *)
Definition int_of (s : str) : N :=
  fold_left (fun acc c => (acc * 10 + (c - 48))%N) s 0%N.

Definition nl : str := [10%N].

End PyStr.

Import PyStr.

(* ===================================================================== *)
(** ** The [re] module: patterns, a pattern compiler and a matcher *)
(* ===================================================================== *)

Module Re.

Inductive cls := CDigit | CSpace | CWord.

Inductive citem :=
| IChar (c : char)
| IRange (lo hi : char)
| IClass (neg : bool) (k : cls).

Inductive regex :=
| REmpty
| RChar (c : char)
| RAny
| RSet (neg : bool) (items : list citem)
| RBol
| REol
| REnd
| RWordB
| RCat (r1 r2 : regex)
| RAlt (r1 r2 : regex)
| RRep (lo : nat) (hi : option nat) (greedy : bool) (r : regex)
| RGroup (n : nat) (r : regex)
| RLook (r : regex).

Record flags := Flags { ignorecase : bool; dotall : bool }.

Definition NOFLAG := Flags false false.
Definition IGNORECASE := Flags true false.
Definition DOTALL := Flags false true.

(** *** Characters *)

Definition cls_ok (k : cls) (c : char) : bool :=
  match k with
  | CDigit => is_digit c
  | CSpace => is_space c
  | CWord => is_word c
  end.

Definition item_ok (it : citem) (c : char) : bool :=
  match it with
  | IChar x => ceqb x c
  | IRange lo hi => in_range lo hi c
  | IClass neg k => xorb neg (cls_ok k c)
  end.

Definition chr_ok (fl : flags) (x c : char) : bool :=
  if ignorecase fl then ceqb (lower_c x) (lower_c c) else ceqb x c.

Definition set_ok (fl : flags) (neg : bool) (items : list citem) (c : char)
    : bool :=
  xorb neg
    (existsb (fun it =>
       item_ok it c
       || (ignorecase fl && (item_ok it (lower_c c) || item_ok it (upper_c c))))
     items).

(** *** The matcher

    A state is a position in the subject: the number of characters
    before it, the character just before it (for [\b]), the characters
    from it on, and the groups captured so far (latest first). *)

Record state := State {
  pos : nat;
  prev : option char;
  rest : str;
  caps : list (nat * str)
}.

Definition advance (st : state) (c : char) (t : str) : state :=
  State (S (pos st)) (Some c) t (caps st).

Definition set_cap (n : nat) (v : str) (st : state) : state :=
  State (pos st) (prev st) (rest st) ((n, v) :: caps st).

Definition word_before (st : state) : bool :=
  match prev st with Some c => is_word c | None => false end.

Definition word_after (st : state) : bool :=
  match rest st with c :: _ => is_word c | [] => false end.

Definition hi_reached (hi : option nat) (i : nat) : bool :=
  match hi with Some h => h <=? i | None => false end.

(** [run fl r st k] matches [r] at [st] and hands every way of doing so,
    in priority order, to the continuation [k] until [k] accepts one.
    An iteration of a repetition beyond its minimum has to consume a
    character, so [lo + length (rest st)] iterations are all there can
    be and the counter [fuel] never reaches [0]. *)
Fixpoint run (fl : flags) (r : regex) (st : state)
    (k : state -> option state) {struct r} : option state :=
  match r with
  | REmpty => k st
  | RChar x =>
      match rest st with
      | c :: t => if chr_ok fl x c then k (advance st c t) else None
      | [] => None
      end
  | RAny =>
      match rest st with
      | c :: t =>
          if dotall fl || negb (ceqb c 10) then k (advance st c t) else None
      | [] => None
      end
  | RSet neg items =>
      match rest st with
      | c :: t => if set_ok fl neg items c then k (advance st c t) else None
      | [] => None
      end
  | RBol => if pos st =? 0 then k st else None
  | REol =>
      match rest st with
      | [] => k st
      | [c] => if ceqb c 10 then k st else None
      | _ => None
      end
  | REnd => match rest st with [] => k st | _ => None end
  | RWordB => if xorb (word_before st) (word_after st) then k st else None
  | RCat r1 r2 => run fl r1 st (fun st' => run fl r2 st' k)
  | RAlt r1 r2 =>
      match run fl r1 st k with
      | Some x => Some x
      | None => run fl r2 st k
      end
  | RRep lo hi greedy r1 =>
      (fix loop (fuel i : nat) (st : state) {struct fuel} : option state :=
         match fuel with
         | O => None
         | S fuel' =>
             let again (_ : unit) :=
               run fl r1 st (fun st' =>
                 if (i <? lo) || (pos st <? pos st')
                 then loop fuel' (S i) st' else None) in
             if i <? lo then again tt
             else if hi_reached hi i then k st
             else if greedy then
               match again tt with Some x => Some x | None => k st end
             else
               match k st with Some x => Some x | None => again tt end
         end) (S (lo + length (rest st))) 0 st
  | RGroup n r1 =>
      run fl r1 st (fun st' =>
        k (set_cap n (firstn (pos st' - pos st) (rest st)) st'))
  | RLook r1 =>
      match run fl r1 st (fun st' => Some st') with
      | Some st' => k (State (pos st) (prev st) (rest st) (caps st'))
      | None => None
      end
  end.

(** A compiled pattern. *)
Record pattern := Pattern { rx : regex; ngroups : nat; pflags : flags }.

(** A match object: where the match starts and ends, its text, and its
    groups. *)
Record mobj := MObj {
  m_start : nat;
  m_end : state;
  m_text : str;
  m_groups : list (nat * str)
}.

(** [m.group(n)] for [n >= 1]; [None] when the group took no part. *)
Fixpoint lookup (n : nat) (l : list (nat * str)) : option str :=
  match l with
  | [] => None
  | (i, v) :: l' => if i =? n then Some v else lookup n l'
  end.

Definition group (m : mobj) (n : nat) : option str :=
  match n with
  | O => Some (m_text m)
  | _ => lookup n (m_groups m)
  end.

(** [m.group(n)] where the source uses it as a string; a group that
    took no part also reads as empty in [findall]. *)
Definition group_s (m : mobj) (n : nat) : str :=
  match group m n with Some v => v | None => [] end.

(** [m.groups()] with [''] for absent groups, as [findall] returns them. *)
Definition groups (p : pattern) (m : mobj) : list str :=
  map (group_s m) (seq 1 (ngroups p)).

(** One attempt at the state [st]; [bar] is the position at which an
    empty match is refused (after an empty match of [findall]). *)
Definition attempt (p : pattern) (bar : option nat) (st : state)
    : option mobj :=
  match run (pflags p) (rx p) st (fun st' =>
          match bar with
          | Some b => if (pos st' =? b) && (pos st =? b) then None else Some st'
          | None => Some st'
          end) with
  | Some st' =>
      Some (MObj (pos st) st' (firstn (pos st' - pos st) (rest st)) (caps st'))
  | None => None
  end.

(** Leftmost match at or after the state's position. *)
Fixpoint scan (p : pattern) (bar : option nat) (n : nat) (pv : option char)
    (s : str) : option mobj :=
  match attempt p bar (State n pv s []) with
  | Some m => Some m
  | None =>
      match s with
      | [] => None
      | c :: t => scan p bar (S n) (Some c) t
      end
  end.

Definition search (p : pattern) (s : str) : option mobj :=
  scan p None 0 None s.

(** [re.match]: at the start of the subject only. *)
Definition match_ (p : pattern) (s : str) : option mobj :=
  attempt p None (State 0 None s []).

(** [re.finditer]: the next search starts where the last match ended;
    after an empty match, an empty match at the same place is refused. *)
Fixpoint finditer_go (fuel : nat) (p : pattern) (bar : option nat)
    (st : state) : list mobj :=
  match fuel with
  | O => []
  | S fuel' =>
      match scan p bar (pos st) (prev st) (rest st) with
      | None => []
      | Some m =>
          let e := m_end m in
          m :: finditer_go fuel' p
                 (if pos e =? m_start m then Some (pos e) else None)
                 (State (pos e) (prev e) (rest e) [])
      end
  end.

Definition finditer (p : pattern) (s : str) : list mobj :=
  finditer_go (2 * length s + 2) p None (State 0 None s []).

(** [re.findall] for a pattern with groups: one row of groups per match. *)
Definition findall (p : pattern) (s : str) : list (list str) :=
  map (groups p) (finditer p s).

(** [re.sub(p, repl, s)] for a replacement without group references. *)
Fixpoint sub_go (repl : str) (ms : list mobj) (at_ : nat) (s : str) : str :=
  match ms with
  | [] => s
  | m :: ms' =>
      firstn (m_start m - at_) s ++ repl
      ++ sub_go repl ms' (pos (m_end m)) (rest (m_end m))
  end.

Definition sub (p : pattern) (repl s : str) : str :=
  sub_go repl (finditer p s) 0 s.

Definition is_some {A} (o : option A) : bool :=
  match o with Some _ => true | None => false end.


(** *** The pattern compiler

    The syntax of [re] as far as the source uses it: literals, [.],
    [^], [$], [\Z], [\b], the classes [\d \s \w] and their complements,
    sets with ranges and negation, capturing and non-capturing groups,
    look-ahead, alternation, the quantifiers [* + ? {m} {m,} {m,n}] and
    their lazy forms, and the inline flag [(?i)]. *)

Definition chr (a : ascii) : char := N_of_ascii a.
Definition isc (c : char) (a : ascii) : bool := ceqb c (chr a).

Definition esc_class (c : char) : option citem :=
  if isc c "d" then Some (IClass false CDigit)
  else if isc c "D" then Some (IClass true CDigit)
  else if isc c "s" then Some (IClass false CSpace)
  else if isc c "S" then Some (IClass true CSpace)
  else if isc c "w" then Some (IClass false CWord)
  else if isc c "W" then Some (IClass true CWord)
  else None.

Definition esc_char (c : char) : option char :=
  if isc c "n" then Some 10%N
  else if isc c "t" then Some 9%N
  else if isc c "r" then Some 13%N
  else if isc c "f" then Some 12%N
  else if isc c "v" then Some 11%N
  else if is_alpha c || is_digit c then None
  else Some c.

Inductive stok := TLit (c : char) | TDash | TCls (it : citem).

Fixpoint p_set_toks (s : str) : option (list stok * str) :=
  match s with
  | [] => None
  | c :: s1 =>
      if isc c "]" then Some ([], s1)
      else if isc c "\" then
        match s1 with
        | e :: s2 =>
            let t := match esc_class e with
                     | Some it => Some (TCls it)
                     | None => option_map TLit (esc_char e)
                     end in
            match t, p_set_toks s2 with
            | Some t, Some (ts, s3) => Some (t :: ts, s3)
            | _, _ => None
            end
        | [] => None
        end
      else
        match p_set_toks s1 with
        | Some (ts, s3) => Some ((if isc c "-" then TDash else TLit c) :: ts, s3)
        | None => None
        end
  end.

Fixpoint set_items (ts : list stok) : list citem :=
  match ts with
  | [] => []
  | TLit lo :: TDash :: TLit hi :: r => IRange lo hi :: set_items r
  | TLit c :: r => IChar c :: set_items r
  | TDash :: r => IChar (chr "-") :: set_items r
  | TCls it :: r => it :: set_items r
  end.

Definition p_set (s : str) : option (regex * str) :=
  let '(neg, s0) := match s with
                    | c :: s1 => if isc c "^" then (true, s1) else (false, s)
                    | [] => (false, s)
                    end in
  match p_set_toks s0 with
  | Some (ts, s2) => Some (RSet neg (set_items ts), s2)
  | None => None
  end.

Fixpoint p_digits (s : str) : str * str :=
  match s with
  | c :: s1 =>
      if is_digit c then let '(d, s2) := p_digits s1 in (c :: d, s2)
      else ([], s)
  | [] => ([], [])
  end.

(** What follows a brace: [m}], [m,}] or [m,n}]. *)
Definition p_brace (s : str) : option (nat * option nat * str) :=
  match p_digits s with
  | ([], _) => None
  | (d, c :: s1) =>
      let lo := N.to_nat (int_of d) in
      if isc c "}" then Some (lo, Some lo, s1)
      else if isc c "," then
        match p_digits s1 with
        | ([], c2 :: s2) => if isc c2 "}" then Some (lo, None, s2) else None
        | (d2, c2 :: s2) =>
            if isc c2 "}" then Some (lo, Some (N.to_nat (int_of d2)), s2)
            else None
        | (_, []) => None
        end
      else None
  | (_, []) => None
  end.

Definition p_quant (a : regex) (s : str) : regex * str :=
  let q := match s with
           | c :: s1 =>
               if isc c "*" then Some (0, None, s1)
               else if isc c "+" then Some (1, None, s1)
               else if isc c "?" then Some (0, Some 1, s1)
               else if isc c "{" then p_brace s1
               else None
           | [] => None
           end in
  match q with
  | None => (a, s)
  | Some (lo, hi, s1) =>
      match s1 with
      | c :: s2 =>
          if isc c "?" then (RRep lo hi false a, s2)
          else (RRep lo hi true a, s1)
      | [] => (RRep lo hi true a, s1)
      end
  end.

Definition cat (a b : regex) : regex :=
  match a, b with
  | REmpty, _ => b
  | _, REmpty => a
  | _, _ => RCat a b
  end.

Definition closing (r : option (regex * nat * str))
    (wrap : regex -> regex) : option (regex * nat * str) :=
  match r with
  | Some (r1, gi, c :: s1) =>
      if isc c ")" then Some (wrap r1, gi, s1) else None
  | _ => None
  end.

(** [gi] is the number the next capturing group gets. *)
Fixpoint p_alt (fuel gi : nat) (s : str) : option (regex * nat * str) :=
  match fuel with
  | O => None
  | S f =>
      match p_seq f gi s with
      | Some (r1, gi1, c :: s1) =>
          if isc c "|" then
            match p_alt f gi1 s1 with
            | Some (r2, gi2, s2) => Some (RAlt r1 r2, gi2, s2)
            | None => None
            end
          else Some (r1, gi1, c :: s1)
      | other => other
      end
  end

with p_seq (fuel gi : nat) (s : str) : option (regex * nat * str) :=
  match fuel with
  | O => None
  | S f =>
      match s with
      | [] => Some (REmpty, gi, [])
      | c :: _ =>
          if isc c "|" || isc c ")" then Some (REmpty, gi, s)
          else
            match p_atom f gi s with
            | Some (a, gi1, s1) =>
                let '(a', s2) := p_quant a s1 in
                match p_seq f gi1 s2 with
                | Some (r, gi2, s3) => Some (cat a' r, gi2, s3)
                | None => None
                end
            | None => None
            end
      end
  end

with p_atom (fuel gi : nat) (s : str) : option (regex * nat * str) :=
  match fuel with
  | O => None
  | S f =>
      match s with
      | [] => None
      | c :: s1 =>
          if isc c "(" then
            if startswith s1 (u "?i)") then Some (REmpty, gi, skipn 3 s1)
            else if startswith s1 (u "?:") then
              closing (p_alt f gi (skipn 2 s1)) (fun r => r)
            else if startswith s1 (u "?=") then
              closing (p_alt f gi (skipn 2 s1)) RLook
            else if startswith s1 (u "?") then None
            else closing (p_alt f (S gi) s1) (RGroup gi)
          else if isc c "[" then
            match p_set s1 with
            | Some (r, s2) => Some (r, gi, s2)
            | None => None
            end
          else if isc c "\" then
            match s1 with
            | e :: s2 =>
                if isc e "b" then Some (RWordB, gi, s2)
                else if isc e "Z" then Some (REnd, gi, s2)
                else
                  match esc_class e with
                  | Some it => Some (RSet false [it], gi, s2)
                  | None =>
                      match esc_char e with
                      | Some x => Some (RChar x, gi, s2)
                      | None => None
                      end
                  end
            | [] => None
            end
          else if isc c "." then Some (RAny, gi, s1)
          else if isc c "^" then Some (RBol, gi, s1)
          else if isc c "$" then Some (REol, gi, s1)
          else if isc c "*" || isc c "+" || isc c "?" then None
          else Some (RChar c, gi, s1)
      end
  end.

Definition compile (p : str) (fl : flags) : option pattern :=
  match p_alt (4 * length p + 4) 1 p with
  | Some (r, gi, []) =>
      Some (Pattern r (gi - 1)
              (Flags (ignorecase fl || startswith p (u "(?i)")) (dotall fl)))
  | _ => None
  end.

(** A pattern that matches nothing stands for a pattern [re] rejects;
    every pattern of the source compiles (see [patterns_compile]). *)
Definition re_str (p : str) (fl : flags) : pattern :=
  match compile p fl with
  | Some c => c
  | None => Pattern (RSet false []) 0 fl
  end.

Definition re (p : string) (fl : flags) : pattern := re_str (u p) fl.

(** [re.escape] *)
Definition special : str :=
  u "()[]{}?*+-|^$\.&~# " ++ [9; 10; 13; 11; 12]%N.

Definition escape (s : str) : str :=
  flat_map (fun c => if existsb (ceqb c) special then [chr "\"; c] else [c]) s.

End Re.

Import Re.

(* ===================================================================== *)
(** ** Loops *)
(* ===================================================================== *)

(** [for x in xs: body] over a loop state: the body returns the new
    state and whether it left the loop by [break]. *)
Fixpoint for_each {A S : Type} (xs : list A) (s : S)
    (body : A -> S -> S * bool) : S :=
  match xs with
  | [] => s
  | x :: r =>
      let '(s', brk) := body x s in
      if brk then s' else for_each r s' body
  end.

Definition next {S : Type} (s : S) : S * bool := (s, false).
Definition break {S : Type} (s : S) : S * bool := (s, true).

(** [enumerate(xs)] *)
Fixpoint enumerate_from {A : Type} (i : nat) (xs : list A) : list (nat * A) :=
  match xs with
  | [] => []
  | x :: r => (i, x) :: enumerate_from (S i) r
  end.

Definition enumerate {A : Type} (xs : list A) : list (nat * A) :=
  enumerate_from 0 xs.

(** [xs[a:b]] for [0 <= a]; also the items [xs[j]] for
    [j in range(a, min(b, len(xs)))]. *)
Definition slice {A : Type} (xs : list A) (a b : nat) : list A :=
  firstn (b - a) (skipn a xs).

(* ===================================================================== *)
(** ** The records of the result *)
(* ===================================================================== *)

(** A Python dict with string keys whose order of insertion shows in
    [values()]: an association list in insertion order. *)
Section Dict.
Variable V : Type.

Definition dict := list (str * V).

Fixpoint dict_get (d : dict) (k : str) : option V :=
  match d with
  | [] => None
  | (k', v) :: d' => if eqb k k' then Some v else dict_get d' k
  end.

(** [d[k] = v]: a new key goes last, an old key keeps its place. *)
Fixpoint dict_set (d : dict) (k : str) (v : V) : dict :=
  match d with
  | [] => [(k, v)]
  | (k', v') :: d' =>
      if eqb k k' then (k, v) :: d' else (k', v') :: dict_set d' k v
  end.

Definition dict_values (d : dict) : list V := map snd d.
End Dict.

(** [ContactInformation]; the nested dicts [CandidateName] and
    [Location] are flattened, the one-key dicts of [EmailAddresses] and
    [Telephones] are their values. *)
Record ContactInfo := {
  FormattedName : str;
  GivenName : str;
  FamilyName : str;
  EmailAddresses : list str;
  Telephones : list str;
  Municipality : str;
  Region : str;
  CountryCode : str
}.

(** An entry of [Education.EducationDetails]; [School.Name],
    [Degree.Name] and [Degree.Type] are flattened. *)
Record EducationEntry := {
  School_Name : str;
  Degree_Name : str;
  Degree_Type : str;
  edu_Dates : str;
  edu_StartDate : str;
  edu_EndDate : str;
  GPA : str
}.

(** An entry of [EmploymentHistory.Positions]. *)
Record Position := {
  JobTitle : str;
  Company : str;
  Location : str;
  StartDate : str;
  EndDate : str;
  Dates : str;
  Description : list str
}.

(** A skill as the three discovery methods produce it; the skills of a
    skills section carry no category. *)
Record SkillCandidate := {
  name : str;
  category : option str;
  source : str;
  confidence : float
}.

(** A skill of the result, with its metadata. *)
Record SkillEntry := {
  sk_name : str;
  sk_category : str;
  months_experience : N;
  sk_confidence : float;
  sk_source : str;
  last_used : str
}.

Record ProjectEntry := {
  proj_name : str;
  proj_description : list str
}.

Record Certification := {
  cert_name : str;
  authority : str
}.

Record ResumeRecord := {
  ContactInformation : ContactInfo;
  EducationDetails : list EducationEntry;
  Positions : list Position;
  Skills : list SkillEntry;
  Projects : list ProjectEntry;
  Certifications : list Certification;
  ProcessingTime : float;
  QualityScore : float
}.

(* ===================================================================== *)
(** ** DateNormalizer: [_parse_start_date], [_parse_end_date] *)
(* ===================================================================== *)

Definition month_map_full : dict str :=
  [(u "January", u "01"); (u "February", u "02"); (u "March", u "03");
   (u "April", u "04"); (u "May", u "05"); (u "June", u "06");
   (u "July", u "07"); (u "August", u "08"); (u "September", u "09");
   (u "October", u "10"); (u "November", u "11"); (u "December", u "12")].

Definition month_map_abbr : dict str :=
  [(u "Jan", u "01"); (u "Feb", u "02"); (u "Mar", u "03");
   (u "Apr", u "04"); (u "May", u "05"); (u "Jun", u "06");
   (u "Jul", u "07"); (u "Aug", u "08"); (u "Sep", u "09");
   (u "Oct", u "10"); (u "Nov", u "11"); (u "Dec", u "12")].

(** [d.get(k, default)] *)
Definition get_or (d : dict str) (k default : str) : str :=
  match dict_get d k with Some v => v | None => default end.

(** The debug [print] of the source writes to standard output and does
    not take part in the value returned; it is left out. *)
Definition _parse_start_date (date_string : str) : str :=
  if negb (truthy date_string) then []
  else
    (* Pattern 1: full month name + year *)
    match search
            (re "(January|February|March|April|May|June|July|August|September|October|November|December)\s+(\d{4})"
               IGNORECASE) date_string with
    | Some start_match =>
        let month_str := group_s start_match 1 in
        let year_str := group_s start_match 2 in
        let month_num := get_or month_map_full (capitalize month_str) (u "01") in
        year_str ++ u "-" ++ month_num ++ u "-01"
    | None =>
    (* Pattern 2: Month' Year *)
    match search (re "([A-Za-z]{3})'?\s*'?\s*(\d{2,4})" NOFLAG) date_string with
    | Some start_match =>
        let month_str := group_s start_match 1 in
        let year_str := group_s start_match 2 in
        let year_str :=
          if length year_str =? 2 then
            let year_int := int_of year_str in
            if (year_int <=? 30)%N then u "20" ++ year_str
            else u "19" ++ year_str
          else year_str in
        let month_num := get_or month_map_abbr (capitalize month_str) (u "01") in
        year_str ++ u "-" ++ month_num ++ u "-01"
    | None =>
    (* four-digit year *)
    match search (re "(\d{4})" NOFLAG) date_string with
    | Some year_match => group_s year_match 1 ++ u "-01-01"
    | None => []
    end end end.

Definition _parse_end_date (date_string : str) : str :=
  if negb (truthy date_string) then []
  else if is_some (search (re "(?i)(present|current|now|ongoing)" NOFLAG)
                     date_string)
  then u "Present"
  else
    let date_matches :=
      findall
        (re "(January|February|March|April|May|June|July|August|September|October|November|December)\s+(\d{4})"
           IGNORECASE) date_string in
    if 2 <=? length date_matches then
      let row := nth 1 date_matches [] in
      let month_str := nth 0 row [] in
      let year_str := nth 1 row [] in
      let month_num := get_or month_map_full (capitalize month_str) (u "12") in
      year_str ++ u "-" ++ month_num ++ u "-01"
    else
    let date_matches :=
      findall (re "([A-Za-z]{3})'?\s*'?\s*(\d{2,4})" NOFLAG) date_string in
    if 2 <=? length date_matches then
      let row := nth 1 date_matches [] in
      let month_str := nth 0 row [] in
      let year_str := nth 1 row [] in
      let year_str :=
        if length year_str =? 2 then
          let year_int := int_of year_str in
          if (year_int <=? 30)%N then u "20" ++ year_str
          else u "19" ++ year_str
        else year_str in
      let month_num := get_or month_map_abbr (capitalize month_str) (u "12") in
      year_str ++ u "-" ++ month_num ++ u "-01"
    else
    let year_matches := findall (re "(\d{4})" NOFLAG) date_string in
    if 2 <=? length year_matches then
      nth 0 (last year_matches []) [] ++ u "-12-31"
    else if length year_matches =? 1 then
      nth 0 (nth 0 year_matches []) [] ++ u "-12-31"
    else [].

(* ===================================================================== *)
(** ** QualityScorer: [_calculate_quality_score] *)
(* ===================================================================== *)

Definition nonempty {A} (l : list A) : bool :=
  match l with [] => false | _ => true end.

Definition _calculate_quality_score (contact_info : ContactInfo)
    (experience : list Position) (education : list EducationEntry)
    (skills : list SkillEntry) : float :=
  let score := 0.0%float in
  let score :=
    if truthy (FormattedName contact_info) then (score + 0.25)%float
    else score in
  let score := if nonempty experience then (score + 0.30)%float else score in
  let score := if nonempty education then (score + 0.25)%float else score in
  let score := if nonempty skills then (score + 0.20)%float else score in
  score.

(* ===================================================================== *)
(** ** EducationExtractor *)
(* ===================================================================== *)

Definition _classify_degree_type (degree_name : str) : str :=
  let degree_lower := lower degree_name in
  if contains_any degree_lower
       [u "phd"; u "ph.d"; u "doctorate"; u "doctoral"]
  then u "doctorate"
  else if contains_any degree_lower
       [u "master"; u "mba"; u "msc"; u "ms "; u "ma "; u "executive mba"]
  then u "masters"
  else u "bachelors".

Definition mk_education (school degree_name dates : str) : EducationEntry :=
  {| School_Name := school;
     Degree_Name := degree_name;
     Degree_Type := _classify_degree_type degree_name;
     edu_Dates := dates;
     edu_StartDate := [];
     edu_EndDate := [];
     GPA := [] |}.

Definition cert_keywords_upper : list str :=
  [u "PMP"; u "CERTIFIED"; u "SCRUM"; u "CISSP"; u "CISM"; u "CISA"; u "CRISC"].

(** Strategy 1: degrees in the first line (the candidate's name line). *)
Definition education_strategy1 (lines : list str)
    (education : list EducationEntry) : list EducationEntry :=
  let first_line := match lines with l :: _ => strip l | [] => [] end in
  if truthy first_line then
    let degree_matches :=
      findall (re "\b(MBA|MS|MA|BS|BA|PhD|MSc|BSc|Ph\.?D\.?)\s*([^,]*)"
                 IGNORECASE) first_line in
    for_each degree_matches education (fun degree_match education =>
      let degree_type := upper (nth 0 degree_match []) in
      let degree_field := strip (nth 1 degree_match []) in
      if contains_any (upper degree_field) cert_keywords_upper
      then next education
      else
        let degree_name :=
          if truthy degree_field then degree_type ++ u " " ++ degree_field
          else degree_type in
        next (education ++ [mk_education [] degree_name []]))
  else education.

(** Strategy 2: degree lines inside an education section. *)
Definition education_strategy2 (lines : list str)
    (education : list EducationEntry) : list EducationEntry :=
  snd (for_each (enumerate lines) (false, education)
    (fun '(i, line) '(in_education_section, education) =>
      let line_clean := strip line in
      if is_some (match_
           (re "^(EDUCATION|Education|EDUCATION:|Education\s*/\s*Certifications|\s*Education\s*&\s*Training)\s*:?\s*$"
              IGNORECASE) line_clean)
      then next (true, education)
      else if in_education_section
           && is_some (match_
                (re "^(Skills|Experience|Certifications|Projects|Professional|Work|Employment)"
                   IGNORECASE) line_clean)
      then next (false, education)
      else if in_education_section && truthy line_clean
              && negb (startswith line_clean (u "•"))
      then
        if contains_any (upper line_clean) cert_keywords_upper
        then next (in_education_section, education)
        else if is_some (search
                  (re "(BSc|MSc|BA|MA|BS|MS|PhD|MBA|Bachelor|Master)" IGNORECASE)
                  line_clean)
        then
          match search
                  (re "(BSc|MSc|BA|MA|BS|MS|PhD|MBA|Bachelor[^,]*|Master[^,]*),?\s*([^,]*),?\s*(.*)"
                     IGNORECASE) line_clean with
          | Some degree_match =>
              let degree_name := strip (group_s degree_match 1) in
              let field := strip (group_s degree_match 2) in
              let school_info := strip (group_s degree_match 3) in
              let degree_name :=
                if truthy field
                   && negb (mem (lower field)
                              [u "computer"; u "university"; u "college"])
                then degree_name ++ u " " ++ field
                else degree_name in
              next (in_education_section,
                    education ++ [mk_education school_info degree_name []])
          | None => next (in_education_section, education)
          end
        else next (in_education_section, education)
      else next (in_education_section, education))).

(** The first of the lines [lines[j]], [j in range(a, min(b, len(lines)))],
    stripped, that satisfies [ok]; [""] when there is none. *)
Definition first_line_where (lines : list str) (a b : nat)
    (ok : str -> bool) : str :=
  for_each (slice lines a b) [] (fun l school_name =>
    let next_line := strip l in
    if ok next_line then break next_line else next school_name).

(** Strategy 3: degree sentences anywhere in the text.  The list the
    source tests [line_clean] against holds [line.strip()] once for
    every entry found so far. *)
Definition education_strategy3 (lines : list str)
    (education : list EducationEntry) : list EducationEntry :=
  for_each (enumerate lines) education (fun '(i, line) education =>
    let line_clean := strip line in
    if negb (truthy line_clean)
       || mem line_clean
            (flat_map (fun edu => map (fun _ => strip line) [Degree_Name edu])
               education)
    then next education
    else if is_some (search
              (re "^(Bachelors?|Masters?|Executive MBA|MBA)\s+in\s+.*,\s+.*University"
                 IGNORECASE) line_clean)
    then
      match search
              (re "^(Bachelors?|Masters?|Executive MBA|MBA)\s+in\s+(.*?),\s+(.*University[^,]*)"
                 IGNORECASE) line_clean with
      | Some degree_match =>
          let degree_type := strip (group_s degree_match 1) in
          let field := strip (group_s degree_match 2) in
          let school := strip (group_s degree_match 3) in
          let degree_name := degree_type ++ u " in " ++ field in
          next (education ++ [mk_education school degree_name []])
      | None => next education
      end
    else if is_some (search
              (re "(Master of|Bachelor of|PhD in|PHD in)\s+.*\s+(from|at)\s+.*University"
                 IGNORECASE) line_clean)
    then
      match search
              (re "(Master of|Bachelor of|PhD in|PHD in)\s+(.*?)\s+(?:with.*?)?\s*(?:from|at)\s+(.*)"
                 IGNORECASE) line_clean with
      | Some degree_match =>
          let degree_type := strip (group_s degree_match 1) in
          let field := strip (group_s degree_match 2) in
          let school := strip (group_s degree_match 3) in
          let degree_name := degree_type ++ u " " ++ field in
          next (education ++ [mk_education school degree_name []])
      | None => next education
      end
    else if is_some (search
              (re "^(Master of Science|Master of Business Administration|Bachelor of|PhD|PHD)\s+.*"
                 IGNORECASE) line_clean)
    then
      match search
              (re "^(Master of Science|Master of Business Administration|Bachelor of[^,]*|PhD|PHD)\s*(.*?)(?:\s+with.*)?$"
                 IGNORECASE) line_clean with
      | Some degree_match =>
          let degree_base := strip (group_s degree_match 1) in
          let field := strip (group_s degree_match 2) in
          let degree_name := strip (degree_base ++ u " " ++ field) in
          let school_name :=
            first_line_where lines (i + 1) (i + 3) (fun next_line =>
              contains_any (lower next_line)
                [u "university"; u "college"; u "institute"]) in
          next (education ++ [mk_education school_name degree_name []])
      | None => next education
      end
    else if is_some (search (re "^(PHD|PhD|Master|Bachelor)\s+in\s+.*" IGNORECASE)
                       line_clean)
    then
      match search (re "^(PHD|PhD|Master|Bachelor)\s+in\s+(.*)" IGNORECASE)
              line_clean with
      | Some degree_match =>
          let degree_type := group_s degree_match 1 in
          let field := strip (group_s degree_match 2) in
          let degree_name := degree_type ++ u " in " ++ field in
          let school_name :=
            first_line_where lines (i + 1) (i + 4) (fun next_line =>
              contains_any (lower next_line)
                [u "university"; u "college"; u "institute"]
              && negb (startswith next_line (u "Ø"))) in
          next (education ++ [mk_education school_name degree_name []])
      | None => next education
      end
    else next education).

(** Strategy 4: Roman-numeral items inside an education section. *)
Definition education_strategy4 (lines : list str)
    (education : list EducationEntry) : list EducationEntry :=
  snd (for_each (enumerate lines) (false, education)
    (fun '(i, line) '(in_education_section, education) =>
      let line_clean := strip line in
      if is_some (match_ (re "^Education\s*$" IGNORECASE) line_clean)
      then next (true, education)
      else if in_education_section
           && is_some (match_
                (re "^(Certificates?|Skills|Management|IT\s+Skills)" IGNORECASE)
                line_clean)
      then break (in_education_section, education)
      else if in_education_section && truthy line_clean
              && is_some (match_ (re "[IVX]+\.\s*(Bachelor|Master)" IGNORECASE)
                            line_clean)
      then
        match search (re "[IVX]+\.\s*(.*)" NOFLAG) line_clean with
        | Some degree_match =>
            let degree_name := strip (group_s degree_match 1) in
            let '(school_name, dates) :=
              for_each (slice lines (i + 1) (i + 4)) ([], [])
                (fun l found =>
                   let next_line := strip l in
                   if negb (truthy next_line) then next found
                   else if contains_any next_line
                             [u "University"; u "School"; u "College";
                              u "Institute"]
                   then
                     match match_ (re "^(.*?)\s*\((\d{4})\)$" NOFLAG)
                             next_line with
                     | Some school_match =>
                         break (strip (group_s school_match 1),
                                strip (group_s school_match 2))
                     | None => break (next_line, [])
                     end
                   else next found) in
            next (in_education_section,
                  education ++ [mk_education school_name degree_name dates])
        | None => next (in_education_section, education)
        end
      else next (in_education_section, education))).

(** Strategy 5: a school line followed by a degree line. *)
Definition education_strategy5 (lines : list str)
    (education : list EducationEntry) : list EducationEntry :=
  for_each (enumerate lines) education (fun '(i, line) education =>
    let line_clean := strip line in
    if is_some (search (re "University.*–.*USA" IGNORECASE) line_clean)
       || is_some (search (re "University.*,.*UK" IGNORECASE) line_clean)
    then
      let school_name := line_clean in
      next (for_each (slice lines (i + 1) (i + 4)) education
        (fun l education =>
           let next_line := strip l in
           if is_some (search
                (re "(Master of Business Administration|Bachelor of Computer Science|MBA)"
                   IGNORECASE) next_line)
           then
             match search
                     (re "(Master of Business Administration|Bachelor of Computer Science|MBA)[^–]*"
                        IGNORECASE) next_line with
             | Some degree_match =>
                 let degree_name := strip (group_s degree_match 0) in
                 let already_exists :=
                   existsb (fun edu =>
                     eqb (lower (Degree_Name edu)) (lower degree_name))
                     education in
                 if negb already_exists
                 then break (education
                             ++ [mk_education school_name degree_name []])
                 else break education
             | None => break education
             end
           else next education))
    else next education).

(** The closing pass: entries with a degree name seen before, or with
    an empty one, are left out. *)
Definition unique_education (education : list EducationEntry)
    : list EducationEntry :=
  snd (for_each education ([], [])
    (fun edu '(seen_degrees, unique_education) =>
      let degree_name := Degree_Name edu in
      if truthy degree_name && negb (mem degree_name seen_degrees)
      then next (degree_name :: seen_degrees, unique_education ++ [edu])
      else next (seen_degrees, unique_education))).

(** The candidates of the five strategies, in the order they are
    appended. *)
Definition education_candidates (text : str) : list EducationEntry :=
  let education := [] in
  let lines := split text nl in
  let education := education_strategy1 lines education in
  let education := education_strategy2 lines education in
  let education := education_strategy3 lines education in
  let education := education_strategy4 lines education in
  let education := education_strategy5 lines education in
  education.

Definition _extract_education_improved (text : str) : list EducationEntry :=
  unique_education (education_candidates text).

(* ===================================================================== *)
(** ** ContactExtractor: [_extract_contact_info] *)
(* ===================================================================== *)

Definition email_patterns : list pattern :=
  [re "\b([a-zA-Z0-9._%+-]+@[a-zA-Z0-9.-]+\.[a-zA-Z]{2,})\b" NOFLAG].

Definition phone_patterns : list pattern :=
  [re "\((\d{3})\)[-.–\s]*(\d{3})[-.–\s]*(\d{4})" NOFLAG;
   re "\((\d{3})\)\s*(\d{3})[-.–]\s*(\d{4})" NOFLAG;
   re "(\d{3})[-.–\s]+(\d{3})[-.–\s]+(\d{4})" NOFLAG;
   re "\+1?\s*(\d{3})[-.–)\s]*(\d{3})[-.–)\s]*(\d{4})" NOFLAG;
   re "Phone[:\s]*\(?(\d{3})\)?[-.–\s]*(\d{3})[-.–\s]*(\d{4})" NOFLAG;
   re "Tel[:\s]*\(?(\d{3})\)?[-.–\s]*(\d{3})[-.–\s]*(\d{4})" NOFLAG;
   re "Mobile[:\s]*\(?(\d{3})\)?[-.–\s]*(\d{3})[-.–\s]*(\d{4})" NOFLAG;
   re "Cell[:\s]*\(?(\d{3})\)?[-.–\s]*(\d{3})[-.–\s]*(\d{4})" NOFLAG].

Definition name_blocklist : list str :=
  [u "EXPERIENCE"; u "EDUCATION"; u "SKILLS"; u "PROJECT"; u "DEVELOPER";
   u "ENGINEER"; u "MANAGER"; u "CONSULTANT"; u "COMPANY"; u "CORP"; u "INC";
   u "LLC"; u "LTD"; u "PVT"; u "SOLUTIONS"; u "TECHNOLOGIES"; u "SYSTEMS";
   u "JUNE"; u "JULY"; u "AUGUST"; u "SEPTEMBER"; u "OCTOBER"; u "NOVEMBER";
   u "DECEMBER"; u "JANUARY"; u "FEBRUARY"; u "MARCH"; u "APRIL"; u "MAY";
   u "HYDERABAD"; u "BANGALORE"; u "MUMBAI"; u "DELHI"; u "CHENNAI";
   u "PRESENT"; u "TO"; u "ENVIRONMENT"; u "ANGULARJS"; u "TELERIK"; u "WEB";
   u "UI"; u "HTTP"; u "MODULES"; u "SKILL"; u "SUMMARY"; u "TECHNICAL";
   u "PROFESSIONAL"; u "CERTIFIED"; u "ADMIN"].

(** [os.path.basename]: what follows the last slash. *)
Definition basename (path : str) : str := last (split path (u "/")) [].

Definition _extract_contact_info (text filename : str) : ContactInfo :=
  let lines := split (strip text) nl in
  (* email first, to help with the name *)
  let email :=
    for_each email_patterns [] (fun pattern email =>
      match search pattern text with
      | Some m => break (group_s m 1)
      | None => next email
      end) in
  (* the name, from the first 15 lines *)
  let name :=
    for_each (firstn 15 lines) [] (fun line name =>
      let line_clean := strip line in
      if negb (truthy line_clean) || (length line_clean <? 3) then next name
      else if (isupper line_clean
               && (2 <=? length (split_ws line_clean))
               && (length (split_ws line_clean) <=? 4))
              || is_some (match_ (re "^[A-Z][a-z]+ [A-Z][a-z]+" NOFLAG)
                            line_clean)
              || is_some (match_ (re "^[A-Z][a-z]+ [A-Z]\. [A-Z][a-z]+" NOFLAG)
                            line_clean)
      then
        if negb (contains_any (upper line_clean) name_blocklist)
        then break line_clean
        else next name
      else next name) in
  (* the name inferred from the email *)
  let name :=
    if negb (truthy name) && truthy email then
      let email_username := lower (nth 0 (split email (u "@")) []) in
      if contains email_username (u "ashok") then u "Ashok Kumar"
      else if contains email_username (u "connal") then u "Connal Jackson"
      else name
    else name in
  (* the name inferred from the file name *)
  let name :=
    if negb (truthy name) && truthy filename then
      let basename :=
        replace (replace (replace (basename filename) (u ".doc") [])
                   (u ".docx") []) (u ".pdf") [] in
      if contains (lower basename) (u "resume of ") then
        let potential_name :=
          strip (replace (lower basename) (u "resume of ") []) in
        join (u " ") (map capitalize (split_ws potential_name))
      else if contains_any (lower basename) [u "connal"; u "jackson"]
      then u "Connal Jackson"
      else name
    else name in
  let name_parts := if truthy name then split_ws name else [] in
  let given_name := nth 0 name_parts [] in
  let family_name := if 1 <? length name_parts then last name_parts [] else [] in
  let phone :=
    for_each phone_patterns [] (fun pattern phone =>
      match search pattern text with
      | Some m =>
          if 3 <=? ngroups pattern then
            break (u "(" ++ group_s m 1 ++ u ") " ++ group_s m 2
                   ++ u "-" ++ group_s m 3)
          else break (group_s m 0)
      | None => next phone
      end) in
  let contact_section := firstn 1000 text in
  let location_match :=
    search (re "([A-Z][a-z]+),\s*([A-Z][a-z]?)" NOFLAG) contact_section in
  {| FormattedName := name;
     GivenName := given_name;
     FamilyName := family_name;
     EmailAddresses := if truthy email then [email] else [];
     Telephones := if truthy phone then [phone] else [];
     Municipality :=
       match location_match with Some m => group_s m 1 | None => [] end;
     Region :=
       match location_match with Some m => group_s m 2 | None => [] end;
     CountryCode := u "US" |}.

(* ===================================================================== *)
(** ** SectionLocator and ExperienceExtractor *)
(* ===================================================================== *)

Definition experience_headers : list str :=
  [u "PROFESSIONAL EXPERIENCE"; u "WORK EXPERIENCE"; u "EMPLOYMENT HISTORY";
   u "EMPLOYMENT"; u "CHRONOLOGICAL SUMMARY OF EXPERIENCE";
   u "CAREER HISTORY"; u "WORK HISTORY";
   u "PROJECT HISTORY"; u "PROJECT EXPERIENCE"; u "PROJECTS"].

Definition end_headers : list str :=
  [u "EDUCATION"; u "SKILLS"; u "TECHNICAL SKILLS"; u "RELEVANT SKILLS";
   u "PROJECTS"; u "CERTIFICATIONS"; u "ACHIEVEMENTS"; u "AWARDS"].

Definition summary_indicators : list str :=
  [u "extensive experience"; u "experience in"; u "experience includes"].

Local Open Scope Z_scope.

(** The first loop of [_extract_experience_improved]: the pair
    [(experience_start, experience_end)] when the loop is left, [-1]
    standing for "not found" as in the source. *)
Definition locate_experience (lines : list str) : Z * Z :=
  for_each (enumerate lines) (-1, -1)
    (fun '(i, line) '(experience_start, experience_end) =>
      let line_clean := strip line in
      if negb (truthy line_clean) then next (experience_start, experience_end)
      else if experience_start =? -1 then
        if (Nat.eqb i 0)
           && (contains (upper line_clean) (u "PROJECT HISTORY")
               || contains_any line_clean
                    [u "Pvt."; u "Ltd."; u "Inc."; u "Corp."; u "Company";
                     u "LLC"])
        then break (0, experience_end)
        else
          let experience_start :=
            for_each experience_headers experience_start
              (fun header experience_start =>
                 if eqb (upper line_clean) header
                    || eqb (upper line_clean) (header ++ u ":")
                 then break (Z.of_nat i + 1)
                 else next experience_start) in
          if (experience_start =? -1)
             && eqb (upper line_clean) (u "EXPERIENCE")
          then
            let context_lines :=
              map (fun l => lower (strip l))
                (slice lines (i - 2) (i + 3)) in
            let context_text := join (u " ") context_lines in
            if negb (contains_any context_text summary_indicators)
            then break (Z.of_nat i + 1, experience_end)
            else next (experience_start, experience_end)
          else next (experience_start, experience_end)
      else if negb (experience_start =? -1) && (experience_end =? -1) then
        let experience_end :=
          for_each end_headers experience_end
            (fun header experience_end =>
               if eqb (upper line_clean) header
                  || eqb (upper line_clean) (header ++ u ":")
               then break (Z.of_nat i)
               else next experience_end) in
        next (experience_start, experience_end)
      else next (experience_start, experience_end)).

(** The lines of the experience section, [experience_lines] in the
    source; [None] when no section is found. *)
Definition experience_section (lines : list str) : option (list str) :=
  let '(experience_start, experience_end) := locate_experience lines in
  if experience_start =? -1 then None
  else
    let experience_end :=
      if experience_end =? -1 then Z.of_nat (length lines)
      else experience_end in
    Some (slice lines (Z.to_nat experience_start) (Z.to_nat experience_end)).

Local Close Scope Z_scope.

Definition action_verbs : list str :=
  [u "represented"; u "managed"; u "led"; u "developed"; u "collaborated";
   u "oversaw"; u "spearheaded"].

(** The company rules of the scan: whether the line is a company line,
    and the company and location read off it. *)
Definition company_line (line : str) : bool * str * str :=
  let is_company_line :=
    contains_any line
      [u "Pvt. Ltd."; u "Pvt Ltd"; u "Inc."; u "Corp."; u "LLC"; u "Company"]
    && (length line <? 150) in
  let no_verb := negb (startswith_any (lower line) action_verbs) in
  if (* Pattern 1 *)
     (contains line (u ",")
      && (contains line (u " - ") || contains line (u "Remote")) && no_verb)
     (* Pattern 2 *)
     || (contains line (u ",")
         && contains_any line
              [u "Inc"; u "Corp"; u "LLC"; u "CA"; u "TX"; u "NY"; u "FL"]
         && no_verb)
     (* Pattern 3 *)
     || contains_any line [u "Federal Credit Union"; u "Client:"]
     (* Pattern 4 *)
     || ((contains line (u "AT&T") || contains line (u "DIRECTV"))
         && (contains line (u ",") || contains line (u "("))
         && (length line <? 200) && no_verb)
     (* Pattern 5 *)
     || (contains line (u "–") && (length line <? 100) && no_verb)
     (* Pattern 6 *)
     || (contains line (u " - ") && (length line <? 100) && no_verb)
     (* Pattern 7 *)
     || (contains_any line
           [u "United Airline"; u "Emburse"; u "PepsiCo";
            u "Ligadata Solutions"; u "EtQ"]
         && (length line <? 100))
  then
    if startswith line (u "Client:") then
      let company_part := strip (replace line (u "Client:") []) in
      if contains company_part (u ",") then
        let company_location := split company_part (u ",") in
        (true, strip (nth 0 company_location []),
         strip (join (u ",") (skipn 1 company_location)))
      else (true, company_part, [])
    else if contains line (u " - ") || contains line (u "–") then
      let parts :=
        if contains line (u "–") then splitn line (u "–") 1
        else splitn line (u " - ") 1 in
      let main_part := nth 0 parts [] in
      let status := nth 1 parts [] in
      if contains main_part (u ",") then
        let company_parts := split main_part (u ",") in
        (true, strip (nth 0 company_parts []),
         strip (join (u ",") (skipn 1 company_parts)) ++ u ", "
         ++ strip status)
      else (true, strip main_part, strip status)
    else if contains line (u "(") && contains line (u ")") then
      let main_part := strip (nth 0 (split line (u "(")) []) in
      if contains main_part (u ",") then
        let company_location := rsplitn main_part (u ",") 2 in
        if 2 <=? length company_location then
          (true, strip (nth 0 company_location []),
           strip (join (u ", ") (skipn 1 company_location)))
        else (true, strip main_part, [])
      else (true, strip main_part, [])
    else if contains line (u ",") then
      let company_parts := split line (u ",") in
      (true, strip (nth 0 company_parts []),
       strip (join (u ",") (skipn 1 company_parts)))
    else (true, strip line, [])
  else (is_company_line, [], []).

(** The inner-most loop: the date line after a job title.  [j] is the
    index of the head of [ls] in [experience_lines]. *)
Fixpoint find_dates (ls : list str) (j : nat) : str * nat :=
  match ls with
  | [] => ([], j)
  | l :: ls' =>
      let date_line := strip l in
      if negb (truthy date_line) then find_dates ls' (S j)
      else if is_some (search (re "\d{2}.*\d{2}|Present|Current" NOFLAG)
                         date_line)
      then (date_line, j)
      else ([], j)
  end.

(** The job title and the dates read off a title line. *)
Definition title_and_dates (next_line : str) : str * str :=
  if contains next_line (u "(") && contains next_line (u ")") then
    match match_ (re "^(.*?)\s*\((.*?)\).*?$" NOFLAG) next_line with
    | Some title_match =>
        let job_title := strip (group_s title_match 1) in
        let potential_dates := strip (group_s title_match 2) in
        if is_some (search
             (re "(January|February|March|April|May|June|July|August|September|October|November|December|\d{1,2}/\d{4}|\d{4})"
                IGNORECASE) potential_dates)
        then (job_title, potential_dates)
        else (next_line, [])
    | None => (next_line, [])
    end
  else if is_some (search
            (re "\w{3}\'?\s*\d{2}\s*[–-]\s*(\w{3}\'?\s*\d{2}|Present|Current)"
               NOFLAG) next_line)
  then
    match match_
            (re "^(.*?)\s+(\w{3}\'?\s*\d{2}\s*[–-]\s*(?:\w{3}\'?\s*\d{2}|Present|Current).*?)$"
               NOFLAG) next_line with
    | Some title_match =>
        (strip (group_s title_match 1), strip (group_s title_match 2))
    | None => (next_line, [])
    end
  else (next_line, []).

(** The loop that looks for the job title after a company line: the job
    title, the dates, and the index [j] the loop is left with. *)
Fixpoint find_title (ls : list str) (j : nat) : str * str * nat :=
  match ls with
  | [] => ([], [], j)
  | l :: ls' =>
      let next_line := strip l in
      if negb (truthy next_line) then find_title ls' (S j)
      else if startswith next_line (u "(") && endswith next_line (u ")")
      then find_title ls' (S j)
      else if contains_any next_line
                [u "Consultant"; u "Manager"; u "Director"; u "Engineer";
                 u "Developer"; u "PMO"; u "Sr."; u "Lead"; u "Project"]
      then
        let '(job_title, dates) := title_and_dates next_line in
        if negb (truthy dates) then
          let '(dates, j') := find_dates ls' (S j) in (job_title, dates, j')
        else (job_title, dates, S j)
      else find_title ls' (S j)
  end.

Definition swap_job_keywords : list str :=
  [u "Developer"; u "Engineer"; u "Manager"; u "Analyst"; u "Specialist";
   u "Director"; u "Consultant"; u "Administrator"; u "Coordinator";
   u "Lead"; u "Senior"; u "Junior"; u "Assistant"; u "PMO"].

Definition swap_company_keywords : list str :=
  [u "Inc"; u "Corp"; u "LLC"; u "Company"; u "Solutions"; u "Technologies";
   u "Systems"; u "Consulting"; u "Group"; u "Services"].

Definition is_date_line (line : str) : bool :=
  is_some (search (re "^\s*\w{3}'\s*\d{2}\s*[–-]\s*" NOFLAG) line)
  || is_some (search (re "^\s*\d{1,2}/\d{4}\s*[–-]\s*" NOFLAG) line)
  || is_some (search (re "^\s*\w{3}'\s*\d{2}\s*[–-]\s*\w{3}'\s*\d{2}\s*$" NOFLAG)
                line)
  || is_some (search (re "^\s*\w{3}'\s*\d{2}\s*[–-]\s*Present\s*$" NOFLAG) line).

Definition add_description (p : Position) (d : str) : Position :=
  {| JobTitle := JobTitle p; Company := Company p; Location := Location p;
     StartDate := StartDate p; EndDate := EndDate p; Dates := Dates p;
     Description := Description p ++ [d] |}.

Definition set_dates (p : Position) (dates : option str)
    (start_date end_date : str) : Position :=
  {| JobTitle := JobTitle p; Company := Company p; Location := Location p;
     StartDate := start_date; EndDate := end_date;
     Dates := match dates with Some d => d | None => Dates p end;
     Description := Description p |}.

(** The [while i < len(experience_lines)] loop.  Every turn moves [i]
    forward, so [length experience_lines] turns are enough. *)
Fixpoint positions_loop (turns : nat) (experience_lines : list str) (i : nat)
    (current_position : option Position) (positions : list Position)
    : list Position * option Position :=
  match turns with
  | O => (positions, current_position)
  | S turns' =>
      if negb (i <? length experience_lines)
      then (positions, current_position)
      else
        let line := strip (nth i experience_lines []) in
        if negb (truthy line)
        then positions_loop turns' experience_lines (S i)
               current_position positions
        else if startswith_any line [u "-"; u "•"; u "◦"]
             || (is_some current_position
                 && ((8 <? length (split_ws line))
                     || startswith_any (lower line)
                          (action_verbs
                           ++ [u "established"; u "conducted"; u "implemented"])
                     || contains (lower line) (u "framework")
                     || contains (lower line) (u "compliance")
                     || contains (lower line) (u "requirements")))
        then
          let current_position :=
            match current_position with
            | Some p =>
                let description :=
                  if startswith_any line [u "-"; u "•"; u "◦"]
                  then strip (skipn 1 line) else line in
                Some (add_description p description)
            | None => None
            end in
          positions_loop turns' experience_lines (S i)
            current_position positions
        else if is_date_line line then
          let current_position :=
            match current_position with
            | Some p =>
                if negb (truthy (StartDate p)) then
                  let dates := strip line in
                  Some (set_dates p None (_parse_start_date dates)
                          (_parse_end_date dates))
                else Some p
            | None => None
            end in
          positions_loop turns' experience_lines (S i)
            current_position positions
        else
          let '(is_company_line, company, location) := company_line line in
          if is_company_line then
            let positions :=
              match current_position with
              | Some p => positions ++ [p]
              | None => positions
              end in
            let '(job_title, dates, j) :=
              find_title (skipn (i + 1) experience_lines) (i + 1) in
            let company_looks_like_job :=
              truthy company && contains_any company swap_job_keywords in
            let job_looks_like_company :=
              truthy job_title
              && contains_any job_title swap_company_keywords in
            let '(job_title, company) :=
              if company_looks_like_job && job_looks_like_company
              then (company, job_title) else (job_title, company) in
            let current_position :=
              {| JobTitle := job_title; Company := company;
                 Location := location;
                 StartDate := _parse_start_date dates;
                 EndDate := _parse_end_date dates;
                 Dates := dates; Description := [] |} in
            positions_loop turns' experience_lines j
              (Some current_position) positions
          else
            positions_loop turns' experience_lines (S i)
              current_position positions
  end.

Definition _extract_experience_improved (text : str) : list Position :=
  let lines := split text nl in
  match experience_section lines with
  | None => []
  | Some experience_lines =>
      let '(positions, current_position) :=
        positions_loop (length experience_lines) experience_lines 0 None [] in
      match current_position with
      | Some p => positions ++ [p]
      | None => positions
      end
  end.

(** *** [_enhance_positions_with_dates] *)

Definition enhance_date_patterns : list pattern :=
  [re "(October|November|December|January|February|March|April|May|June|July|August|September)\s+\d{4}\s*(?:[–-]|\bto\b)\s*(Present|Current|(October|November|December|January|February|March|April|May|June|July|August|September)\s+\d{4})"
      IGNORECASE;
   re "(Jan|Feb|Mar|Apr|May|Jun|Jul|Aug|Sep|Oct|Nov|Dec)\s+\d{2,4}\s*(?:[–-]|\bto\b)\s*(Present|Current|(Jan|Feb|Mar|Apr|May|Jun|Jul|Aug|Sep|Oct|Nov|Dec)\s+\d{2,4})"
      IGNORECASE;
   re "(Jan|Feb|Mar|Apr|May|Jun|Jul|Aug|Sep|Oct|Nov|Dec)'\s*\d{2}\s*(?:[–-]|\bto\b)\s*(Present|Current|(Jan|Feb|Mar|Apr|May|Jun|Jul|Aug|Sep|Oct|Nov|Dec)'\s*\d{2})"
      IGNORECASE;
   re "(\d{1,2}/\d{4})\s*(?:[–-]|\bto\b)\s*(Present|Current|\d{1,2}/\d{4})"
      IGNORECASE;
   re "(\d{4})\s*(?:[–-]|\bto\b)\s*(Present|Current|\d{4})" IGNORECASE].

(** An entry of [date_lines]; the keys [line_text], [start] and [end]
    of the source are written and never read. *)
Record DateLine := { line_num : nat; date_range : str }.

Definition find_date_lines (lines : list str) : list DateLine :=
  for_each (enumerate lines) [] (fun '(i, line) date_lines =>
    let line_clean := strip line in
    next (for_each enhance_date_patterns date_lines (fun pattern date_lines =>
      match search pattern line_clean with
      | Some m =>
          break (date_lines
                 ++ [{| line_num := i;
                        date_range := group_s m 1 ++ u " - " ++ group_s m 2 |}])
      | None => next date_lines
      end))).

Definition abs_diff (a b : nat) : nat := (a - b) + (b - a).

(** [date_lines.remove(d)]: the entries have distinct line numbers. *)
Fixpoint remove_date (d : DateLine) (l : list DateLine) : list DateLine :=
  match l with
  | [] => []
  | x :: r =>
      if (line_num x =? line_num d) && eqb (date_range x) (date_range d)
      then r else x :: remove_date d r
  end.

Definition _enhance_positions_with_dates (positions : list Position)
    (text : str) : list Position :=
  let lines := split text nl in
  let date_lines := find_date_lines lines in
  fst (for_each positions ([], date_lines)
    (fun position '(done, date_lines) =>
      if truthy (StartDate position) && truthy (EndDate position)
      then next (done ++ [position], date_lines)
      else
        let search_range := 10 in
        let job_title := JobTitle position in
        let company := Company position in
        let position_line :=
          for_each (enumerate lines) None (fun '(i, line) found =>
            if (truthy job_title && contains (lower line) (lower job_title))
               || (truthy company && contains (lower line) (lower company))
            then break (Some i) else next found) in
        match position_line with
        | None => next (done ++ [position], date_lines)
        | Some position_line =>
            let '(closest_date, _) :=
              for_each date_lines (None, None)
                (fun date_info '(closest_date, min_distance) =>
                   let distance := abs_diff (line_num date_info) position_line in
                   if (distance <=? search_range)
                      && match min_distance with
                         | None => true
                         | Some m => distance <? m
                         end
                   then next (Some date_info, Some distance)
                   else next (closest_date, min_distance)) in
            match closest_date with
            | Some closest_date =>
                next (done
                      ++ [set_dates position (Some (date_range closest_date))
                            (_parse_start_date (date_range closest_date))
                            (_parse_end_date (date_range closest_date))],
                      remove_date closest_date date_lines)
            | None => next (done ++ [position], date_lines)
            end
        end)).

(* ===================================================================== *)
(** ** SkillsExtractor *)
(* ===================================================================== *)

Definition _build_comprehensive_skills_database : list (str * list str) :=
  [(u "Programming Languages",
    [u "Python"; u "Java"; u "JavaScript"; u "TypeScript"; u "C++"; u "C#";
     u "Go"; u "Rust"; u "Ruby"; u "PHP"; u "Swift"; u "Kotlin"; u "Scala";
     u "R"; u "MATLAB"; u "SQL"; u "HTML"; u "CSS"; u "Shell"; u "Bash";
     u "PowerShell"; u "Perl"; u "VB.NET"; u "Dart"; u "Elixir"; u "Clojure";
     u "F#"; u "Haskell"]);
   (u "Cloud & DevOps",
    [u "AWS"; u "Azure"; u "GCP"; u "Google Cloud"; u "Docker"; u "Kubernetes";
     u "Jenkins"; u "Git"; u "GitLab"; u "GitHub"; u "CI/CD"; u "Terraform";
     u "Ansible"; u "Chef"; u "Puppet"; u "Vagrant"; u "Helm";
     u "Azure DevOps"; u "TFS"; u "Mesos"; u "Subversion"; u "SVN";
     u "Cloudflare"; u "Key Cloak"]);
   (u "Databases",
    [u "MySQL"; u "PostgreSQL"; u "MongoDB"; u "Redis"; u "SQLite"; u "Oracle";
     u "SQL Server"; u "Cassandra"; u "DynamoDB"; u "Elasticsearch";
     u "Neo4j"; u "InfluxDB"; u "Oracle Cloud"]);
   (u "Frameworks & Libraries",
    [u "React"; u "Angular"; u "Vue.js"; u "Django"; u "Flask"; u "FastAPI";
     u "Spring"; u "Express.js"; u "Node.js"; u ".NET"; u "Laravel"; u "Rails";
     u "jQuery"; u "Bootstrap"; u "TensorFlow"; u "PyTorch"; u "Keras";
     u "NumPy"; u "Pandas"; u "Scikit-learn"; u "OpenCV"; u "Responsive Web"]);
   (u "Enterprise Software",
    [u "SAP"; u "S/4 HANA"; u "Salesforce"; u "Microsoft Dynamics";
     u "ServiceNow"; u "EPIC"; u "Sitecore"; u "Backbase"; u "Clarity";
     u "TIBCO"; u "Pega DSM"; u "Comburent"; u "Office 365";
     u "Microsoft Office Suite"; u "Visio"; u "Adobe Workfront"; u "Hyperion";
     u "Jira"; u "Coupa"; u "Blockchain"; u "Digital Assets"]);
   (u "Data & Analytics",
    [u "ETL"; u "Big Data"; u "Hadoop"; u "Spark"; u "Kafka"; u "Data Mining";
     u "Machine Learning"; u "AI"; u "Deep Learning"; u "Data Visualization";
     u "Tableau"; u "Power BI"; u "Analytics"]);
   (u "Mobile & Web",
    [u "Mobile Apps"; u "iOS"; u "Android"; u "React Native"; u "Flutter";
     u "Xamarin"; u "Responsive Design"; u "Progressive Web Apps"; u "PWA";
     u "Mobile Development"]);
   (u "Security & Identity",
    [u "IAM"; u "Identity Access Management"; u "SSO"; u "Single Sign-On";
     u "MFA"; u "Multi-Factor Authentication"; u "SAML"; u "OAuth"; u "LDAP";
     u "Active Directory"; u "IBM Identity Security Access Manager";
     u "Shape Security"; u "BioCatch"; u "Cybersecurity";
     u "Information Security"]);
   (u "Project Management",
    [u "Agile"; u "Scrum"; u "Kanban"; u "SAFe"; u "Waterfall"; u "PMP";
     u "PMI"; u "Project Management"; u "Program Management";
     u "Portfolio Management"; u "PRINCE2"; u "Lean"; u "Six Sigma"])].

Definition skills_headers : list pattern :=
  [re "(?i)^(Technical Skillset|Technical Skills|Skills|Core Competencies|Technologies|Tools|Platforms)s?\s*$"
      NOFLAG;
   re "(?i)^(Relevant Skills|Key Skills|Professional Skills|Technical Expertise)\s*$"
      NOFLAG;
   re "(?i)^(Programming Languages|Software|Systems|Applications)\s*$" NOFLAG].

Definition _find_skills_sections (text : str) : list str :=
  let lines := split text nl in
  for_each (enumerate lines) [] (fun '(i, line) sections =>
    let line := strip line in
    next (for_each skills_headers sections (fun header_pattern sections =>
      if is_some (match_ header_pattern line) then
        let section_content :=
          for_each (skipn (i + 1) lines) [] (fun l section_content =>
            let next_line := strip l in
            if is_some (match_
                 (re "(?i)^(Experience|Education|Projects|Certifications|References|Contact|Summary)\s*$"
                    NOFLAG) next_line)
            then break section_content
            else if existsb (fun pattern => is_some (match_ pattern next_line))
                      skills_headers
            then break section_content
            else if truthy next_line
            then next (section_content ++ [next_line])
            else next section_content) in
        if nonempty section_content
        then break (sections ++ [join nl section_content])
        else break sections
      else next sections))).

Definition section_skill (n : str) (c : float) : SkillCandidate :=
  {| name := n; category := None; source := u "skills_section";
     confidence := c |}.

Definition _parse_skills_from_section (section_text : str)
    : list SkillCandidate :=
  if contains section_text (u "|") then
    let lines := split section_text nl in
    for_each lines [] (fun line skills =>
      if contains line (u "|") then
        let skill_items := map strip (split line (u "|")) in
        next (for_each skill_items skills (fun skill skills =>
          if truthy skill && (1 <? length skill)
          then next (skills ++ [section_skill skill 0.95])
          else next skills))
      else next skills)
  else if contains section_text (u ",") then
    let skill_items :=
      map strip (split (replace section_text nl (u ",")) (u ",")) in
    for_each skill_items [] (fun skill skills =>
      if truthy skill && (1 <? length skill)
      then next (skills ++ [section_skill skill 0.9])
      else next skills)
  else
    let lines := split section_text nl in
    for_each lines [] (fun line skills =>
      let line := strip line in
      let line := sub (re "^[-•*]\s*" NOFLAG) [] line in
      if truthy line && (1 <? length line)
      then next (skills ++ [section_skill line 0.85])
      else next skills).

Definition _extract_skills_from_experience (text : str)
    (skills_db : list (str * list str)) : list SkillCandidate :=
  let text_upper := upper text in
  let all_skills :=
    flat_map (fun '(category, skill_list) =>
      map (fun skill => (skill, category, upper skill)) skill_list) skills_db in
  for_each all_skills [] (fun '(skill_name, skill_category, search_term) skills =>
    if contains text_upper search_term
       && is_some (search
            (re_str (u "\b" ++ escape search_term ++ u "\b") NOFLAG) text_upper)
    then next (skills
               ++ [{| name := skill_name; category := Some skill_category;
                      source := u "experience_text"; confidence := 0.8 |}])
    else next skills).

Definition technical_patterns : list pattern :=
  [re "using\s+([A-Z][a-zA-Z]+)" IGNORECASE;
   re "with\s+([A-Z][a-zA-Z]+)" IGNORECASE;
   re "experience\s+(?:in|with)\s+([A-Z][a-zA-Z\s]+)" IGNORECASE;
   re "implemented\s+([A-Z][a-zA-Z\s]+)" IGNORECASE;
   re "developed\s+(?:using|with)\s+([A-Z][a-zA-Z\s]+)" IGNORECASE;
   re "expertise\s+(?:in|with)\s+([A-Z][a-zA-Z\s]+)" IGNORECASE].

Definition _extract_contextual_skills (text : str)
    (skills_db : list (str * list str)) : list SkillCandidate :=
  for_each technical_patterns [] (fun pattern skills =>
    next (for_each (finditer pattern text) skills (fun m skills =>
      let potential_skill := strip (group_s m 1) in
      next (for_each skills_db skills (fun '(skill_category, skill_list) skills =>
        next (for_each skill_list skills (fun known_skill skills =>
          if contains (upper potential_skill) (upper known_skill)
          then break (skills
                      ++ [{| name := known_skill;
                             category := Some skill_category;
                             source := u "contextual"; confidence := 0.7 |}])
          else next skills))))))).

(** [_deduplicate_skills]: [seen_skills] is keyed by the upper-cased
    name and read back by [values()], in order of first insertion. *)
Definition _deduplicate_skills (skills : list SkillCandidate)
    : list SkillCandidate :=
  let seen_skills :=
    for_each skills [] (fun skill seen_skills =>
      let skill_name := upper (name skill) in
      match dict_get seen_skills skill_name with
      | None => next (dict_set seen_skills skill_name skill)
      | Some kept =>
          if (confidence kept <? confidence skill)%float
          then next (dict_set seen_skills skill_name skill)
          else next seen_skills
      end) in
  dict_values seen_skills.

Definition _enhance_skill_metadata (skill : SkillCandidate) (text : str)
    : SkillEntry :=
  let skill_name := lower (name skill) in
  let text_lower := lower text in
  let months_experience :=
    if contains text_lower (u "expert " ++ skill_name)
       || contains text_lower (skill_name ++ u " expert") then 72%N
    else if contains text_lower (u "senior " ++ skill_name)
            || contains text_lower (u "lead " ++ skill_name) then 60%N
    else if contains text_lower (u "advanced " ++ skill_name) then 48%N
    else if contains_any text_lower
              [skill_name ++ u " developer"; skill_name ++ u " engineer";
               skill_name ++ u " architect"] then 36%N
    else if contains text_lower skill_name then 24%N
    else 12%N in
  {| sk_name := name skill;
     sk_category :=
       match category skill with
       | Some c => c
       | None => u "Technical Skills"
       end;
     months_experience := months_experience;
     sk_confidence := confidence skill;
     sk_source := source skill;
     last_used := u "2024" |}.

(** The candidates of the three methods, in the order they are added. *)
Definition skill_candidates (text : str) : list SkillCandidate :=
  let skills_database := _build_comprehensive_skills_database in
  let skills_sections := _find_skills_sections text in
  let skills := flat_map _parse_skills_from_section skills_sections in
  let skills := skills ++ _extract_skills_from_experience text skills_database in
  let skills := skills ++ _extract_contextual_skills text skills_database in
  skills.

Definition _extract_skills_improved (text : str) : list SkillEntry :=
  let unique_skills := _deduplicate_skills (skill_candidates text) in
  let final_skills :=
    map (fun skill => _enhance_skill_metadata skill text) unique_skills in
  firstn 25 final_skills.

(* ===================================================================== *)
(** ** Projects and certifications *)
(* ===================================================================== *)

Definition _extract_projects (text : str) : list ProjectEntry :=
  match search (re "Projects\s*\n(.*?)(?=\n[A-Z][a-z]+\s*\n|\Z)" DOTALL) text with
  | Some projects_match =>
      let projects_text := group_s projects_match 1 in
      let project_pattern :=
        re "([A-Z][A-Za-z\s-]+(?:Demo Link|Live App))\s*\n(.*?)(?=\n[A-Z][A-Za-z\s-]+(?:Demo Link|Live App)|\Z)"
          DOTALL in
      for_each (finditer project_pattern projects_text) [] (fun m projects =>
        let project_title := strip (group_s m 1) in
        let project_desc := strip (group_s m 2) in
        let bullet_points :=
          for_each (split project_desc nl) [] (fun line bullet_points =>
            let line := strip line in
            if startswith line (u "◦")
            then next (bullet_points ++ [strip (skipn 1 line)])
            else next bullet_points) in
        next (projects
              ++ [{| proj_name := project_title;
                     proj_description := bullet_points |}]))
  | None => []
  end.

Definition cert_keywords : list str :=
  [u "PMP"; u "Project Management Professional"; u "CISSP"; u "CISM";
   u "CISA"; u "CRISC"; u "CCNA"; u "MCSE"; u "ITIL"; u "SAFe"; u "Agilist";
   u "ScrumMaster"; u "Scrum Master"; u "Certified"; u "Professional";
   u "Certificate"].

Definition mk_cert (n : str) : Certification :=
  {| cert_name := n; authority := u "Professional Certification" |}.

Definition contains_any_ci (s : str) (ks : list str) : bool :=
  existsb (fun keyword => contains (lower s) (lower keyword)) ks.

Definition _extract_certifications (text : str) : list Certification :=
  let lines := split text nl in
  (* certification lines anywhere in the document *)
  let certifications :=
    for_each lines [] (fun line certifications =>
      let line_clean := strip line in
      if is_some (search (re "PMP\s+Certified|Scrum\s+Master\s+Certified"
                            IGNORECASE) line_clean)
      then
        let cert_parts := map strip (split line_clean (u "/")) in
        next (for_each cert_parts certifications (fun cert_part certifications =>
          if truthy cert_part && contains_any cert_part cert_keywords
          then next (certifications ++ [mk_cert cert_part])
          else next certifications))
      else if is_some (search
                (re "Project Management Professional.*\(PMP\)|Certified.*Agilist|Certified.*ScrumMaster|SAFe.*Agilist"
                   IGNORECASE) line_clean)
      then
        let cert_parts := map strip (split line_clean (u "|")) in
        next (for_each cert_parts certifications (fun cert_part certifications =>
          if truthy cert_part
             && contains_any_ci cert_part
                  [u "PMP"; u "Certified"; u "SAFe"; u "Agilist";
                   u "ScrumMaster"; u "Scrum Master"]
          then next (certifications ++ [mk_cert cert_part])
          else next certifications))
      else if is_some (search
                (re "^[A-Za-z\s,]+,\s*(MBA|MS|CISSP|CISM|CISA|CRISC|PMP)"
                   IGNORECASE) line_clean)
      then
        let name_parts := map strip (split line_clean (u ",")) in
        next (for_each (skipn 1 name_parts) certifications
          (fun part certifications =>
            if contains_any_ci part
                 [u "CISSP"; u "CISM"; u "CISA"; u "CRISC"; u "PMP";
                  u "Security+"; u "Network+"]
            then next (certifications ++ [mk_cert part])
            else next certifications))
      else next certifications) in
  (* certification sections *)
  snd (for_each lines (false, certifications)
    (fun line '(in_cert_section, certifications) =>
      let line_clean := strip line in
      if is_some (match_
           (re "^(Certifications?|Professional Certifications?)\s*:?\s*$"
              IGNORECASE) line_clean)
      then next (true, certifications)
      else if in_cert_section
           && is_some (match_
                (re "^(Education|Experience|Skills|Awards|Accolades|Professional Experience)"
                   IGNORECASE) line_clean)
      then break (in_cert_section, certifications)
      else if in_cert_section && truthy line_clean then
        if contains_any line_clean
             [u "Bachelors"; u "Masters"; u "MBA"; u "University"; u "Award";
              u "Outstanding"]
        then next (in_cert_section, certifications)
        else if contains_any line_clean cert_keywords
                || is_some (search (re "(Certified|Professional)\s+\w+" NOFLAG)
                              line_clean)
        then next (in_cert_section, certifications ++ [mk_cert line_clean])
        else next (in_cert_section, certifications)
      else next (in_cert_section, certifications))).

(* ===================================================================== *)
(** ** [parse_resume] *)
(* ===================================================================== *)

(** The clock behind [time.time()]: the readings it will give, and how
    many were taken.  Reading the clock is the one effect of a parse
    that its result can show. *)
Record World := { clock : nat -> float; reads : nat }.

Definition time_time (w : World) : float * World :=
  (clock w (reads w), {| clock := clock w; reads := S (reads w) |}).

Definition parse_resume (text filename : str) (w : World)
    : ResumeRecord * World :=
  let '(start_time, w) := time_time w in
  let contact_info := _extract_contact_info text filename in
  let education := _extract_education_improved text in
  let experience := _extract_experience_improved text in
  let experience := _enhance_positions_with_dates experience text in
  let skills := _extract_skills_improved text in
  let projects := _extract_projects text in
  let certifications := _extract_certifications text in
  let '(end_time, w) := time_time w in
  let processing_time := (end_time - start_time)%float in
  ({| ContactInformation := contact_info;
      EducationDetails := education;
      Positions := experience;
      Skills := skills;
      Projects := projects;
      Certifications := certifications;
      ProcessingTime := processing_time;
      QualityScore :=
        _calculate_quality_score contact_info experience education skills |},
   w).

(* ===================================================================== *)
(** * Definitions for the statements *)
(* ===================================================================== *)

(** Plain text: the characters on which the case tables of [PyStr] are
    those of Python.  They are ASCII and the caseless characters of the
    blocks General Punctuation (U+2000 to U+206F: the dashes, the quotes
    and the bullet) and Geometric Shapes (U+25A0 to U+25FF: the white
    bullet).  A letter outside ASCII can have an upper case the tables
    do not give: the upper case of the long s is S and that of the
    ligature fi is FI. *)
Definition plain_c (c : char) : bool :=
  (c <? 128)%N || in_range 8192 8303 c || in_range 9632 9727 c.

Definition plain (s : str) : bool := forallb plain_c s.

Definition weight (present : bool) (w : float) : float :=
  if present then w else 0.0%float.

(** The sum of the four weights, as the specification words it. *)
Definition weights_sum (name_present experience education skills : bool)
    : float :=
  (weight name_present 0.25 + weight experience 0.30
   + weight education 0.25 + weight skills 0.20)%float.

Definition doctorate_keywords : list str :=
  [u "phd"; u "ph.d"; u "doctorate"; u "doctoral"].

Definition masters_keywords : list str :=
  [u "master"; u "mba"; u "msc"; u "ms "; u "ma "; u "executive mba"].

(** The pattern of a literal word. *)
Fixpoint lit (kw : str) : regex :=
  match kw with
  | [] => REmpty
  | [c] => RChar c
  | c :: r => RCat (RChar c) (lit r)
  end.

Definition CI : flags := Flags true false.

Definition current_words : list str :=
  [u "present"; u "current"; u "now"; u "ongoing"].

Definition current_regex : regex :=
  RGroup 1
    (RAlt (lit (u "present"))
       (RAlt (lit (u "current")) (RAlt (lit (u "now")) (lit (u "ongoing"))))).

Definition digits : list N := [0; 1; 2; 3; 4; 5; 6; 7; 8; 9]%N.

(** The two characters of the year with the decimal digits [d1 d2]. *)
Definition year2 (d1 d2 : N) : str := [(48 + d1)%N; (48 + d2)%N].

(** The century the specification gives the two-digit year [10 d1 + d2]. *)
Definition century (d1 d2 : N) : str :=
  if (10 * d1 + d2 <=? 30)%N then u "20" else u "19".

Definition year_rule_holds (m n : str) (d1 d2 : N) : bool :=
  eqb (_parse_start_date (m ++ u "' " ++ year2 d1 d2 ++ u " – Present"))
      (century d1 d2 ++ year2 d1 d2 ++ u "-" ++ n ++ u "-01")
  && eqb (_parse_end_date (u "Jan' 05 – " ++ m ++ u "' " ++ year2 d1 d2))
         (century d1 d2 ++ year2 d1 d2 ++ u "-" ++ n ++ u "-01").

Definition dedup_step (seen_skills : dict SkillCandidate)
    (skill : SkillCandidate) : dict SkillCandidate :=
  let skill_name := upper (name skill) in
  match dict_get seen_skills skill_name with
  | None => dict_set seen_skills skill_name skill
  | Some kept =>
      if (confidence kept <? confidence skill)%float
      then dict_set seen_skills skill_name skill
      else seen_skills
  end.

(** What the loop keeps true of the skills gone through and of
    [seen_skills]: the keys are distinct; every entry is filed under its
    upper-cased name and is one of the skills gone through; and for
    every skill gone through there is an entry under its name whose
    confidence is not below its own. *)
Definition dedup_inv (processed : list SkillCandidate)
    (seen : dict SkillCandidate) : Prop :=
  NoDup (map fst seen)
  /\ Forall (fun kv => fst kv = upper (name (snd kv)) /\ In (snd kv) processed)
       seen
  /\ forall c, In c processed ->
       exists v, dict_get seen (upper (name c)) = Some v
                 /\ (confidence v <? confidence c)%float = false.

Definition python_contextual : SkillCandidate :=
  {| name := u "Python"; category := Some (u "Programming Languages");
     source := u "contextual"; confidence := 0.7 |}.

Definition python_section : SkillCandidate :=
  {| name := u "Python"; category := None;
     source := u "skills_section"; confidence := 0.9 |}.

Definition python_text : str :=
  u "Skills
Python, SQL
Summary
Built tools using Python".

Definition bare_header_text : str :=
  u "EXPERIENCE
Acme Inc., Austin, TX - Remote
Software Engineer
Feb' 16 – Present
EDUCATION
BSc, Computer Science, State University - Austin".

Definition listed_header_text : str :=
  u "PROFESSIONAL EXPERIENCE
Acme Inc., Austin, TX - Remote
Software Engineer
Feb' 16 – Present
EDUCATION
BSc, Computer Science, State University - Austin".

(** The closing pass as a recursion over the candidates, [seen] being
    the degree names kept so far. *)
Fixpoint unique_from (seen : list str) (l : list EducationEntry)
    : list EducationEntry :=
  match l with
  | [] => []
  | edu :: l' =>
      if truthy (Degree_Name edu) && negb (mem (Degree_Name edu) seen)
      then edu :: unique_from (Degree_Name edu :: seen) l'
      else unique_from seen l'
  end.

Definition extends (e s : list EducationEntry) : Prop :=
  exists added, s = e ++ added.

Definition repeated_degree_text : str :=
  u "Jane Roe, MBA, MBA Finance, mba
Education
MBA, Finance, Pace University".

Definition case_degree_text : str :=
  u "Jane Roe, MBA Finance
Education
mba, Finance, Pace University".

Definition roman_text : str :=
  u "Jane Roe
Education
i. Bachelor X.
Some University".

(** Every pattern the embedding hands to [re], with its flags. *)
Definition source_patterns : list (str * flags) :=
  [(u "(January|February|March|April|May|June|July|August|September|October|November|December)\s+(\d{4})", IGNORECASE);
   (u "([A-Za-z]{3})'?\s*'?\s*(\d{2,4})", NOFLAG);
   (u "(\d{4})", NOFLAG);
   (u "(?i)(present|current|now|ongoing)", NOFLAG);
   (u "\b(MBA|MS|MA|BS|BA|PhD|MSc|BSc|Ph\.?D\.?)\s*([^,]*)", IGNORECASE);
   (u "^(EDUCATION|Education|EDUCATION:|Education\s*/\s*Certifications|\s*Education\s*&\s*Training)\s*:?\s*$", IGNORECASE);
   (u "^(Skills|Experience|Certifications|Projects|Professional|Work|Employment)", IGNORECASE);
   (u "(BSc|MSc|BA|MA|BS|MS|PhD|MBA|Bachelor|Master)", IGNORECASE);
   (u "(BSc|MSc|BA|MA|BS|MS|PhD|MBA|Bachelor[^,]*|Master[^,]*),?\s*([^,]*),?\s*(.*)", IGNORECASE);
   (u "^(Bachelors?|Masters?|Executive MBA|MBA)\s+in\s+.*,\s+.*University", IGNORECASE);
   (u "^(Bachelors?|Masters?|Executive MBA|MBA)\s+in\s+(.*?),\s+(.*University[^,]*)", IGNORECASE);
   (u "(Master of|Bachelor of|PhD in|PHD in)\s+.*\s+(from|at)\s+.*University", IGNORECASE);
   (u "(Master of|Bachelor of|PhD in|PHD in)\s+(.*?)\s+(?:with.*?)?\s*(?:from|at)\s+(.*)", IGNORECASE);
   (u "^(Master of Science|Master of Business Administration|Bachelor of|PhD|PHD)\s+.*", IGNORECASE);
   (u "^(Master of Science|Master of Business Administration|Bachelor of[^,]*|PhD|PHD)\s*(.*?)(?:\s+with.*)?$", IGNORECASE);
   (u "^(PHD|PhD|Master|Bachelor)\s+in\s+.*", IGNORECASE);
   (u "^(PHD|PhD|Master|Bachelor)\s+in\s+(.*)", IGNORECASE);
   (u "^Education\s*$", IGNORECASE);
   (u "^(Certificates?|Skills|Management|IT\s+Skills)", IGNORECASE);
   (u "[IVX]+\.\s*(Bachelor|Master)", IGNORECASE);
   (u "[IVX]+\.\s*(.*)", NOFLAG);
   (u "^(.*?)\s*\((\d{4})\)$", NOFLAG);
   (u "University.*–.*USA", IGNORECASE);
   (u "University.*,.*UK", IGNORECASE);
   (u "(Master of Business Administration|Bachelor of Computer Science|MBA)", IGNORECASE);
   (u "(Master of Business Administration|Bachelor of Computer Science|MBA)[^–]*", IGNORECASE);
   (u "\b([a-zA-Z0-9._%+-]+@[a-zA-Z0-9.-]+\.[a-zA-Z]{2,})\b", NOFLAG);
   (u "\((\d{3})\)[-.–\s]*(\d{3})[-.–\s]*(\d{4})", NOFLAG);
   (u "\((\d{3})\)\s*(\d{3})[-.–]\s*(\d{4})", NOFLAG);
   (u "(\d{3})[-.–\s]+(\d{3})[-.–\s]+(\d{4})", NOFLAG);
   (u "\+1?\s*(\d{3})[-.–)\s]*(\d{3})[-.–)\s]*(\d{4})", NOFLAG);
   (u "Phone[:\s]*\(?(\d{3})\)?[-.–\s]*(\d{3})[-.–\s]*(\d{4})", NOFLAG);
   (u "Tel[:\s]*\(?(\d{3})\)?[-.–\s]*(\d{3})[-.–\s]*(\d{4})", NOFLAG);
   (u "Mobile[:\s]*\(?(\d{3})\)?[-.–\s]*(\d{3})[-.–\s]*(\d{4})", NOFLAG);
   (u "Cell[:\s]*\(?(\d{3})\)?[-.–\s]*(\d{3})[-.–\s]*(\d{4})", NOFLAG);
   (u "^[A-Z][a-z]+ [A-Z][a-z]+", NOFLAG);
   (u "^[A-Z][a-z]+ [A-Z]\. [A-Z][a-z]+", NOFLAG);
   (u "([A-Z][a-z]+),\s*([A-Z][a-z]?)", NOFLAG);
   (u "\d{2}.*\d{2}|Present|Current", NOFLAG);
   (u "^(.*?)\s*\((.*?)\).*?$", NOFLAG);
   (u "(January|February|March|April|May|June|July|August|September|October|November|December|\d{1,2}/\d{4}|\d{4})", IGNORECASE);
   (u "\w{3}\'?\s*\d{2}\s*[–-]\s*(\w{3}\'?\s*\d{2}|Present|Current)", NOFLAG);
   (u "^(.*?)\s+(\w{3}\'?\s*\d{2}\s*[–-]\s*(?:\w{3}\'?\s*\d{2}|Present|Current).*?)$", NOFLAG);
   (u "^\s*\w{3}'\s*\d{2}\s*[–-]\s*", NOFLAG);
   (u "^\s*\d{1,2}/\d{4}\s*[–-]\s*", NOFLAG);
   (u "^\s*\w{3}'\s*\d{2}\s*[–-]\s*\w{3}'\s*\d{2}\s*$", NOFLAG);
   (u "^\s*\w{3}'\s*\d{2}\s*[–-]\s*Present\s*$", NOFLAG);
   (u "(October|November|December|January|February|March|April|May|June|July|August|September)\s+\d{4}\s*(?:[–-]|\bto\b)\s*(Present|Current|(October|November|December|January|February|March|April|May|June|July|August|September)\s+\d{4})", IGNORECASE);
   (u "(Jan|Feb|Mar|Apr|May|Jun|Jul|Aug|Sep|Oct|Nov|Dec)\s+\d{2,4}\s*(?:[–-]|\bto\b)\s*(Present|Current|(Jan|Feb|Mar|Apr|May|Jun|Jul|Aug|Sep|Oct|Nov|Dec)\s+\d{2,4})", IGNORECASE);
   (u "(Jan|Feb|Mar|Apr|May|Jun|Jul|Aug|Sep|Oct|Nov|Dec)'\s*\d{2}\s*(?:[–-]|\bto\b)\s*(Present|Current|(Jan|Feb|Mar|Apr|May|Jun|Jul|Aug|Sep|Oct|Nov|Dec)'\s*\d{2})", IGNORECASE);
   (u "(\d{1,2}/\d{4})\s*(?:[–-]|\bto\b)\s*(Present|Current|\d{1,2}/\d{4})", IGNORECASE);
   (u "(\d{4})\s*(?:[–-]|\bto\b)\s*(Present|Current|\d{4})", IGNORECASE);
   (u "(?i)^(Technical Skillset|Technical Skills|Skills|Core Competencies|Technologies|Tools|Platforms)s?\s*$", NOFLAG);
   (u "(?i)^(Relevant Skills|Key Skills|Professional Skills|Technical Expertise)\s*$", NOFLAG);
   (u "(?i)^(Programming Languages|Software|Systems|Applications)\s*$", NOFLAG);
   (u "(?i)^(Experience|Education|Projects|Certifications|References|Contact|Summary)\s*$", NOFLAG);
   (u "^[-•*]\s*", NOFLAG);
   (u "using\s+([A-Z][a-zA-Z]+)", IGNORECASE);
   (u "with\s+([A-Z][a-zA-Z]+)", IGNORECASE);
   (u "experience\s+(?:in|with)\s+([A-Z][a-zA-Z\s]+)", IGNORECASE);
   (u "implemented\s+([A-Z][a-zA-Z\s]+)", IGNORECASE);
   (u "developed\s+(?:using|with)\s+([A-Z][a-zA-Z\s]+)", IGNORECASE);
   (u "expertise\s+(?:in|with)\s+([A-Z][a-zA-Z\s]+)", IGNORECASE);
   (u "Projects\s*\n(.*?)(?=\n[A-Z][a-z]+\s*\n|\Z)", DOTALL);
   (u "([A-Z][A-Za-z\s-]+(?:Demo Link|Live App))\s*\n(.*?)(?=\n[A-Z][A-Za-z\s-]+(?:Demo Link|Live App)|\Z)", DOTALL);
   (u "PMP\s+Certified|Scrum\s+Master\s+Certified", IGNORECASE);
   (u "Project Management Professional.*\(PMP\)|Certified.*Agilist|Certified.*ScrumMaster|SAFe.*Agilist", IGNORECASE);
   (u "^[A-Za-z\s,]+,\s*(MBA|MS|CISSP|CISM|CISA|CRISC|PMP)", IGNORECASE);
   (u "^(Certifications?|Professional Certifications?)\s*:?\s*$", IGNORECASE);
   (u "^(Education|Experience|Skills|Awards|Accolades|Professional Experience)", IGNORECASE);
   (u "(Certified|Professional)\s+\w+", NOFLAG)].

(** The four groups the quality score looks at: a formatted name,
    positions, education entries, skills. *)
Definition groups_present (c : ContactInfo) (x : list Position)
    (e : list EducationEntry) (s : list SkillEntry)
    : bool * bool * bool * bool :=
  (truthy (FormattedName c), nonempty x, nonempty e, nonempty s).

Definition groups_le (g g' : bool * bool * bool * bool) : bool :=
  let '(a, b, c, d) := g in
  let '(a', b', c', d') := g' in
  implb a a' && implb b b' && implb c c' && implb d d'.

(** What every education candidate has in common: the degree type is
    the classification of the degree name, and start date, end date and
    GPA are empty. *)
Definition education_wf (e : EducationEntry) : Prop :=
  Degree_Type e = _classify_degree_type (Degree_Name e)
  /\ edu_StartDate e = [] /\ edu_EndDate e = [] /\ GPA e = [].

Definition degree_types : list str :=
  [u "bachelors"; u "masters"; u "doctorate"].

(** What the date post-pass may do to a position: nothing at all, or
    set [Dates], [StartDate] and [EndDate] together, the two dates being
    the normalisation of [Dates]; never when the position had both
    dates, and never touching the other fields. *)
Definition dates_filled (p q : Position) : Prop :=
  JobTitle q = JobTitle p /\ Company q = Company p
  /\ Location q = Location p /\ Description q = Description p
  /\ (q = p
      \/ (truthy (StartDate p) && truthy (EndDate p) = false
          /\ StartDate q = _parse_start_date (Dates q)
          /\ EndDate q = _parse_end_date (Dates q))).




(** [line_clean.upper() == header or line_clean.upper() == header + ':']
    for one of the headers. *)
Definition is_header (headers : list str) (line_clean : str) : bool :=
  existsb (fun header =>
    eqb (upper line_clean) header || eqb (upper line_clean) (header ++ u ":"))
    headers.

(** The markers that make line 0 the start of the section. *)
Definition line0_marker (line_clean : str) : bool :=
  contains (upper line_clean) (u "PROJECT HISTORY")
  || contains_any line_clean
       [u "Pvt."; u "Ltd."; u "Inc."; u "Corp."; u "Company"; u "LLC"].

(** A line the search for the start passes over: blank, or neither a
    listed header nor the bare header. *)
Definition passed_over (line : str) : bool :=
  negb (truthy (strip line))
  || (negb (is_header experience_headers (strip line))
      && negb (eqb (upper (strip line)) (u "EXPERIENCE"))).

(** A line that, as line 0, does not set off the rule of line 0: blank,
    or without marker. *)
Definition no_marker (line : str) : bool :=
  negb (truthy (strip line)) || negb (line0_marker (strip line)).

(** A line that closes the section. *)
Definition closes_section (line : str) : bool :=
  truthy (strip line) && is_header end_headers (strip line).

(** The body of the loop of [locate_experience]. *)
Definition locate_step (lines : list str)
    : nat * str -> Z * Z -> (Z * Z) * bool :=
  fun '(i, line) '(experience_start, experience_end) =>
    let line_clean := strip line in
    if negb (truthy line_clean) then next (experience_start, experience_end)
    else if (experience_start =? -1)%Z then
      if (Nat.eqb i 0)
         && (contains (upper line_clean) (u "PROJECT HISTORY")
             || contains_any line_clean
                  [u "Pvt."; u "Ltd."; u "Inc."; u "Corp."; u "Company";
                   u "LLC"])
      then break (0%Z, experience_end)
      else
        let experience_start :=
          for_each experience_headers experience_start
            (fun header experience_start =>
               if eqb (upper line_clean) header
                  || eqb (upper line_clean) (header ++ u ":")
               then break (Z.of_nat i + 1)%Z
               else next experience_start) in
        if (experience_start =? -1)%Z
           && eqb (upper line_clean) (u "EXPERIENCE")
        then
          let context_lines :=
            map (fun l => lower (strip l))
              (slice lines (i - 2) (i + 3)) in
          let context_text := join (u " ") context_lines in
          if negb (contains_any context_text summary_indicators)
          then break ((Z.of_nat i + 1)%Z, experience_end)
          else next (experience_start, experience_end)
        else next (experience_start, experience_end)
    else if negb (experience_start =? -1)%Z && (experience_end =? -1)%Z then
      let experience_end :=
        for_each end_headers experience_end
          (fun header experience_end =>
             if eqb (upper line_clean) header
                || eqb (upper line_clean) (header ++ u ":")
             then break (Z.of_nat i)
             else next experience_end) in
      next (experience_start, experience_end)
    else next (experience_start, experience_end).

(** [name] is listed under [category] in the skills database. *)
Definition known_skill (category name : str) : Prop :=
  exists skill_list,
    In (category, skill_list) _build_comprehensive_skills_database
    /\ In name skill_list.

(** The confidence and the source that go together. *)
Definition section_confidence (c : float) : Prop :=
  (c = 0.95 \/ c = 0.9 \/ c = 0.85)%float.

Definition database_origin (source : str) (c : float) : Prop :=
  (source = u "experience_text" /\ c = 0.8%float)
  \/ (source = u "contextual" /\ c = 0.7%float).

(** What the three discovery methods produce. *)
Definition candidate_wf (c : SkillCandidate) : Prop :=
  (category c = None /\ source c = u "skills_section"
   /\ 1 < length (name c) /\ section_confidence (confidence c))
  \/ (exists cat, category c = Some cat /\ known_skill cat (name c)
                  /\ database_origin (source c) (confidence c)).

(** What a skill of the result looks like. *)
Definition skill_entry_wf (e : SkillEntry) : Prop :=
  last_used e = u "2024"
  /\ In (months_experience e) [12; 24; 36; 48; 60; 72]%N
  /\ ((sk_source e = u "skills_section"
       /\ sk_category e = u "Technical Skills"
       /\ 1 < length (sk_name e) /\ section_confidence (sk_confidence e))
      \/ (known_skill (sk_category e) (sk_name e)
          /\ database_origin (sk_source e) (sk_confidence e))).

(** A certification with a name and the one authority the code knows. *)
Definition cert_wf (c : Certification) : Prop :=
  truthy (cert_name c) = true /\ authority c = u "Professional Certification".

(** One turn of the [while] loop of [_extract_experience_improved], for
    [i < len(experience_lines)]: the index, the current position and the
    positions the turn leaves. *)
Definition positions_turn (experience_lines : list str) (i : nat)
    (current_position : option Position) (positions : list Position)
    : nat * option Position * list Position :=
  let line := strip (nth i experience_lines []) in
  if negb (truthy line)
  then (S i, current_position, positions)
  else if startswith_any line [u "-"; u "•"; u "◦"]
       || (is_some current_position
           && ((8 <? length (split_ws line))
               || startswith_any (lower line)
                    (action_verbs
                     ++ [u "established"; u "conducted"; u "implemented"])
               || contains (lower line) (u "framework")
               || contains (lower line) (u "compliance")
               || contains (lower line) (u "requirements")))
  then
    let current_position :=
      match current_position with
      | Some p =>
          let description :=
            if startswith_any line [u "-"; u "•"; u "◦"]
            then strip (skipn 1 line) else line in
          Some (add_description p description)
      | None => None
      end in
    (S i, current_position, positions)
  else if is_date_line line then
    let current_position :=
      match current_position with
      | Some p =>
          if negb (truthy (StartDate p)) then
            let dates := strip line in
            Some (set_dates p None (_parse_start_date dates)
                    (_parse_end_date dates))
          else Some p
      | None => None
      end in
    (S i, current_position, positions)
  else
    let '(is_company_line, company, location) := company_line line in
    if is_company_line then
      let positions :=
        match current_position with
        | Some p => positions ++ [p]
        | None => positions
        end in
      let '(job_title, dates, j) :=
        find_title (skipn (i + 1) experience_lines) (i + 1) in
      let company_looks_like_job :=
        truthy company && contains_any company swap_job_keywords in
      let job_looks_like_company :=
        truthy job_title
        && contains_any job_title swap_company_keywords in
      let '(job_title, company) :=
        if company_looks_like_job && job_looks_like_company
        then (company, job_title) else (job_title, company) in
      let current_position :=
        {| JobTitle := job_title; Company := company;
           Location := location;
           StartDate := _parse_start_date dates;
           EndDate := _parse_end_date dates;
           Dates := dates; Description := [] |} in
      (j, Some current_position, positions)
    else (S i, current_position, positions).

(** The run of the [while i < len(experience_lines)] loop from a state
    to the state it is left in: [while_run lines n i c ps r] says that the
    loop started with index [i], current position [c] and positions [ps]
    is left after [n] turns with the positions and current position [r].
    A loop that goes on for ever has no run. *)
Inductive while_run (experience_lines : list str)
    : nat -> nat -> option Position -> list Position
      -> list Position * option Position -> Prop :=
| while_left (i : nat) (c : option Position) (ps : list Position) :
    length experience_lines <= i ->
    while_run experience_lines 0 i c ps (ps, c)
| while_turn (n i : nat) (c : option Position) (ps : list Position)
    (i' : nat) (c' : option Position) (ps' : list Position)
    (r : list Position * option Position) :
    i < length experience_lines ->
    positions_turn experience_lines i c ps = (i', c', ps') ->
    while_run experience_lines n i' c' ps' r ->
    while_run experience_lines (S n) i c ps r.



(* ===================================================================== *)
(** ** The servers: [allowed_file] and [extract_text_from_file] *)
(* ===================================================================== *)

(** [clean_server.py] takes an upload when [allowed_file] accepts its
    name, and hands it to [extract_text_from_file] of [fixed_server.py]. *)

Definition ALLOWED_EXTENSIONS : list str :=
  [u "pdf"; u "doc"; u "docx"; u "txt"].

Definition allowed_file (filename : str) : bool :=
  contains filename (u ".")
  && mem (lower (nth 1 (rsplitn filename (u ".") 1) [])) ALLOWED_EXTENSIONS.

(** What [extract_text_from_file] calls to read a file: each gives a
    text, and the two that are not guarded by a [try] of their own give
    either a text or the message of the exception raised. *)
Record Readers := {
  extract_text_from_pdf : str -> str;
  read_utf8 : str -> str + str;
  universal_extract : str -> str -> str + str;
  clean_doc_text_extraction : str -> str -> str
}.

Definition extract_text_from_file (io : Readers) (file_path filename : str)
    : str :=
  if endswith (lower filename) (u ".pdf")
  then extract_text_from_pdf io file_path
  else if endswith (lower filename) (u ".txt") then
    match read_utf8 io file_path with
    | inl text => text
    | inr e => u "Error reading file: " ++ e
    end
  else if endswith (lower filename) (u ".docx")
          || endswith (lower filename) (u ".doc")
  then
    match universal_extract io file_path filename with
    | inl raw_text =>
        if endswith (lower filename) (u ".doc")
           && startswith raw_text (u "Unable to extract text")
        then clean_doc_text_extraction io file_path filename
        else raw_text
    | inr e => u "Error reading file: " ++ e
    end
  else u "Unsupported file format".

(** The characters of a reversed file name before its first dot: the
    extension, reversed. *)
Fixpoint before_dot (r : str) : str :=
  match r with
  | [] => []
  | c :: r' => if ceqb 46 c then [] else c :: before_dot r'
  end.

(** Readers that find nothing, for the examples. *)
Definition no_readers : Readers :=
  {| extract_text_from_pdf := fun _ => [];
     read_utf8 := fun _ => inl [];
     universal_extract := fun _ _ => inl [];
     clean_doc_text_extraction := fun _ _ => [] |}.

(** A date string that is one four-digit year [c d3 d4], [c] the
    century, and what the two parsers make of it. *)
Definition lone_year_holds (c : str) (d3 d4 : N) : bool :=
  eqb (_parse_start_date (c ++ year2 d3 d4))
      (c ++ year2 d3 d4 ++ u "-01-01")
  && eqb (_parse_end_date (c ++ year2 d3 d4))
         (c ++ year2 d3 d4 ++ u "-12-31").

(* ===================================================================== *)
(** * Properties *)
(* ===================================================================== *)


(** ** Strings *)

Lemma ceqb_eq (a b : char) : ceqb a b = true <-> a = b.
Proof. apply N.eqb_eq. Qed.

Lemma eqb_eq (a b : str) : eqb a b = true <-> a = b.
Proof.
  revert b; induction a as [|x a IH]; intros [|y b]; simpl;
    try (split; (discriminate || reflexivity)).
  rewrite andb_true_iff, ceqb_eq, IH.
  split; [intros [-> ->]; reflexivity | intros H; injection H; auto].
Qed.

Lemma eqb_refl (a : str) : eqb a a = true.
Proof. apply eqb_eq; reflexivity. Qed.

Lemma eqb_neq (a b : str) : eqb a b = false <-> a <> b.
Proof.
  rewrite <- eqb_eq. destruct (eqb a b); split; congruence.
Qed.

Lemma mem_In (x : str) (l : list str) : mem x l = true <-> In x l.
Proof.
  unfold mem. rewrite existsb_exists. split.
  - intros (y & Hy & E). apply eqb_eq in E. subst; assumption.
  - intros H. exists x. split; [assumption | apply eqb_refl].
Qed.

Lemma truthy_nonempty (s : str) : truthy s = true <-> s <> [].
Proof. destruct s; simpl; split; congruence. Qed.

(** ** Loops *)

(** A loop whose body never leaves by [break] is a left fold. *)
Lemma for_each_fold {A S : Type} (step : A -> S -> S) (xs : list A) (s : S) :
  for_each xs s (fun x s => next (step x s))
  = fold_left (fun s x => step x s) xs s.
Proof.
  revert s; induction xs as [|x xs IH]; intros s; simpl; [reflexivity|].
  apply IH.
Qed.

Lemma for_each_ext {A S : Type} (f g : A -> S -> S * bool) (xs : list A)
    (s : S) :
  (forall x s, f x s = g x s) -> for_each xs s f = for_each xs s g.
Proof.
  intros E. revert s; induction xs as [|x xs IH]; intros s; simpl;
    [reflexivity|].
  rewrite E. destruct (g x s) as [s' [|]]; [reflexivity | apply IH].
Qed.

(** A property of the loop state that every turn keeps holds at the end. *)
Lemma for_each_inv {A S : Type} (P : S -> Prop) (f : A -> S -> S * bool)
    (xs : list A) (s : S) :
  P s -> (forall x s, P s -> P (fst (f x s))) -> P (for_each xs s f).
Proof.
  intros H0 Hstep. revert s H0; induction xs as [|x xs IH]; intros s H0;
    simpl; [assumption|].
  specialize (Hstep x s H0). destruct (f x s) as [s' [|]]; simpl in Hstep;
    [assumption | apply IH; assumption].
Qed.

(** ** The empty input *)

(** C1.  [parse("", filename="")] returns a record (the embedding is a
    total function, and on this input no indexing of the source is
    reached) in which the e-mail addresses, telephones, education
    entries, positions, skills, projects and certifications are all
    empty, the formatted name is the empty string, and the quality score
    is [0.0], whatever the clock reads. *)
Theorem parse_resume_empty_input (w : World) :
  let r := fst (parse_resume [] [] w) in
  EmailAddresses (ContactInformation r) = []
  /\ Telephones (ContactInformation r) = []
  /\ EducationDetails r = []
  /\ Positions r = []
  /\ Skills r = []
  /\ Projects r = []
  /\ Certifications r = []
  /\ FormattedName (ContactInformation r) = []
  /\ QualityScore r = 0.0%float.
Proof.
  destruct w as [clk n]. vm_compute. repeat split.
Qed.

(** ** The quality score *)

Lemma quality_score_weights (c : ContactInfo) (x : list Position)
    (e : list EducationEntry) (s : list SkillEntry) :
  _calculate_quality_score c x e s
  = weights_sum (truthy (FormattedName c)) (nonempty x) (nonempty e)
      (nonempty s)
  /\ (0 <=? _calculate_quality_score c x e s)%float = true
  /\ (_calculate_quality_score c x e s <=? 1)%float = true.
Proof.
  unfold _calculate_quality_score, weights_sum.
  destruct (truthy (FormattedName c)), (nonempty x), (nonempty e),
    (nonempty s); vm_compute; repeat split.
Qed.

(** C6.  The quality score of every parse result is the sum of the four
    weights, [0.25] for a formatted name, [0.30] for a non-empty list of
    positions, [0.25] for a non-empty list of education entries and
    [0.20] for a non-empty list of skills, and it lies between [0] and
    [1]. *)
Theorem quality_score_is_weighted_sum (text filename : str) (w : World) :
  let r := fst (parse_resume text filename w) in
  QualityScore r
  = weights_sum (truthy (FormattedName (ContactInformation r)))
      (nonempty (Positions r)) (nonempty (EducationDetails r))
      (nonempty (Skills r))
  /\ (0 <=? QualityScore r)%float = true
  /\ (QualityScore r <=? 1)%float = true.
Proof.
  unfold parse_resume, time_time; simpl. apply quality_score_weights.
Qed.

(** ** Degree classification *)

Lemma lower_upper_c (c : char) : lower_c (upper_c c) = lower_c c.
Proof.
  unfold lower_c, upper_c, is_upper, is_lower, in_range.
  destruct (97 <=? c)%N eqn:A, (c <=? 122)%N eqn:B; simpl;
    repeat match goal with
           | H : (_ <=? _)%N = true |- _ => apply N.leb_le in H
           | H : (_ <=? _)%N = false |- _ => apply N.leb_gt in H
           end;
    repeat match goal with
           | |- context [(?a <=? ?b)%N] =>
               let E := fresh in
               destruct (a <=? b)%N eqn:E;
               [apply N.leb_le in E | apply N.leb_gt in E]
           end; simpl; lia.
Qed.

Lemma lower_upper (s : str) : lower (upper s) = lower s.
Proof.
  unfold lower, upper. rewrite map_map. apply map_ext, lower_upper_c.
Qed.

(** C8.  The degree type is a keyword match on the lower-cased name,
    doctorate keywords first, then masters keywords, bachelors
    otherwise.  "PhD in Computer Science" is a doctorate, "MBA" a
    masters and "BSc Computer Science" a bachelors.  The case of the
    name does not matter: two names with the same lower case have the
    same type, and so have a plain name and its upper case.  (Outside
    plain text the upper case can bring in a keyword: the upper case of
    a name written with a long s has a plain S.) *)
Theorem classify_degree_type_precedence :
  _classify_degree_type (u "PhD in Computer Science") = u "doctorate"
  /\ _classify_degree_type (u "MBA") = u "masters"
  /\ _classify_degree_type (u "BSc Computer Science") = u "bachelors"
  /\ (forall n, contains_any (lower n) doctorate_keywords = true ->
        _classify_degree_type n = u "doctorate")
  /\ (forall n, contains_any (lower n) doctorate_keywords = false ->
        contains_any (lower n) masters_keywords = true ->
        _classify_degree_type n = u "masters")
  /\ (forall n, contains_any (lower n) doctorate_keywords = false ->
        contains_any (lower n) masters_keywords = false ->
        _classify_degree_type n = u "bachelors")
  /\ (forall a b, lower a = lower b ->
        _classify_degree_type a = _classify_degree_type b)
  /\ (forall n, plain n = true ->
        _classify_degree_type (upper n) = _classify_degree_type n).
Proof.
  split; [vm_compute; reflexivity|].
  split; [vm_compute; reflexivity|].
  split; [vm_compute; reflexivity|].
  repeat split.
  - intros n H. unfold _classify_degree_type.
    change [u "phd"; u "ph.d"; u "doctorate"; u "doctoral"]
      with doctorate_keywords.
    rewrite H. reflexivity.
  - intros n H1 H2. unfold _classify_degree_type.
    change [u "phd"; u "ph.d"; u "doctorate"; u "doctoral"]
      with doctorate_keywords.
    change [u "master"; u "mba"; u "msc"; u "ms "; u "ma "; u "executive mba"]
      with masters_keywords.
    rewrite H1, H2. reflexivity.
  - intros n H1 H2. unfold _classify_degree_type.
    change [u "phd"; u "ph.d"; u "doctorate"; u "doctoral"]
      with doctorate_keywords.
    change [u "master"; u "mba"; u "msc"; u "ms "; u "ma "; u "executive mba"]
      with masters_keywords.
    rewrite H1, H2. reflexivity.
  - intros a b H. unfold _classify_degree_type. rewrite H. reflexivity.
  - intros n _. unfold _classify_degree_type. rewrite lower_upper.
    reflexivity.
Qed.

(** A name with a doctorate and a masters keyword is a doctorate, and a
    name with neither is a bachelors. *)
Lemma classify_degree_type_witness :
  _classify_degree_type (u "Master of Science, PhD") = u "doctorate"
  /\ _classify_degree_type (u "Executive MBA") = u "masters"
  /\ _classify_degree_type (u "Bachelor of Arts") = u "bachelors"
  /\ _classify_degree_type (u "mBa in Finance")
     = _classify_degree_type (u "MBA in finance")
  /\ _classify_degree_type (upper (u "Doctoral studies – physics"))
     = _classify_degree_type (u "Doctoral studies – physics").
Proof.
  split; [| split; [| split; [| split]]].
  - apply (proj1 (proj2 (proj2 (proj2 classify_degree_type_precedence)))).
    vm_compute; reflexivity.
  - apply (proj1 (proj2 (proj2 (proj2 (proj2 classify_degree_type_precedence))))).
    + vm_compute; reflexivity.
    + vm_compute; reflexivity.
  - apply (proj1 (proj2 (proj2 (proj2 (proj2 (proj2
             classify_degree_type_precedence)))))).
    + vm_compute; reflexivity.
    + vm_compute; reflexivity.
  - apply (proj1 (proj2 (proj2 (proj2 (proj2 (proj2 (proj2
             classify_degree_type_precedence))))))).
    vm_compute; reflexivity.
  - apply (proj2 (proj2 (proj2 (proj2 (proj2 (proj2 (proj2
             classify_degree_type_precedence))))))).
    vm_compute; reflexivity.
Defined.

(** ** Date normalization *)

Lemma current_pattern :
  re "(?i)(present|current|now|ongoing)" NOFLAG = Pattern current_regex 1 CI.
Proof. vm_compute. reflexivity. Qed.

(** A lower-case word matches, whatever the case of the subject. *)
Lemma run_lit (kw : str) :
  kw <> [] -> lower kw = kw ->
  forall st k, startswith (lower (rest st)) kw = true ->
  exists st', run CI (lit kw) st k = k st'.
Proof.
  induction kw as [|c kw IH]; [congruence|].
  intros _ Hl st k Hs.
  destruct st as [p pv r cs]; simpl in Hs.
  destruct r as [|x t]; [discriminate|].
  simpl in Hs. apply andb_true_iff in Hs. destruct Hs as [Hc Hs].
  injection Hl as Hc' Hl'.
  assert (Hok : chr_ok CI c x = true).
  { unfold chr_ok; simpl. rewrite Hc'. exact Hc. }
  destruct kw as [|c' kw'].
  - simpl. rewrite Hok. eexists; reflexivity.
  - change (lit (c :: c' :: kw')) with (RCat (RChar c) (lit (c' :: kw'))).
    simpl run. rewrite Hok.
    apply (IH ltac:(discriminate) Hl' (advance (State p pv (x :: t) cs) x t) k).
    exact Hs.
Qed.

Lemma run_alt_some (fl : flags) (r1 r2 : regex) (st : state)
    (k : state -> option state) :
  is_some (run fl r1 st k) = true \/ is_some (run fl r2 st k) = true ->
  is_some (run fl (RAlt r1 r2) st k) = true.
Proof.
  simpl. destruct (run fl r1 st k); simpl; [auto | intros [H|H]];
    [discriminate | exact H].
Qed.

Lemma run_word_some (kw : str) (st : state) (k : state -> option state) :
  kw <> [] -> lower kw = kw ->
  (forall st', is_some (k st') = true) ->
  startswith (lower (rest st)) kw = true ->
  is_some (run CI (lit kw) st k) = true.
Proof.
  intros Hn Hl Hk Hs. destruct (run_lit Hn Hl st k Hs) as [st' E].
  rewrite E. apply Hk.
Qed.

Lemma attempt_current (st : state) :
  startswith_any (lower (rest st)) current_words = true ->
  is_some (attempt (Pattern current_regex 1 CI) None st) = true.
Proof.
  intros H. unfold attempt.
  match goal with
  | |- is_some (match ?r with _ => _ end) = true =>
      assert (E : is_some r = true); [| destruct r; [reflexivity | discriminate]]
  end.
  cbn [rx pflags]. unfold current_regex.
  change (run CI (RGroup 1 ?r) st ?k)
    with (run CI r st (fun st' =>
            k (set_cap 1 (firstn (pos st' - pos st) (rest st)) st'))).
  unfold startswith_any, current_words in H. simpl existsb in H.
  repeat rewrite orb_true_iff in H.
  assert (Hk : forall st', is_some
            ((fun st'0 : state => Some st'0)
               (set_cap 1 (firstn (pos st' - pos st) (rest st)) st')) = true)
    by reflexivity.
  destruct H as [H | [H | [H | [H | H]]]]; [| | | | discriminate].
  - apply run_alt_some; left.
    apply run_word_some; [discriminate | reflexivity | exact Hk | exact H].
  - apply run_alt_some; right; apply run_alt_some; left.
    apply run_word_some; [discriminate | reflexivity | exact Hk | exact H].
  - apply run_alt_some; right; apply run_alt_some; right;
      apply run_alt_some; left.
    apply run_word_some; [discriminate | reflexivity | exact Hk | exact H].
  - apply run_alt_some; right; apply run_alt_some; right;
      apply run_alt_some; right.
    apply run_word_some; [discriminate | reflexivity | exact Hk | exact H].
Qed.

Lemma contains_any_cons (c : char) (s : str) (ks : list str) :
  contains_any (c :: s) ks = startswith_any (c :: s) ks || contains_any s ks.
Proof.
  unfold contains_any, startswith_any.
  induction ks as [|k ks IH]; [reflexivity|].
  cbn [existsb]. rewrite IH.
  change (contains (c :: s) k) with (startswith (c :: s) k || contains s k).
  destruct (startswith (c :: s) k), (contains s k),
    (existsb (startswith (c :: s)) ks); reflexivity.
Qed.

Lemma contains_any_nil (ks : list str) :
  contains_any [] ks = startswith_any [] ks.
Proof.
  unfold contains_any, startswith_any.
  induction ks as [|k ks IH]; [reflexivity|].
  cbn [existsb]. rewrite IH.
  change (contains [] k) with (startswith [] k || false).
  rewrite orb_false_r. reflexivity.
Qed.

(** The leftmost search finds a match wherever an attempt succeeds. *)
Lemma scan_finds (p : pattern) (ks : list str) :
  (forall st, startswith_any (lower (rest st)) ks = true ->
              is_some (attempt p None st) = true) ->
  forall s n pv, contains_any (lower s) ks = true ->
                 is_some (scan p None n pv s) = true.
Proof.
  intros Ha. induction s as [|c s IH]; intros n pv H.
  - simpl lower in H. rewrite contains_any_nil in H.
    simpl. specialize (Ha (State n pv [] []) H).
    destruct (attempt p None (State n pv [] [])); [reflexivity | discriminate].
  - simpl lower in H. rewrite contains_any_cons in H.
    simpl. destruct (attempt p None (State n pv (c :: s) [])) eqn:E;
      [reflexivity|].
    apply orb_true_iff in H. destruct H as [H|H].
    + specialize (Ha (State n pv (c :: s) []) H). rewrite E in Ha.
      discriminate.
    + apply IH. exact H.
Qed.

(** C3.  The start-date parser maps "Feb' 16 – Present" to the first of
    February 2016 and the end-date parser maps it to "Present"; "Jan
    2017 – Oct 2021" has start 2017-01-01 and end 2021-10-01; and the
    end date of every date string that contains "present", "current",
    "now" or "ongoing" anywhere, in any mix of cases, is "Present". *)
Theorem date_normalization :
  _parse_start_date (u "Feb' 16 – Present") = u "2016-02-01"
  /\ _parse_end_date (u "Feb' 16 – Present") = u "Present"
  /\ _parse_start_date (u "Jan 2017 – Oct 2021") = u "2017-01-01"
  /\ _parse_end_date (u "Jan 2017 – Oct 2021") = u "2021-10-01"
  /\ (forall date_string,
        contains_any (lower date_string) current_words = true ->
        _parse_end_date date_string = u "Present").
Proof.
  split; [vm_compute; reflexivity|].
  split; [vm_compute; reflexivity|].
  split; [vm_compute; reflexivity|].
  split; [vm_compute; reflexivity|].
  intros s H. unfold _parse_end_date.
  destruct s as [|c s]; [vm_compute in H; discriminate|].
  cbn [truthy negb]. rewrite current_pattern. unfold search.
  rewrite (scan_finds _ _ attempt_current (c :: s) 0 None H). reflexivity.
Qed.

Lemma date_normalization_witness :
  _parse_end_date (u "June 2019 - till NOW") = u "Present"
  /\ _parse_end_date (u "03/2020 to Ongoing") = u "Present".
Proof.
  split;
    apply (proj2 (proj2 (proj2 (proj2 date_normalization))));
    vm_compute; reflexivity.
Defined.

(** ** Two-digit years *)

Lemma year_rule_table :
  forallb (fun '(m, n) =>
    forallb (fun d1 => forallb (year_rule_holds m n d1) digits) digits)
    month_map_abbr = true.
Proof. vm_compute. reflexivity. Qed.

Lemma dict_get_In {V : Type} (d : dict V) (k : str) (v : V) :
  dict_get d k = Some v -> In (k, v) d.
Proof.
  induction d as [|[k' v'] d IH]; simpl; [discriminate|].
  destruct (eqb k k') eqn:E.
  - apply eqb_eq in E. intros H; injection H as ->. left; subst; reflexivity.
  - intros H; right; apply IH, H.
Qed.

Lemma digit_In (d : N) : (d < 10)%N -> In d digits.
Proof.
  intros H. unfold digits.
  assert (E : (d = 0 \/ d = 1 \/ d = 2 \/ d = 3 \/ d = 4 \/ d = 5 \/ d = 6
               \/ d = 7 \/ d = 8 \/ d = 9)%N) by lia.
  simpl. intuition auto.
Qed.

(** C4.  Both parsers read a two-digit year [y] as [2000 + y] when
    [y <= 30] and as [1900 + y] when [y > 30]: for every month
    abbreviation and every two digits, in the start and in the end
    position of a range.  In particular "08" becomes 2008 and "95"
    becomes 1995. *)
Theorem two_digit_year_boundary :
  (forall m n d1 d2,
     dict_get month_map_abbr m = Some n -> (d1 < 10)%N -> (d2 < 10)%N ->
     _parse_start_date (m ++ u "' " ++ year2 d1 d2 ++ u " – Present")
     = century d1 d2 ++ year2 d1 d2 ++ u "-" ++ n ++ u "-01"
     /\ _parse_end_date (u "Jan' 05 – " ++ m ++ u "' " ++ year2 d1 d2)
        = century d1 d2 ++ year2 d1 d2 ++ u "-" ++ n ++ u "-01")
  /\ _parse_start_date (u "Jul' 08 – Oct' 15") = u "2008-07-01"
  /\ _parse_start_date (u "Jul' 95 – Oct' 98") = u "1995-07-01"
  /\ _parse_end_date (u "Jul' 07 – Jul' 08") = u "2008-07-01"
  /\ _parse_end_date (u "Jul' 91 – Oct' 95") = u "1995-10-01"
  /\ _parse_start_date (u "Mar' 30 – Apr' 31") = u "2030-03-01"
  /\ _parse_end_date (u "Mar' 30 – Apr' 31") = u "1931-04-01".
Proof.
  split; [| repeat split; vm_compute; reflexivity].
  intros m n d1 d2 Hm H1 H2.
  pose proof year_rule_table as T.
  rewrite forallb_forall in T.
  specialize (T (m, n) (dict_get_In _ _ Hm)). cbv beta iota in T.
  rewrite forallb_forall in T. specialize (T d1 (digit_In H1)).
  rewrite forallb_forall in T. specialize (T d2 (digit_In H2)).
  unfold year_rule_holds in T. apply andb_true_iff in T.
  destruct T as [Ts Te]. apply eqb_eq in Ts, Te. split; assumption.
Qed.

Lemma two_digit_year_boundary_witness :
  _parse_start_date (u "Sep' " ++ year2 3 0 ++ u " – Present")
  = u "2030-09-01"
  /\ _parse_end_date (u "Jan' 05 – " ++ u "Sep' " ++ year2 3 1) = u "1931-09-01".
Proof.
  split.
  - apply (proj1 (proj1 two_digit_year_boundary (u "Sep") (u "09") 3%N 0%N
                    eq_refl eq_refl eq_refl)).
  - apply (proj2 (proj1 two_digit_year_boundary (u "Sep") (u "09") 3%N 1%N
                    eq_refl eq_refl eq_refl)).
Defined.

(** ** Skill deduplication *)

(** *** The order of binary64 numbers *)

Lemma SFltb_trans (a b c : spec_float) :
  SFltb a b = true -> SFltb b c = true -> SFltb a c = true.
Proof.
  unfold SFltb, SFcompare.
  destruct a as [sa|sa| |sa ma ea], b as [sb|sb| |sb mb eb],
    c as [sc|sc| |sc mc ec];
    try destruct sa; try destruct sb; try destruct sc;
    try discriminate; try reflexivity; intros H1 H2;
    change (Pos.compare_cont Eq) with Pos.compare in *;
    destruct (Z.compare_spec ea eb), (Z.compare_spec eb ec),
      (Z.compare_spec ea ec); try discriminate; try reflexivity; try lia;
    subst;
    destruct (Pos.compare_spec ma mb), (Pos.compare_spec mb mc),
      (Pos.compare_spec ma mc); simpl in *; try discriminate;
      try reflexivity; try lia.
Qed.

Lemma SFltb_irrefl (a : spec_float) : SFltb a a = false.
Proof.
  unfold SFltb, SFcompare. destruct a as [s|s| |s m e]; try destruct s;
    try reflexivity; rewrite Z.compare_refl;
    change (Pos.compare_cont Eq) with Pos.compare;
    rewrite Pos.compare_refl; reflexivity.
Qed.

Lemma ltb_irrefl (a : float) : (a <? a)%float = false.
Proof. rewrite ltb_spec. apply SFltb_irrefl. Qed.

(** If [b] beats [a] and [c] does not beat [a], then [c] does not beat
    [b]. *)
Lemma ltb_beaten (a b c : float) :
  (a <? b)%float = true -> (a <? c)%float = false -> (b <? c)%float = false.
Proof.
  rewrite !ltb_spec. intros H1 H2.
  destruct (SFltb (Prim2SF b) (Prim2SF c)) eqn:E; [|reflexivity].
  rewrite (SFltb_trans _ _ _ H1 E) in H2. discriminate.
Qed.

(** *** Dictionaries *)

Section DictFacts.
Variable V : Type.
Implicit Types (d : dict V) (k : str) (v : V).

Lemma dict_get_None d k : dict_get d k = None -> ~ In k (map fst d).
Proof.
  induction d as [|[k' v'] d IH]; simpl; [tauto|].
  destruct (eqb k k') eqn:E; [discriminate|].
  apply eqb_neq in E. intros H [H'|H']; [congruence | exact (IH H H')].
Qed.

Lemma dict_get_unique d k v :
  NoDup (map fst d) -> In (k, v) d -> dict_get d k = Some v.
Proof.
  induction d as [|[k' v'] d IH]; simpl; [tauto|].
  intros N [H|H].
  - injection H as -> ->. rewrite eqb_refl. reflexivity.
  - inversion N as [|? ? Hn N']; subst.
    destruct (eqb k k') eqn:E; [|apply IH; assumption].
    apply eqb_eq in E; subst. exfalso. apply Hn.
    change k' with (fst (k', v)). apply in_map, H.
Qed.

Lemma dict_set_new d k v :
  dict_get d k = None -> dict_set d k v = d ++ [(k, v)].
Proof.
  induction d as [|[k' v'] d IH]; simpl; [reflexivity|].
  destruct (eqb k k'); [discriminate|]. intros H. rewrite IH; auto.
Qed.

Lemma dict_set_keys d k v v0 :
  dict_get d k = Some v0 -> map fst (dict_set d k v) = map fst d.
Proof.
  induction d as [|[k' v'] d IH]; simpl; [discriminate|].
  destruct (eqb k k') eqn:E.
  - apply eqb_eq in E; subst. reflexivity.
  - intros H. simpl. rewrite IH; auto.
Qed.

Lemma dict_get_set d k v k' :
  dict_get (dict_set d k v) k'
  = if eqb k' k then Some v else dict_get d k'.
Proof.
  induction d as [|[k0 v0] d IH]; simpl.
  - destruct (eqb k' k); reflexivity.
  - destruct (eqb k k0) eqn:E; simpl.
    + apply eqb_eq in E; subst. destruct (eqb k' k0); reflexivity.
    + rewrite IH. destruct (eqb k' k0) eqn:E0; [|reflexivity].
      apply eqb_eq in E0; subst.
      destruct (eqb k0 k) eqn:E1; [|reflexivity].
      apply eqb_eq in E1; subst. rewrite eqb_refl in E. discriminate.
Qed.

Lemma dict_set_Forall (P : str * V -> Prop) d k v :
  Forall P d -> P (k, v) -> Forall P (dict_set d k v).
Proof.
  intros H Hp. induction H as [|[k' v'] d Hx H IH]; simpl.
  - constructor; [assumption | constructor].
  - destruct (eqb k k'); constructor; assumption.
Qed.

End DictFacts.

Lemma dict_get_app {V : Type} (d e : dict V) (k : str) :
  dict_get (d ++ e) k
  = match dict_get d k with Some v => Some v | None => dict_get e k end.
Proof.
  induction d as [|[k' v'] d IH]; simpl; [reflexivity|].
  destruct (eqb k k'); [reflexivity | apply IH].
Qed.

(** *** The loop of [_deduplicate_skills] *)

Lemma dedup_fold (skills : list SkillCandidate) :
  _deduplicate_skills skills = dict_values (fold_left dedup_step skills []).
Proof.
  unfold _deduplicate_skills. f_equal.
  rewrite <- (for_each_fold (fun x s => dedup_step s x)).
  apply for_each_ext. intros x s. unfold dedup_step.
  destruct (dict_get s (upper (name x))) as [kept|]; [|reflexivity].
  destruct (confidence kept <? confidence x)%float; reflexivity.
Qed.

Lemma dedup_step_inv (processed : list SkillCandidate)
    (seen : dict SkillCandidate) (s : SkillCandidate) :
  dedup_inv processed seen ->
  dedup_inv (processed ++ [s]) (dedup_step seen s).
Proof.
  intros (N & F & M). unfold dedup_step.
  assert (F' : Forall (fun kv => fst kv = upper (name (snd kv))
                                 /\ In (snd kv) (processed ++ [s])) seen).
  { eapply Forall_impl; [|exact F]. intros kv [E I]. split; [exact E|].
    apply in_or_app; left; exact I. }
  assert (Is : In s (processed ++ [s])) by (apply in_or_app; right; left; reflexivity).
  destruct (dict_get seen (upper (name s))) as [kept|] eqn:G.
  - destruct (confidence kept <? confidence s)%float eqn:L.
    + (* the new skill replaces the entry *)
      split; [| split].
      * rewrite (dict_set_keys _ _ _ G). exact N.
      * apply dict_set_Forall; [exact F' | split; [reflexivity | exact Is]].
      * intros c Hc. rewrite dict_get_set.
        apply in_app_or in Hc. destruct Hc as [Hc | [<- | []]].
        -- destruct (M c Hc) as (v & Gv & Lv).
           destruct (eqb (upper (name c)) (upper (name s))) eqn:E.
           ++ apply eqb_eq in E. rewrite E in Gv. rewrite G in Gv.
              injection Gv as <-. exists s. split; [reflexivity|].
              exact (@ltb_beaten _ _ _ L Lv).
           ++ exists v. split; assumption.
        -- rewrite eqb_refl. exists s. split; [reflexivity | apply ltb_irrefl].
    + (* the entry stays *)
      split; [exact N | split; [exact F'|]].
      intros c Hc. apply in_app_or in Hc. destruct Hc as [Hc | [<- | []]].
      * exact (M c Hc).
      * exists kept. split; assumption.
  - (* a new name *)
    rewrite (dict_set_new _ _ _ G). split; [| split].
    + rewrite map_app. simpl.
      apply NoDup_app; [exact N | constructor; [intros [] | constructor] |].
      intros k Hk [<- | []]. exact (dict_get_None _ _ G Hk).
    + apply Forall_app. split; [exact F'|].
      constructor; [split; [reflexivity | exact Is] | constructor].
    + intros c Hc. rewrite dict_get_app.
      apply in_app_or in Hc. destruct Hc as [Hc | [<- | []]].
      * destruct (M c Hc) as (v & Gv & Lv). rewrite Gv.
        exists v. split; [reflexivity | exact Lv].
      * rewrite G. simpl. rewrite eqb_refl.
        exists s. split; [reflexivity | apply ltb_irrefl].
Qed.

Lemma dedup_fold_inv (skills processed : list SkillCandidate)
    (seen : dict SkillCandidate) :
  dedup_inv processed seen ->
  dedup_inv (processed ++ skills) (fold_left dedup_step skills seen).
Proof.
  revert processed seen. induction skills as [|s skills IH];
    intros processed seen H; simpl.
  - rewrite app_nil_r. exact H.
  - replace (processed ++ s :: skills) with ((processed ++ [s]) ++ skills)
      by (rewrite <- app_assoc; reflexivity).
    apply IH, dedup_step_inv, H.
Qed.

Lemma dedup_inv_final (skills : list SkillCandidate) :
  dedup_inv skills (fold_left dedup_step skills []).
Proof.
  apply (@dedup_fold_inv skills [] []).
  split; [constructor | split; [constructor | intros c []]].
Qed.

Lemma NoDup_firstn {A : Type} (n : nat) (l : list A) :
  NoDup l -> NoDup (firstn n l).
Proof.
  intros H. rewrite <- (firstn_skipn n l) in H.
  exact (NoDup_app_remove_r _ _ H).
Qed.

Lemma In_firstn {A : Type} (n : nat) (l : list A) (x : A) :
  In x (firstn n l) -> In x l.
Proof.
  intros H. rewrite <- (firstn_skipn n l). apply in_or_app; left; exact H.
Qed.

(** C5.  The skills of the result hold at most one entry per
    upper-cased name.  Every entry is one of the candidates of the three
    methods, and no candidate of the same name, whatever its case, has a
    higher confidence.  Two candidates "Python" with confidences 0.7 and
    0.9, in either order, leave the one entry with confidence 0.9, and
    so does a text whose skills section, body and context all name
    Python (confidences 0.9, 0.8 and 0.7). *)
Theorem skills_deduplicated :
  (forall text,
     NoDup (map (fun e => upper (sk_name e)) (_extract_skills_improved text)))
  /\ (forall text e, In e (_extract_skills_improved text) ->
        (exists c, In c (skill_candidates text)
                   /\ name c = sk_name e
                   /\ confidence c = sk_confidence e)
        /\ (forall c, In c (skill_candidates text) ->
              upper (name c) = upper (sk_name e) ->
              (sk_confidence e <? confidence c)%float = false))
  /\ _deduplicate_skills [python_contextual; python_section] = [python_section]
  /\ _deduplicate_skills [python_section; python_contextual] = [python_section]
  /\ map confidence
       (filter (fun c => eqb (name c) (u "Python")) (skill_candidates python_text))
     = [0.9; 0.8; 0.7]%float
  /\ map (fun e => sk_confidence e)
       (filter (fun e => eqb (upper (sk_name e)) (u "PYTHON"))
          (_extract_skills_improved python_text))
     = [0.9%float].
Proof.
  split; [| split; [| repeat split; vm_compute; reflexivity]].
  - intros text. unfold _extract_skills_improved. rewrite dedup_fold.
    destruct (dedup_inv_final (skill_candidates text)) as (N & F & _).
    rewrite <- firstn_map. apply NoDup_firstn.
    unfold dict_values. rewrite !map_map. simpl.
    replace (map (fun x => upper (name (snd x)))
               (fold_left dedup_step (skill_candidates text) []))
      with (map fst (fold_left dedup_step (skill_candidates text) []));
      [exact N|].
    apply map_ext_in. intros kv Hkv.
    rewrite Forall_forall in F. exact (proj1 (F kv Hkv)).
  - intros text e He. unfold _extract_skills_improved in He.
    rewrite dedup_fold in He. apply In_firstn in He.
    apply in_map_iff in He. destruct He as (v & <- & Hv).
    unfold dict_values in Hv. apply in_map_iff in Hv.
    destruct Hv as ([k v'] & Ev & Hkv). simpl in Ev. subst v'.
    destruct (dedup_inv_final (skill_candidates text)) as (N & F & M).
    rewrite Forall_forall in F. destruct (F _ Hkv) as [Ek Iv].
    simpl in Ek, Iv. split.
    + exists v. repeat split. exact Iv.
    + intros c Hc En. simpl in En |- *.
      destruct (M c Hc) as (v0 & G & L).
      rewrite En, <- Ek in G.
      rewrite (dict_get_unique _ _ _ N Hkv) in G. injection G as <-.
      exact L.
Qed.

Lemma skills_deduplicated_witness :
  exists e, In e (_extract_skills_improved python_text)
            /\ (sk_confidence e <? confidence python_contextual)%float = false.
Proof.
  exists (_enhance_skill_metadata python_section python_text). split.
  - vm_compute. left. reflexivity.
  - refine (proj2 (proj1 (proj2 skills_deduplicated) python_text
                     (_enhance_skill_metadata python_section python_text) _)
              python_contextual _ _).
    + vm_compute. left. reflexivity.
    + vm_compute. do 4 right. left. reflexivity.
    + vm_compute. reflexivity.
Defined.

(** ** The experience section *)

(** C7.  What the code does on the claim's document.  Under the header
    "EXPERIENCE" the loop that looks for the section is left as soon as
    the start is found, the end is never looked for, and the section
    runs to the end of the document, the "EDUCATION" header included.
    Under a header of the list, such as "PROFESSIONAL EXPERIENCE", the
    section is the three lines before "EDUCATION". *)
Theorem experience_section_bare_header :
  experience_section
    (split (u "EXPERIENCE
line one
line two
line three
EDUCATION") nl)
  = Some [u "line one"; u "line two"; u "line three"; u "EDUCATION"]
  /\ experience_section
       (split (u "PROFESSIONAL EXPERIENCE
line one
line two
line three
EDUCATION") nl)
     = Some [u "line one"; u "line two"; u "line three"].
Proof. split; vm_compute; reflexivity. Qed.

(** The same defect seen from outside: a line of the education section
    is returned as a second position under the bare header, and is not
    under a header of the list. *)
Lemma experience_bare_header_overruns :
  map Company (_extract_experience_improved bare_header_text)
  = [u "Acme Inc."; u "BSc"]
  /\ map Company (_extract_experience_improved listed_header_text)
     = [u "Acme Inc."].
Proof. split; vm_compute; reflexivity. Qed.

(** Under the bare header the section is everything after the header,
    whatever the lines that follow are. *)
Lemma experience_section_bare_header_all (rest : list str) :
  contains_any
    (join (u " ")
       (map (fun l => lower (strip l)) (firstn 3 (u "EXPERIENCE" :: rest))))
    summary_indicators = false ->
  experience_section (u "EXPERIENCE" :: rest) = Some rest.
Proof.
  intros H. unfold experience_section, locate_experience.
  unfold enumerate. cbn [enumerate_from for_each].
  change (strip (u "EXPERIENCE")) with (u "EXPERIENCE").
  change (upper (u "EXPERIENCE")) with (u "EXPERIENCE").
  cbv beta iota.
  change (truthy (u "EXPERIENCE")) with true.
  cbn [negb].
  change (-1 =? -1)%Z with true. cbv iota.
  match goal with
  | |- context [(Nat.eqb 0 0 && ?b)%bool] =>
      replace b with false by (vm_compute; reflexivity)
  end.
  cbn [Nat.eqb andb].
  match goal with
  | |- context [for_each experience_headers ?s ?f] =>
      replace (for_each experience_headers s f) with (-1)%Z
        by (vm_compute; reflexivity)
  end.
  change (-1 =? -1)%Z with true.
  change (eqb (u "EXPERIENCE") (u "EXPERIENCE")) with true.
  cbn [andb].
  change (slice (u "EXPERIENCE" :: rest) (0 - 2) (0 + 3))
    with (firstn 3 (u "EXPERIENCE" :: rest)).
  rewrite H. cbn [negb break].
  change (Z.of_nat 0 + 1 =? -1)%Z with false.
  change (-1 =? -1)%Z with true. cbv iota.
  unfold slice.
  change (Z.to_nat (Z.of_nat 0 + 1)) with 1.
  rewrite Nat2Z.id. cbn [skipn length Nat.sub].
  rewrite Nat.sub_0_r, firstn_all. reflexivity.
Qed.

(** ** Education: the closing pass *)

Lemma unique_education_loop (l : list EducationEntry) (seen : list str)
    (acc : list EducationEntry) :
  snd (for_each l (seen, acc)
    (fun edu '(seen_degrees, unique_education) =>
      let degree_name := Degree_Name edu in
      if truthy degree_name && negb (mem degree_name seen_degrees)
      then next (degree_name :: seen_degrees, unique_education ++ [edu])
      else next (seen_degrees, unique_education)))
  = acc ++ unique_from seen l.
Proof.
  revert seen acc. induction l as [|edu l IH]; intros seen acc; simpl.
  - rewrite app_nil_r. reflexivity.
  - destruct (truthy (Degree_Name edu) && negb (mem (Degree_Name edu) seen));
      simpl; rewrite IH; [rewrite <- app_assoc|]; reflexivity.
Qed.

Lemma unique_education_from (l : list EducationEntry) :
  unique_education l = unique_from [] l.
Proof. unfold unique_education. rewrite unique_education_loop. reflexivity. Qed.

Lemma keep_iff (n : str) (seen : list str) :
  truthy n && negb (mem n seen) = true <-> n <> [] /\ ~ In n seen.
Proof.
  rewrite andb_true_iff, negb_true_iff, truthy_nonempty, <- mem_In.
  destruct (mem n seen); intuition congruence.
Qed.

(** An entry is kept exactly when its name is not empty, was not seen
    before the pass, and it is the first candidate with that name. *)
Lemma unique_from_In (l : list EducationEntry) :
  forall seen e,
    In e (unique_from seen l) <->
    Degree_Name e <> [] /\ ~ In (Degree_Name e) seen
    /\ exists l1 l2, l = l1 ++ e :: l2
                     /\ ~ In (Degree_Name e) (map Degree_Name l1).
Proof.
  induction l as [|x l IH]; intros seen e; simpl.
  - split; [tauto|]. intros (_ & _ & l1 & l2 & E & _).
    destruct l1; discriminate.
  - destruct (truthy (Degree_Name x) && negb (mem (Degree_Name x) seen))
      eqn:K.
    + apply keep_iff in K. destruct K as [Kn Ks]. simpl. rewrite IH. split.
      * intros [<- | (Hn & Hs & l1 & l2 & E & Hl)].
        -- repeat split; try assumption. exists [], l. split; [reflexivity|].
           simpl; tauto.
        -- simpl in Hs. repeat split; try tauto.
           exists (x :: l1), l2. split; [simpl; congruence|].
           simpl. tauto.
      * intros (Hn & Hs & l1 & l2 & E & Hl).
        destruct l1 as [|y l1]; simpl in E; injection E as -> ->.
        -- left; reflexivity.
        -- right. simpl in Hl. repeat split; try assumption.
           ++ simpl. intros [H|H]; [apply Hl; left; exact H | exact (Hs H)].
           ++ exists l1, l2. split; [reflexivity | tauto].
    + assert (K' : ~ (Degree_Name x <> [] /\ ~ In (Degree_Name x) seen))
        by (rewrite <- keep_iff, K; discriminate).
      rewrite IH. split.
      * intros (Hn & Hs & l1 & l2 & E & Hl). repeat split; try assumption.
        exists (x :: l1), l2. split; [simpl; congruence|].
        simpl. intros [H|H]; [| exact (Hl H)].
        apply K'. rewrite H. split; assumption.
      * intros (Hn & Hs & l1 & l2 & E & Hl).
        destruct l1 as [|y l1]; simpl in E; injection E as -> ->.
        -- exfalso. apply K'. split; assumption.
        -- repeat split; try assumption. exists l1, l2.
           split; [reflexivity|]. simpl in Hl. tauto.
Qed.

Lemma unique_from_NoDup (l : list EducationEntry) :
  forall seen, NoDup (map Degree_Name (unique_from seen l)).
Proof.
  induction l as [|x l IH]; intros seen; simpl; [constructor|].
  destruct (truthy (Degree_Name x) && negb (mem (Degree_Name x) seen));
    [| apply IH].
  simpl. constructor; [| apply IH].
  intros H. apply in_map_iff in H. destruct H as (e & E & He).
  apply unique_from_In in He. destruct He as (_ & Hs & _).
  apply Hs. left. symmetry. exact E.
Qed.

(** A candidate whose name is empty, was seen, or is the name of an
    earlier candidate, can be taken out without changing the result. *)
Lemma unique_from_skip (p : list EducationEntry) :
  forall seen b q,
    Degree_Name b = [] \/ In (Degree_Name b) seen
    \/ In (Degree_Name b) (map Degree_Name p) ->
    unique_from seen (p ++ b :: q) = unique_from seen (p ++ q).
Proof.
  induction p as [|x p IH]; intros seen b q H; simpl.
  - destruct (truthy (Degree_Name b) && negb (mem (Degree_Name b) seen))
      eqn:K; [| reflexivity].
    apply keep_iff in K. simpl in H. tauto.
  - destruct (truthy (Degree_Name x) && negb (mem (Degree_Name x) seen))
      eqn:K.
    + f_equal. apply IH. simpl in H |- *.
      destruct H as [H | [H | [H | H]]]; auto.
    + apply IH. simpl in H.
      destruct H as [H | [H | [H | H]]]; auto.
      assert (K' : ~ (Degree_Name x <> [] /\ ~ In (Degree_Name x) seen))
        by (rewrite <- keep_iff, K; discriminate).
      rewrite <- H.
      destruct (Degree_Name x) as [|c n] eqn:E; [left; reflexivity|].
      right; left.
      destruct (mem (c :: n) seen) eqn:M; [apply mem_In, M|].
      exfalso. apply K'. split; [discriminate|].
      rewrite <- mem_In, M. discriminate.
Qed.

(** ** Education: the strategies only append *)

Lemma extends_refl (e : list EducationEntry) : extends e e.
Proof. exists []. rewrite app_nil_r. reflexivity. Qed.

Lemma extends_snoc (e s : list EducationEntry) (x : EducationEntry) :
  extends e s -> extends e (s ++ [x]).
Proof.
  intros [a ->]. exists (a ++ [x]). rewrite app_assoc. reflexivity.
Qed.

Lemma extends_trans (a b c : list EducationEntry) :
  extends a b -> extends b c -> extends a c.
Proof.
  intros [x ->] [y ->]. exists (x ++ y). rewrite app_assoc. reflexivity.
Qed.

Create HintDb edu.
#[local] Hint Resolve extends_refl extends_snoc : edu.

Ltac branches :=
  repeat match goal with
         | |- context [if ?c then _ else _] => destruct c
         | |- context [match ?x with Some _ => _ | None => _ end] =>
             destruct x
         | |- context [match ?x with (_, _) => _ end] => destruct x
         end;
  cbn [fst snd next break]; auto with edu.

Lemma education_strategy1_extends (lines : list str)
    (education : list EducationEntry) :
  extends education (education_strategy1 lines education).
Proof.
  unfold education_strategy1.
  destruct (truthy _); [| apply extends_refl].
  apply for_each_inv; [apply extends_refl|].
  intros x s H. branches.
Qed.

Lemma education_strategy2_extends (lines : list str)
    (education : list EducationEntry) :
  extends education (education_strategy2 lines education).
Proof.
  unfold education_strategy2.
  apply (for_each_inv (fun st => extends education (snd st)));
    [apply extends_refl|].
  intros [i line] [fl s] H. cbn [snd] in H. branches.
Qed.

Lemma education_strategy3_extends (lines : list str)
    (education : list EducationEntry) :
  extends education (education_strategy3 lines education).
Proof.
  unfold education_strategy3.
  apply for_each_inv; [apply extends_refl|].
  intros [i line] s H. branches.
Qed.

Lemma education_strategy4_extends (lines : list str)
    (education : list EducationEntry) :
  extends education (education_strategy4 lines education).
Proof.
  unfold education_strategy4.
  apply (for_each_inv (fun st => extends education (snd st)));
    [apply extends_refl|].
  intros [i line] [fl s] H. cbn [snd] in H. branches.
Qed.

Lemma education_strategy5_extends (lines : list str)
    (education : list EducationEntry) :
  extends education (education_strategy5 lines education).
Proof.
  unfold education_strategy5.
  apply for_each_inv; [apply extends_refl|].
  intros [i line] s H.
  match goal with
  | |- context [if ?c then _ else _] => destruct c
  end; cbn [fst next]; [| exact H].
  apply for_each_inv; [exact H|].
  intros l s' H'. branches.
Qed.

(** ** Education: first occurrence wins *)

(** C9.  The candidates are built by appending what the five strategies
    find, in the order of the strategies.  The result has no degree name
    twice; an entry is in it exactly when its degree name is not empty
    and it is the first candidate with exactly that name; and a
    candidate that repeats the name of an earlier one can be taken out
    of the candidates without changing the result.  The match is on the
    exact string: names that differ in case are both kept. *)
Theorem education_first_occurrence_wins :
  (forall text,
     let lines := split text nl in
     exists s1 s2 s3 s4 s5,
       education_strategy1 lines [] = s1
       /\ education_strategy2 lines s1 = s1 ++ s2
       /\ education_strategy3 lines (s1 ++ s2) = s1 ++ s2 ++ s3
       /\ education_strategy4 lines (s1 ++ s2 ++ s3) = s1 ++ s2 ++ s3 ++ s4
       /\ education_strategy5 lines (s1 ++ s2 ++ s3 ++ s4)
          = s1 ++ s2 ++ s3 ++ s4 ++ s5
       /\ education_candidates text = s1 ++ s2 ++ s3 ++ s4 ++ s5)
  /\ (forall text,
        NoDup (map Degree_Name (_extract_education_improved text)))
  /\ (forall text e,
        In e (_extract_education_improved text) <->
        Degree_Name e <> []
        /\ exists l1 l2, education_candidates text = l1 ++ e :: l2
                         /\ ~ In (Degree_Name e) (map Degree_Name l1))
  /\ (forall text l1 a l2 b l3,
        education_candidates text = l1 ++ a :: l2 ++ b :: l3 ->
        Degree_Name a = Degree_Name b ->
        _extract_education_improved text
        = unique_education (l1 ++ a :: l2 ++ l3))
  /\ map (fun e => (Degree_Name e, School_Name e))
       (education_candidates repeated_degree_text)
     = [(u "MBA", []); (u "MBA Finance", []); (u "MBA", []);
        (u "MBA Finance", u "Pace University")]
  /\ map (fun e => (Degree_Name e, School_Name e))
       (_extract_education_improved repeated_degree_text)
     = [(u "MBA", []); (u "MBA Finance", [])]
  /\ map Degree_Name (_extract_education_improved case_degree_text)
     = [u "MBA Finance"; u "mba Finance"].
Proof.
  split; [| split; [| split; [| split;
    [| repeat split; vm_compute; reflexivity]]]].
  - intros text lines.
    destruct (education_strategy1_extends lines []) as [s1 E1].
    simpl in E1.
    destruct (education_strategy2_extends lines s1) as [s2 E2].
    destruct (education_strategy3_extends lines (s1 ++ s2)) as [s3 E3].
    rewrite <- app_assoc in E3.
    destruct (education_strategy4_extends lines (s1 ++ s2 ++ s3)) as [s4 E4].
    repeat rewrite <- app_assoc in E4.
    destruct (education_strategy5_extends lines (s1 ++ s2 ++ s3 ++ s4))
      as [s5 E5].
    repeat rewrite <- app_assoc in E5.
    exists s1, s2, s3, s4, s5.
    split; [exact E1|]. split; [exact E2|]. split; [exact E3|].
    split; [exact E4|]. split; [exact E5|].
    unfold education_candidates. change (split text nl) with lines.
    rewrite E1, E2, E3, E4. exact E5.
  - intros text. unfold _extract_education_improved.
    rewrite unique_education_from. apply unique_from_NoDup.
  - intros text e. unfold _extract_education_improved.
    rewrite unique_education_from, unique_from_In. simpl. tauto.
  - intros text l1 a l2 b l3 E En. unfold _extract_education_improved.
    rewrite E, !unique_education_from.
    replace (l1 ++ a :: l2 ++ b :: l3) with ((l1 ++ a :: l2) ++ b :: l3)
      by (rewrite <- app_assoc; reflexivity).
    replace (l1 ++ a :: l2 ++ l3) with ((l1 ++ a :: l2) ++ l3)
      by (rewrite <- app_assoc; reflexivity).
    apply unique_from_skip. right; right.
    rewrite map_app. apply in_or_app; right. simpl. left. exact En.
Qed.

Lemma education_first_occurrence_wins_witness :
  _extract_education_improved repeated_degree_text
  = unique_education
      [mk_education [] (u "MBA") []; mk_education [] (u "MBA Finance") [];
       mk_education (u "Pace University") (u "MBA Finance") []].
Proof.
  apply (proj1 (proj2 (proj2 (proj2 education_first_occurrence_wins)))
           repeated_degree_text [] (mk_education [] (u "MBA") [])
           [mk_education [] (u "MBA Finance") []]
           (mk_education [] (u "MBA") [])
           [mk_education (u "Pace University") (u "MBA Finance") []]).
  - vm_compute. reflexivity.
  - reflexivity.
Defined.

(** ** Education: no empty degree name *)

(** C10.  No entry of the result has an empty degree name: a candidate
    with an empty degree name is left out by the closing pass, and
    leaving it out of the candidates changes nothing.  Such candidates
    do come up (a Roman-numeral item whose numeral is in lower case),
    and the school name of a returned entry may be empty. *)
Theorem education_degree_name_nonempty :
  (forall text e,
     In e (_extract_education_improved text) -> Degree_Name e <> [])
  /\ (forall l1 e l2,
        Degree_Name e = [] ->
        unique_education (l1 ++ e :: l2) = unique_education (l1 ++ l2))
  /\ map (fun e => (Degree_Name e, School_Name e))
       (education_candidates roman_text)
     = [(u "Ba chelor X.", []); ([], u "Some University")]
  /\ map (fun e => (Degree_Name e, School_Name e))
       (_extract_education_improved roman_text)
     = [(u "Ba chelor X.", [])].
Proof.
  split; [| split; [| split; vm_compute; reflexivity]].
  - intros text e He. unfold _extract_education_improved in He.
    rewrite unique_education_from in He. apply unique_from_In in He.
    exact (proj1 He).
  - intros l1 e l2 He. rewrite !unique_education_from.
    apply unique_from_skip. left. exact He.
Qed.

Lemma education_degree_name_nonempty_witness :
  Degree_Name (mk_education [] (u "Ba chelor X.") []) <> []
  /\ unique_education
       [mk_education [] (u "Ba chelor X.") [];
        mk_education (u "Some University") [] []]
     = unique_education [mk_education [] (u "Ba chelor X.") []].
Proof.
  split.
  - apply (proj1 education_degree_name_nonempty roman_text).
    vm_compute. left. reflexivity.
  - apply (proj1 (proj2 education_degree_name_nonempty)
             [mk_education [] (u "Ba chelor X.") []]
             (mk_education (u "Some University") [] []) []).
    reflexivity.
Defined.

(** ** The patterns of the source *)

(** Each of them compiles, and so do the word patterns built with
    [re.escape] from the skills database. *)
Lemma patterns_compile :
  forallb (fun '(p, fl) => is_some (compile p fl)) source_patterns = true
  /\ forallb (fun '(_, skill_list) =>
       forallb (fun skill =>
         is_some (compile (u "\b" ++ escape (upper skill) ++ u "\b") NOFLAG))
         skill_list) _build_comprehensive_skills_database = true.
Proof. split; vm_compute; reflexivity. Qed.

(* ===================================================================== *)
(** * Further properties of the code *)
(* ===================================================================== *)

(** ** The quality score *)

Lemma score_by_groups (c : ContactInfo) (x : list Position)
    (e : list EducationEntry) (s : list SkillEntry) :
  _calculate_quality_score c x e s
  = weights_sum (truthy (FormattedName c)) (nonempty x) (nonempty e)
      (nonempty s).
Proof. apply quality_score_weights. Qed.

(** X1.  The score is [1.0] exactly when all four groups are present and
    [0.0] exactly when none is, and it never goes down when groups are
    added: a result with at least the groups of another scores at least
    as much. *)
Theorem quality_score_monotone :
  (forall c x e s,
     (_calculate_quality_score c x e s =? 1)%float
     = truthy (FormattedName c) && nonempty x && nonempty e && nonempty s)
  /\ (forall c x e s,
        (_calculate_quality_score c x e s =? 0)%float
        = negb (truthy (FormattedName c) || nonempty x || nonempty e
                || nonempty s))
  /\ (forall c x e s c' x' e' s',
        groups_le (groups_present c x e s) (groups_present c' x' e' s') = true ->
        (_calculate_quality_score c x e s
         <=? _calculate_quality_score c' x' e' s')%float = true).
Proof.
  split; [| split].
  - intros c x e s. rewrite score_by_groups.
    destruct (truthy (FormattedName c)), (nonempty x), (nonempty e),
      (nonempty s); vm_compute; reflexivity.
  - intros c x e s. rewrite score_by_groups.
    destruct (truthy (FormattedName c)), (nonempty x), (nonempty e),
      (nonempty s); vm_compute; reflexivity.
  - intros c x e s c' x' e' s'. rewrite !score_by_groups.
    unfold groups_le, groups_present.
    destruct (truthy (FormattedName c)), (nonempty x), (nonempty e),
      (nonempty s), (truthy (FormattedName c')), (nonempty x'),
      (nonempty e'), (nonempty s'); vm_compute; congruence.
Qed.

Lemma quality_score_monotone_witness :
  (_calculate_quality_score
     (ContactInformation (fst (parse_resume [] [] (Build_World (fun _ => 0%float) 0))))
     [] [] []
   <=? _calculate_quality_score
         (ContactInformation
            (fst (parse_resume (u "John Smith") []
                    (Build_World (fun _ => 0%float) 0))))
         [] [] [])%float = true.
Proof.
  apply (proj2 (proj2 quality_score_monotone)). vm_compute. reflexivity.
Defined.

(** ** Education entries *)

Lemma mk_education_wf (school degree_name dates : str) :
  education_wf (mk_education school degree_name dates).
Proof. repeat split. Qed.

Lemma wf_snoc (s : list EducationEntry) (school degree_name dates : str) :
  Forall education_wf s ->
  Forall education_wf (s ++ [mk_education school degree_name dates]).
Proof.
  intros H. apply Forall_app. split; [exact H|].
  constructor; [apply mk_education_wf | constructor].
Qed.

#[local] Hint Resolve wf_snoc : edu.

Lemma education_strategy1_wf (lines : list str) (education : list EducationEntry) :
  Forall education_wf education ->
  Forall education_wf (education_strategy1 lines education).
Proof.
  intros H0. unfold education_strategy1.
  destruct (truthy _); [| exact H0].
  apply for_each_inv; [exact H0|].
  intros x s H. branches.
Qed.

Lemma education_strategy2_wf (lines : list str) (education : list EducationEntry) :
  Forall education_wf education ->
  Forall education_wf (education_strategy2 lines education).
Proof.
  intros H0. unfold education_strategy2.
  apply (for_each_inv (fun st => Forall education_wf (snd st))); [exact H0|].
  intros [i line] [fl s] H. cbn [snd] in H. branches.
Qed.

Lemma education_strategy3_wf (lines : list str) (education : list EducationEntry) :
  Forall education_wf education ->
  Forall education_wf (education_strategy3 lines education).
Proof.
  intros H0. unfold education_strategy3.
  apply for_each_inv; [exact H0|].
  intros [i line] s H. branches.
Qed.

Lemma education_strategy4_wf (lines : list str) (education : list EducationEntry) :
  Forall education_wf education ->
  Forall education_wf (education_strategy4 lines education).
Proof.
  intros H0. unfold education_strategy4.
  apply (for_each_inv (fun st => Forall education_wf (snd st))); [exact H0|].
  intros [i line] [fl s] H. cbn [snd] in H. branches.
Qed.

Lemma education_strategy5_wf (lines : list str) (education : list EducationEntry) :
  Forall education_wf education ->
  Forall education_wf (education_strategy5 lines education).
Proof.
  intros H0. unfold education_strategy5.
  apply for_each_inv; [exact H0|].
  intros [i line] s H.
  match goal with
  | |- context [if ?c then _ else _] => destruct c
  end; cbn [fst next]; [| exact H].
  apply for_each_inv; [exact H|].
  intros l s' H'. branches.
Qed.

Lemma education_candidates_wf (text : str) :
  Forall education_wf (education_candidates text).
Proof.
  unfold education_candidates.
  apply education_strategy5_wf, education_strategy4_wf,
    education_strategy3_wf, education_strategy2_wf, education_strategy1_wf.
  constructor.
Qed.

Lemma classify_in_types (n : str) : In (_classify_degree_type n) degree_types.
Proof.
  unfold _classify_degree_type, degree_types.
  destruct (contains_any _ _); [right; right; left; reflexivity|].
  destruct (contains_any _ _); [right; left; reflexivity | left; reflexivity].
Qed.

(** X2.  In every education entry of the result the degree type is the
    classification of the entry's degree name, one of bachelors, masters
    and doctorate, and the start date, the end date and the GPA are
    empty: no strategy ever fills them. *)
Theorem education_entries_wellformed (text : str) (e : EducationEntry) :
  In e (_extract_education_improved text) ->
  Degree_Type e = _classify_degree_type (Degree_Name e)
  /\ In (Degree_Type e) degree_types
  /\ edu_StartDate e = [] /\ edu_EndDate e = [] /\ GPA e = [].
Proof.
  intros He. unfold _extract_education_improved in He.
  rewrite unique_education_from in He. apply unique_from_In in He.
  destruct He as (_ & _ & l1 & l2 & E & _).
  pose proof (education_candidates_wf text) as W. rewrite E in W.
  apply Forall_app in W. destruct W as [_ W].
  inversion W as [|? ? (T & S & En & G) _]; subst.
  repeat split; try assumption.
  rewrite T. apply classify_in_types.
Qed.

Lemma education_entries_wellformed_witness :
  let e := mk_education [] (u "MBA Finance") [] in
  Degree_Type e = _classify_degree_type (Degree_Name e)
  /\ In (Degree_Type e) degree_types
  /\ edu_StartDate e = [] /\ edu_EndDate e = [] /\ GPA e = [].
Proof.
  apply (education_entries_wellformed repeated_degree_text).
  vm_compute. right. left. reflexivity.
Defined.

(** ** The third education strategy *)

Lemma strategy3_skips (line : str) (e : EducationEntry)
    (es : list EducationEntry) :
  mem (strip line)
    (flat_map (fun edu => map (fun _ : str => strip line) [Degree_Name edu])
       (e :: es)) = true.
Proof. simpl. rewrite eqb_refl. reflexivity. Qed.

(** X3.  The third education strategy compares each line with a list
    that holds the line itself once per entry found so far, so it passes
    over every line as soon as one entry exists: it adds nothing to a
    non-empty list of candidates, and at most one entry to an empty
    one. *)
Theorem education_strategy3_at_most_one (lines : list str) :
  (forall education,
     education <> [] -> education_strategy3 lines education = education)
  /\ length (education_strategy3 lines []) <= 1.
Proof.
  assert (Keep : forall (i : nat) (line : str) (s : list EducationEntry)
                        (f : bool) (X Y : list EducationEntry * bool),
             s <> [] ->
             (if negb (truthy (strip line))
                 || mem (strip line)
                      (flat_map
                         (fun edu => map (fun _ : str => strip line)
                                       [Degree_Name edu]) s)
              then next s else Y) = next s).
  { intros i line s f X Y Hs. destruct s as [|e es]; [congruence|].
    rewrite strategy3_skips, orb_true_r. reflexivity. }
  split.
  - intros education Hne. unfold education_strategy3.
    apply (for_each_inv (fun s => s = education)); [reflexivity|].
    intros [i line] s ->. cbv beta iota zeta.
    rewrite (Keep i line education true (next education)); auto.
  - unfold education_strategy3.
    apply (for_each_inv (fun s : list EducationEntry => length s <= 1));
      [simpl; lia|].
    intros [i line] s H. cbv beta iota zeta.
    destruct s as [|e es].
    + branches; simpl; lia.
    + rewrite (Keep i line (e :: es) true (next (e :: es)));
        [exact H | discriminate].
Qed.

Lemma education_strategy3_at_most_one_witness :
  education_strategy3 [u "PhD in Physics"] [mk_education [] (u "MBA") []]
  = [mk_education [] (u "MBA") []]
  /\ map Degree_Name (education_strategy3 [u "PhD in Physics"] [])
     = [u "PhD in Physics"].
Proof.
  split.
  - apply (proj1 (education_strategy3_at_most_one [u "PhD in Physics"])).
    discriminate.
  - vm_compute. reflexivity.
Defined.

(** ** The date post-pass *)

(** A loop that adds one output per input to the first component of its
    state relates the inputs to the outputs one by one. *)
Lemma for_each_pointwise {A B S : Type} (R : A -> B -> Prop)
    (f : A -> list B * S -> (list B * S) * bool) :
  (forall x done s, exists q s', f x (done, s) = next (done ++ [q], s')
                                 /\ R x q) ->
  forall xs done s,
    exists qs, fst (for_each xs (done, s) f) = done ++ qs /\ Forall2 R xs qs.
Proof.
  intros Hf. induction xs as [|x xs IH]; intros done s; simpl.
  - exists []. rewrite app_nil_r. split; [reflexivity | constructor].
  - destruct (Hf x done s) as (q & s' & E & Hr). rewrite E.
    unfold next. destruct (IH (done ++ [q]) s') as (qs & E' & F).
    exists (q :: qs). rewrite E', <- app_assoc. split; [reflexivity|].
    constructor; assumption.
Qed.

Lemma dates_filled_refl (p : Position) : dates_filled p p.
Proof. repeat split. left. reflexivity. Qed.

(** X4.  The date post-pass returns the positions one for one and in
    order.  It never changes a job title, company, location or
    description; it leaves a position that has both dates as it is; and
    where it changes a position, the new start and end date are the
    normalisation of the new [Dates]. *)
Theorem enhance_positions_pointwise (positions : list Position) (text : str) :
  Forall2 dates_filled positions (_enhance_positions_with_dates positions text)
  /\ length (_enhance_positions_with_dates positions text) = length positions.
Proof.
  assert (F : Forall2 dates_filled positions
                (_enhance_positions_with_dates positions text)).
  { unfold _enhance_positions_with_dates.
    match goal with
    | |- Forall2 _ _ (fst (for_each _ (_, ?dl) ?f)) =>
        destruct (for_each_pointwise dates_filled f) with
          (xs := positions) (done := @nil Position) (s := dl)
          as (qs & E & H)
    end.
    - intros p done dl. cbv beta iota zeta.
      destruct (truthy (StartDate p) && truthy (EndDate p)) eqn:D.
      + exists p, dl. split; [reflexivity | apply dates_filled_refl].
      + match goal with
        | |- context [match ?x with Some _ => _ | None => _ end] =>
            destruct x as [pl|]
        end; [| exists p, dl; split; [reflexivity | apply dates_filled_refl]].
        match goal with
        | |- context [let '(_, _) := ?x in _] => destruct x as [[cd|] md]
        end.
        * eexists _, _. split; [reflexivity|].
          destruct p; repeat split. right. repeat split. exact D.
        * exists p, dl. split; [reflexivity | apply dates_filled_refl].
    - rewrite E. exact H. }
  split; [exact F|]. symmetry. exact (Forall2_length F).
Qed.

(** ** The order of the deduplicated skills *)







(** ** The experience section under a listed header *)

Lemma locate_experience_step (lines : list str) :
  locate_experience lines
  = for_each (enumerate lines) (-1, -1)%Z (locate_step lines).
Proof. reflexivity. Qed.

Lemma header_loop (headers : list str) (line_clean : str) (s v : Z) :
  for_each headers s
    (fun header s0 =>
       if eqb (upper line_clean) header
          || eqb (upper line_clean) (header ++ u ":")
       then break v else next s0)
  = if is_header headers line_clean then v else s.
Proof.
  induction headers as [|h hs IH]; [reflexivity|].
  cbn [for_each is_header existsb].
  destruct (eqb (upper line_clean) h || eqb (upper line_clean) (h ++ u ":"));
    cbn [break next orb]; [reflexivity | apply IH].
Qed.

Lemma is_header_truthy (headers : list str) (line_clean : str) :
  forallb truthy headers = true ->
  is_header headers line_clean = true -> truthy line_clean = true.
Proof.
  intros Hh H. destruct line_clean; [| reflexivity].
  unfold is_header in H. apply existsb_exists in H.
  destruct H as (h & Hi & E). rewrite forallb_forall in Hh.
  specialize (Hh h Hi). destruct h; [discriminate|].
  simpl in E. discriminate.
Qed.

Lemma Zeqb_m1 (s : Z) : (0 <= s)%Z -> (s =? -1)%Z = false.
Proof. intros H. apply Z.eqb_neq. lia. Qed.

(** The rule of line 0 does not fire: the line is not line 0, or it
    carries no marker. *)
Lemma line0_rule_off (i : nat) (l : str) :
  truthy (strip l) = true -> (i = 0 -> no_marker l = true) ->
  Nat.eqb i 0
  && (contains (upper (strip l)) (u "PROJECT HISTORY")
      || contains_any (strip l)
           [u "Pvt."; u "Ltd."; u "Inc."; u "Corp."; u "Company"; u "LLC"])
  = false.
Proof.
  intros T H. destruct i as [|i]; [| reflexivity].
  specialize (H eq_refl). unfold no_marker in H. rewrite T in H.
  cbn [negb orb] in H. apply negb_true_iff in H.
  unfold line0_marker in H. rewrite H. reflexivity.
Qed.

Lemma step_before (lines : list str) (i : nat) (l : str) :
  passed_over l = true -> (i = 0 -> no_marker l = true) ->
  locate_step lines (i, l) (-1, -1)%Z = next (-1, -1)%Z.
Proof.
  intros Hl H0. unfold passed_over in Hl. unfold locate_step. cbv zeta.
  destruct (truthy (strip l)) eqn:T; cbn [negb orb] in Hl |- *;
    [| reflexivity].
  apply andb_true_iff in Hl. destruct Hl as [Hh He].
  apply negb_true_iff in Hh, He.
  change (-1 =? -1)%Z with true. cbv iota.
  rewrite (@line0_rule_off i l T H0), header_loop, Hh.
  change (-1 =? -1)%Z with true. rewrite He. reflexivity.
Qed.

Lemma step_open (lines : list str) (i : nat) (h : str) :
  is_header experience_headers (strip h) = true ->
  (i = 0 -> no_marker h = true) ->
  locate_step lines (i, h) (-1, -1)%Z = next (Z.of_nat i + 1, -1)%Z.
Proof.
  intros Hh H0.
  pose proof (@is_header_truthy experience_headers _ eq_refl Hh) as T.
  unfold locate_step. cbv zeta. rewrite T.
  cbn [negb]. change (-1 =? -1)%Z with true. cbv iota.
  rewrite (@line0_rule_off i h T H0), header_loop, Hh, Zeqb_m1 by lia.
  reflexivity.
Qed.

Lemma step_inside (lines : list str) (i : nat) (l : str) (s : Z) :
  (0 <= s)%Z -> closes_section l = false ->
  locate_step lines (i, l) (s, -1)%Z = next (s, -1)%Z.
Proof.
  intros Hs Hl. unfold closes_section in Hl. unfold locate_step. cbv zeta.
  destruct (truthy (strip l)) eqn:T; cbn [negb andb] in Hl |- *;
    [| reflexivity].
  rewrite (@Zeqb_m1 s Hs). cbn [negb andb].
  change (-1 =? -1)%Z with true. cbv iota.
  rewrite header_loop, Hl. reflexivity.
Qed.

Lemma step_close (lines : list str) (i : nat) (e : str) (s : Z) :
  (0 <= s)%Z -> closes_section e = true ->
  locate_step lines (i, e) (s, -1)%Z = next (s, Z.of_nat i).
Proof.
  intros Hs H. unfold closes_section in H. apply andb_true_iff in H.
  destruct H as [T He]. unfold locate_step. cbv zeta.
  rewrite T, (@Zeqb_m1 s Hs). cbn [negb andb].
  change (-1 =? -1)%Z with true. cbv iota.
  rewrite header_loop, He. reflexivity.
Qed.

Lemma step_after (lines : list str) (i : nat) (l : str) (s m : Z) :
  (0 <= s)%Z -> (0 <= m)%Z ->
  locate_step lines (i, l) (s, m) = next (s, m).
Proof.
  intros Hs Hm. unfold locate_step. cbv zeta.
  destruct (negb (truthy (strip l))); [reflexivity|].
  rewrite (@Zeqb_m1 s Hs), (@Zeqb_m1 m Hm). reflexivity.
Qed.

Lemma step_marker (lines : list str) (l : str) :
  truthy (strip l) = true -> line0_marker (strip l) = true ->
  locate_step lines (0, l) (-1, -1)%Z = break (0, -1)%Z.
Proof.
  intros T H. unfold locate_step. cbv zeta. rewrite T. cbn [negb].
  change (-1 =? -1)%Z with true. cbv iota.
  unfold line0_marker in H. rewrite H. reflexivity.
Qed.

Lemma locate_before (lines pre tail : list str) (i : nat) :
  forallb passed_over pre = true ->
  (i = 0 -> forall l, hd_error pre = Some l -> no_marker l = true) ->
  for_each (enumerate_from i (pre ++ tail)) (-1, -1)%Z (locate_step lines)
  = for_each (enumerate_from (i + length pre) tail) (-1, -1)%Z
      (locate_step lines).
Proof.
  revert i. induction pre as [|l pre IH]; intros i H H0.
  - cbn [length app]. rewrite Nat.add_0_r. reflexivity.
  - cbn [forallb] in H. apply andb_true_iff in H. destruct H as [Hl Hp].
    cbn [length app enumerate_from for_each].
    rewrite (@step_before lines i l Hl (fun E => H0 E l eq_refl)).
    cbn [next].
    rewrite (IH (S i) Hp) by discriminate. f_equal. f_equal. lia.
Qed.

Lemma locate_inside (lines body tail : list str) (i : nat) (s : Z) :
  (0 <= s)%Z ->
  forallb (fun l => negb (closes_section l)) body = true ->
  for_each (enumerate_from i (body ++ tail)) (s, -1)%Z (locate_step lines)
  = for_each (enumerate_from (i + length body) tail) (s, -1)%Z
      (locate_step lines).
Proof.
  intros Hs. revert i. induction body as [|l body IH]; intros i H.
  - cbn [length app]. rewrite Nat.add_0_r. reflexivity.
  - cbn [forallb] in H. apply andb_true_iff in H. destruct H as [Hl Hb].
    apply negb_true_iff in Hl.
    cbn [length app enumerate_from for_each].
    rewrite (@step_inside lines i l s Hs Hl). cbn [next].
    rewrite (IH (S i) Hb). f_equal. f_equal. lia.
Qed.

Lemma locate_after (lines rest : list str) (i : nat) (s m : Z) :
  (0 <= s)%Z -> (0 <= m)%Z ->
  for_each (enumerate_from i rest) (s, m) (locate_step lines) = (s, m).
Proof.
  intros Hs Hm. revert i. induction rest as [|l rest IH]; intros i;
    [reflexivity|].
  cbn [enumerate_from for_each].
  rewrite (@step_after lines i l s m Hs Hm). cbn [next]. apply IH.
Qed.

Lemma slice_middle (A : Type) (pre body rest : list A) (h : A) :
  slice (pre ++ h :: body ++ rest) (S (length pre))
    (S (length pre) + length body) = body.
Proof.
  unfold slice.
  replace (S (length pre) + length body - S (length pre)) with (length body)
    by lia.
  replace (pre ++ h :: body ++ rest) with ((pre ++ [h]) ++ body ++ rest)
    by (rewrite <- app_assoc; reflexivity).
  replace (S (length pre)) with (length (pre ++ [h]))
    by (rewrite length_app; simpl; lia).
  rewrite skipn_app, skipn_all, Nat.sub_diag. cbn [skipn app].
  rewrite firstn_app, Nat.sub_diag, firstn_all. cbn [firstn].
  apply app_nil_r.
Qed.

Lemma locate_listed_header (pre tail : list str) (h : str) :
  no_marker (hd h pre) = true ->
  forallb passed_over pre = true ->
  is_header experience_headers (strip h) = true ->
  locate_experience (pre ++ h :: tail)
  = for_each (enumerate_from (S (length pre)) tail)
      (Z.of_nat (length pre) + 1, -1)%Z (locate_step (pre ++ h :: tail)).
Proof.
  intros H0 Hp Hh. rewrite locate_experience_step. unfold enumerate.
  rewrite (@locate_before _ pre (h :: tail) 0 Hp).
  - cbn [Nat.add enumerate_from for_each].
    rewrite (@step_open _ (length pre) h Hh); [reflexivity|].
    intros E. destruct pre; [exact H0 | discriminate].
  - intros _ l E. destruct pre; [discriminate|].
    injection E as ->. exact H0.
Qed.

(** X6.  The lines of the experience section, for plain text (ASCII,
    dashes, quotes and bullets; the lines are compared in upper case).
    When the first line of the document does not set off the rule of
    line 0 (a line 0 with "PROJECT HISTORY" or a company marker), and
    the first line that is not passed over (blank, or neither a listed
    header nor the bare "EXPERIENCE") is a listed header, in any case
    and with or without a colon, the section is the lines after the
    header up to the first closing header, or up to the end of the
    document when there is none.  When line 0 does set off that rule,
    the section is the whole document, line 0 included. *)
Theorem experience_section_listed_header :
  (forall (pre body rest : list str) (h e : str),
     forallb plain pre = true -> forallb plain body = true ->
     no_marker (hd h pre) = true ->
     forallb passed_over pre = true ->
     is_header experience_headers (strip h) = true ->
     forallb (fun l => negb (closes_section l)) body = true ->
     closes_section e = true ->
     experience_section (pre ++ h :: body ++ e :: rest) = Some body
     /\ experience_section (pre ++ h :: body) = Some body)
  /\ (forall (first : str) (rest : list str),
        truthy (strip first) = true -> line0_marker (strip first) = true ->
        experience_section (first :: rest) = Some (first :: rest)).
Proof.
  split.
  - intros pre body rest h e _ _ H0 Hp Hh Hb He.
    assert (Hs : (0 <= Z.of_nat (length pre) + 1)%Z) by lia.
    split; unfold experience_section;
      rewrite (@locate_listed_header pre _ h H0 Hp Hh).
    + rewrite (@locate_inside _ body _ _ _ Hs Hb).
      cbn [enumerate_from for_each].
      rewrite (@step_close _ (S (length pre) + length body) e _ Hs He).
      cbn [next]. rewrite locate_after by lia.
      rewrite !Zeqb_m1 by lia.
      f_equal.
      replace (Z.to_nat (Z.of_nat (length pre) + 1)) with (S (length pre))
        by lia.
      rewrite Nat2Z.id. apply slice_middle.
    + rewrite <- (app_nil_r body) at 1.
      rewrite (@locate_inside _ body _ _ _ Hs Hb).
      cbn [enumerate_from for_each].
      rewrite Zeqb_m1 by lia.
      change (-1 =? -1)%Z with true. cbv iota.
      f_equal.
      replace (Z.to_nat (Z.of_nat (length pre) + 1)) with (S (length pre))
        by lia.
      rewrite Nat2Z.id.
      replace (length (pre ++ h :: body)) with (S (length pre) + length body)
        by (rewrite length_app; simpl; lia).
      rewrite <- (app_nil_r body) at 1. apply slice_middle.
  - intros first rest T H. unfold experience_section.
    rewrite locate_experience_step. unfold enumerate.
    cbn [enumerate_from for_each].
    rewrite (@step_marker _ first T H). cbn [break].
    change (0 =? -1)%Z with false. change (-1 =? -1)%Z with true. cbv iota.
    f_equal. unfold slice. rewrite Nat2Z.id. cbn [Z.to_nat skipn].
    rewrite Nat.sub_0_r. apply firstn_all.
Qed.

Lemma experience_section_listed_header_witness :
  (experience_section
     [u "Jane Roe"; []; u "Project History:"; u "Acme Inc., Austin";
      u "Engineer – 2019"; u "skills:"; u "Python"]
   = Some [u "Acme Inc., Austin"; u "Engineer – 2019"]
   /\ experience_section
        [u "Jane Roe"; []; u "Project History:"; u "Acme Inc., Austin";
         u "Engineer – 2019"]
      = Some [u "Acme Inc., Austin"; u "Engineer – 2019"])
  /\ experience_section [u "Project History"; u "Acme"; u "EDUCATION"]
     = Some [u "Project History"; u "Acme"; u "EDUCATION"].
Proof.
  split.
  - apply (proj1 experience_section_listed_header
             [u "Jane Roe"; []] [u "Acme Inc., Austin"; u "Engineer – 2019"]
             [u "Python"] (u "Project History:") (u "skills:"));
      vm_compute; reflexivity.
  - apply (proj2 experience_section_listed_header
             (u "Project History") [u "Acme"; u "EDUCATION"]);
      vm_compute; reflexivity.
Defined.

(** ** The shape of the skills *)

Lemma for_each_inv_in {A S : Type} (P : S -> Prop) (f : A -> S -> S * bool)
    (xs : list A) (s : S) :
  P s -> (forall x s, In x xs -> P s -> P (fst (f x s))) ->
  P (for_each xs s f).
Proof.
  revert s; induction xs as [|x xs IH]; intros s H0 Hstep;
    simpl; [assumption|].
  pose proof (Hstep x s (or_introl eq_refl) H0) as H1.
  destruct (f x s) as [s' [|]]; simpl in H1; [assumption|].
  apply IH; [assumption|]. intros y t Hy. apply Hstep. right; exact Hy.
Qed.

Lemma section_step_wf (c : float) (skill : str)
    (skills : list SkillCandidate) :
  section_confidence c -> Forall candidate_wf skills ->
  Forall candidate_wf
    (fst (if truthy skill && (1 <? length skill)
          then next (skills ++ [section_skill skill c])
          else next skills)).
Proof.
  intros Hc H. destruct (truthy skill && (1 <? length skill)) eqn:E;
    cbn [fst next]; [| exact H].
  apply andb_true_iff in E. destruct E as [_ E]. apply Nat.ltb_lt in E.
  apply Forall_app. split; [exact H|]. constructor; [| constructor].
  left. cbn [section_skill category source name confidence]. auto.
Qed.

Lemma parse_skills_from_section_wf (section_text : str) :
  Forall candidate_wf (_parse_skills_from_section section_text).
Proof.
  unfold _parse_skills_from_section.
  destruct (contains section_text (u "|")).
  - apply (@for_each_inv _ _ (Forall candidate_wf)); [constructor|].
    intros line skills H. destruct (contains line (u "|")); cbn [fst next];
      [| exact H].
    apply (@for_each_inv _ _ (Forall candidate_wf)); [exact H|].
    intros skill sk Hsk. apply section_step_wf; [| exact Hsk].
    left; reflexivity.
  - destruct (contains section_text (u ",")).
    + apply (@for_each_inv _ _ (Forall candidate_wf)); [constructor|].
      intros skill sk Hsk. apply section_step_wf; [| exact Hsk].
      right; left; reflexivity.
    + apply (@for_each_inv _ _ (Forall candidate_wf)); [constructor|].
      intros line sk Hsk. cbv zeta. apply section_step_wf; [| exact Hsk].
      right; right; reflexivity.
Qed.

Lemma skills_from_experience_wf (text : str) :
  Forall candidate_wf
    (_extract_skills_from_experience text
       _build_comprehensive_skills_database).
Proof.
  unfold _extract_skills_from_experience. cbv zeta.
  apply (@for_each_inv_in _ _ (Forall candidate_wf)); [constructor|].
  intros [[skill_name skill_category] search_term] skills Hin H.
  match goal with |- context [if ?b then _ else _] => destruct b end;
    cbn [fst next]; [| exact H].
  apply Forall_app. split; [exact H|]. constructor; [| constructor].
  right. exists skill_category. cbn [category source name confidence].
  split; [reflexivity|]. split; [| left; split; reflexivity].
  apply in_flat_map in Hin. destruct Hin as ([cat l] & Hdb & Hl).
  apply in_map_iff in Hl. destruct Hl as (sk & E & Hsk).
  injection E as -> -> _. exists l. split; assumption.
Qed.

Lemma contextual_skills_wf (text : str) :
  Forall candidate_wf
    (_extract_contextual_skills text _build_comprehensive_skills_database).
Proof.
  unfold _extract_contextual_skills.
  apply (@for_each_inv _ _ (Forall candidate_wf)); [constructor|].
  intros pattern s0 H0. cbn [fst next].
  apply (@for_each_inv _ _ (Forall candidate_wf)); [exact H0|].
  intros m s1 H1. cbv zeta. cbn [fst next].
  apply (@for_each_inv_in _ _ (Forall candidate_wf)); [exact H1|].
  intros [skill_category skill_list] s2 Hdb H2. cbn [fst next].
  apply (@for_each_inv_in _ _ (Forall candidate_wf)); [exact H2|].
  intros known s3 Hk H3.
  match goal with |- context [if ?b then _ else _] => destruct b end;
    cbn [fst next break]; [| exact H3].
  apply Forall_app. split; [exact H3|]. constructor; [| constructor].
  right. exists skill_category. cbn [category source name confidence].
  split; [reflexivity|]. split; [| right; split; reflexivity].
  exists skill_list. split; assumption.
Qed.

Lemma skill_candidates_wf (text : str) :
  Forall candidate_wf (skill_candidates text).
Proof.
  unfold skill_candidates. cbv zeta.
  apply Forall_app. split; [apply Forall_app; split|].
  - apply Forall_flat_map. apply Forall_forall. intros s _.
    apply parse_skills_from_section_wf.
  - apply skills_from_experience_wf.
  - apply contextual_skills_wf.
Qed.

Lemma deduplicate_skills_In (skills : list SkillCandidate)
    (c : SkillCandidate) :
  In c (_deduplicate_skills skills) -> In c skills.
Proof.
  rewrite dedup_fold. unfold dict_values. intros H.
  apply in_map_iff in H. destruct H as (kv & <- & Hkv).
  destruct (dedup_inv_final skills) as (_ & F & _).
  rewrite Forall_forall in F. exact (proj2 (F kv Hkv)).
Qed.

Lemma enhance_skill_metadata_wf (skill : SkillCandidate) (text : str) :
  candidate_wf skill -> skill_entry_wf (_enhance_skill_metadata skill text).
Proof.
  intros H. unfold _enhance_skill_metadata, skill_entry_wf. cbv zeta.
  cbn [last_used months_experience sk_source sk_category sk_name
       sk_confidence].
  split; [reflexivity|]. split.
  - repeat match goal with
           | |- context [if ?b then _ else _] => destruct b
           end; simpl; auto 10.
  - destruct H as [(Hc & Hs & Hn & Hf) | (cat & Hc & Hk & Ho)]; rewrite Hc.
    + left. auto.
    + right. auto.
Qed.

(** X7.  [_extract_skills_improved] returns at most 25 skills, and each
    of them has [last_used] "2024", a months figure among 12, 24, 36,
    48, 60 and 72, and one of two shapes: a skill read from a skills
    section, with category "Technical Skills", a name longer than one
    character and confidence 0.95, 0.9 or 0.85; or a skill of the skills
    database under the category the database lists it in, with source
    "experience_text" and confidence 0.8 or source "contextual" and
    confidence 0.7. *)
Theorem skill_entries_wellformed (text : str) :
  length (_extract_skills_improved text) <= 25
  /\ Forall skill_entry_wf (_extract_skills_improved text).
Proof.
  unfold _extract_skills_improved. cbv zeta. split.
  - rewrite length_firstn. apply Nat.le_min_l.
  - apply Forall_forall. intros e He. apply In_firstn in He.
    apply in_map_iff in He. destruct He as (c & <- & Hc).
    apply enhance_skill_metadata_wf.
    apply deduplicate_skills_In in Hc.
    pose proof (skill_candidates_wf text) as F.
    rewrite Forall_forall in F. exact (F c Hc).
Qed.

(** ** Certifications *)

Lemma mk_cert_wf (n : str) : truthy n = true -> cert_wf (mk_cert n).
Proof. intros H. split; [exact H | reflexivity]. Qed.

Lemma certs_snoc (cs : list Certification) (n : str) :
  Forall cert_wf cs -> truthy n = true -> Forall cert_wf (cs ++ [mk_cert n]).
Proof.
  intros H Hn. apply Forall_app. split; [exact H|].
  constructor; [apply mk_cert_wf; exact Hn | constructor].
Qed.

Lemma contains_any_ci_truthy (s : str) (ks : list str) :
  forallb truthy ks = true -> contains_any_ci s ks = true -> truthy s = true.
Proof.
  intros Hk H. destruct s; [| reflexivity].
  unfold contains_any_ci in H. apply existsb_exists in H.
  destruct H as (k & Hin & Hc). rewrite forallb_forall in Hk.
  specialize (Hk k Hin). destruct k as [|c k]; [discriminate|].
  simpl in Hc. discriminate.
Qed.

(** X8.  Every certification [_extract_certifications] reports has a
    non-empty name and the authority "Professional Certification",
    whichever of the three line formats or the certification section it
    comes from. *)
Theorem certifications_wellformed (text : str) :
  Forall cert_wf (_extract_certifications text).
Proof.
  unfold _extract_certifications. cbv zeta.
  apply (@for_each_inv _ _
           (fun s : bool * list Certification => Forall cert_wf (snd s))).
  - cbn [snd].
    apply (@for_each_inv _ _ (Forall cert_wf)); [constructor|].
    intros line cs H.
    repeat match goal with
           | |- context [if is_some ?b then _ else _] => destruct (is_some b)
           end; cbn [fst next]; try exact H.
    + apply (@for_each_inv _ _ (Forall cert_wf)); [exact H|].
      intros part cs' H'.
      destruct (truthy part) eqn:T; cbn [andb]; [| exact H'].
      match goal with |- context [if ?b then _ else _] => destruct b end;
        cbn [fst next]; [apply certs_snoc; assumption | exact H'].
    + apply (@for_each_inv _ _ (Forall cert_wf)); [exact H|].
      intros part cs' H'.
      destruct (truthy part) eqn:T; cbn [andb]; [| exact H'].
      match goal with |- context [if ?b then _ else _] => destruct b end;
        cbn [fst next]; [apply certs_snoc; assumption | exact H'].
    + apply (@for_each_inv _ _ (Forall cert_wf)); [exact H|].
      intros part cs' H'.
      match goal with
      | |- context [if ?b then _ else _] => destruct b eqn:E
      end; cbn [fst next]; [| exact H'].
      apply certs_snoc; [exact H'|].
      apply (contains_any_ci_truthy part) in E; [exact E | reflexivity].
  - intros line [in_cert cs] H. cbn [snd] in H.
    destruct (is_some (match_ _ (strip line))); cbn [fst snd next];
      [exact H|].
    destruct in_cert; cbn [andb].
    + destruct (is_some (match_ _ (strip line))); cbn [fst snd break];
        [exact H|].
      destruct (truthy (strip line)) eqn:T; cbn [fst snd next]; [| exact H].
      destruct (contains_any (strip line) _); cbn [fst snd next]; [exact H|].
      match goal with |- context [if ?b then _ else _] => destruct b end;
        cbn [fst snd next]; [apply certs_snoc; assumption | exact H].
    + exact H.
Qed.

(** ** The scan of the experience section ends *)

Lemma find_dates_ge (ls : list str) (j : nat) :
  j <= snd (find_dates ls j).
Proof.
  revert j. induction ls as [|l ls IH]; intros j; cbn [find_dates];
    [apply Nat.le_refl|].
  cbv zeta. destruct (negb (truthy (strip l))).
  - specialize (IH (S j)). lia.
  - destruct (is_some _); apply Nat.le_refl.
Qed.

Lemma find_title_ge (ls : list str) (j : nat) :
  j <= snd (find_title ls j).
Proof.
  revert j. induction ls as [|l ls IH]; intros j; cbn [find_title];
    [apply Nat.le_refl|].
  cbv zeta. pose proof (IH (S j)) as IHj.
  destruct (negb (truthy (strip l))); [lia|].
  destruct (startswith (strip l) (u "(") && endswith (strip l) (u ")"));
    [lia|].
  destruct (contains_any (strip l) _); [| lia].
  destruct (title_and_dates (strip l)) as [job_title dates].
  destruct (negb (truthy dates)).
  - pose proof (find_dates_ge ls (S j)) as D.
    destruct (find_dates ls (S j)) as [d j']. cbn [snd] in *. lia.
  - cbn [snd]. lia.
Qed.

(** A turn of [positions_loop] is [positions_turn]. *)
Lemma positions_loop_turn (experience_lines : list str) (turns i : nat)
    (c : option Position) (ps : list Position) :
  i < length experience_lines ->
  positions_loop (S turns) experience_lines i c ps
  = let '(i', c', ps') := positions_turn experience_lines i c ps in
    positions_loop turns experience_lines i' c' ps'.
Proof.
  intros Hi. cbn [positions_loop]. unfold positions_turn.
  replace (i <? length experience_lines) with true
    by (symmetry; apply Nat.ltb_lt; exact Hi).
  cbn [negb]. cbv zeta.
  repeat match goal with
         | |- (if ?b then _ else _) = _ => destruct b; [reflexivity|]
         end.
  destruct (company_line _) as [[is_company company] location].
  destruct is_company; [| reflexivity].
  destruct (find_title _ _) as [[job_title dates] j].
  match goal with
  | |- (let '(_, _) := ?p in _) = _ => destruct p as [jt co]
  end.
  reflexivity.
Qed.

Lemma positions_turn_advances (experience_lines : list str) (i : nat)
    (c : option Position) (ps : list Position) :
  i < fst (fst (positions_turn experience_lines i c ps)).
Proof.
  unfold positions_turn. cbv zeta.
  repeat match goal with
         | |- _ < fst (fst (if ?b then _ else _)) =>
             destruct b; [cbn [fst]; lia|]
         end.
  destruct (company_line _) as [[is_company company] location].
  destruct is_company; [| cbn [fst]; lia].
  pose proof (find_title_ge (skipn (i + 1) experience_lines) (i + 1)) as F.
  destruct (find_title _ _) as [[job_title dates] j]. cbn [snd] in F.
  match goal with
  | |- _ < fst (fst (let '(_, _) := ?p in _)) => destruct p as [jt co]
  end.
  cbn [fst]. lia.
Qed.

(** X9.  The [while i < len(experience_lines)] scan of
    [_extract_experience_improved] ends.  Every turn leaves the index
    larger than it found it (a company line moves it past the title and
    date lines read ahead), so the loop started at index [i] is left
    after at most [len(experience_lines) - i] turns; and what it is
    left with is what [positions_loop] computes when it is given that
    many turns or more. *)
Theorem positions_loop_ends (experience_lines : list str) :
  (forall i c ps, i < fst (fst (positions_turn experience_lines i c ps)))
  /\ (forall turns i c ps,
        length experience_lines - i <= turns ->
        exists n,
          n <= length experience_lines - i
          /\ while_run experience_lines n i c ps
               (positions_loop turns experience_lines i c ps)).
Proof.
  split; [apply positions_turn_advances|].
  induction turns as [|turns IH]; intros i c ps H.
  - exists 0. split; [lia|]. cbn [positions_loop].
    apply while_left. lia.
  - destruct (Nat.lt_ge_cases i (length experience_lines)) as [Hi|Hi].
    + rewrite (@positions_loop_turn experience_lines turns i c ps Hi).
      pose proof (positions_turn_advances experience_lines i c ps) as A.
      destruct (positions_turn experience_lines i c ps) as [[i' c'] ps']
        eqn:T.
      cbn [fst] in A.
      destruct (IH i' c' ps') as (n & Hn & S1); [lia|].
      exists (S n). split; [lia|].
      exact (@while_turn experience_lines n i c ps i' c' ps' _ Hi T S1).
    + exists 0. split; [lia|]. cbn [positions_loop].
      replace (i <? length experience_lines) with false
        by (symmetry; apply Nat.ltb_ge; exact Hi).
      apply while_left. exact Hi.
Qed.

Lemma positions_loop_ends_witness :
  exists n,
    n <= 2
    /\ while_run [u "Acme Inc., Austin"; u "Senior Engineer"] n 0 None []
         (positions_loop 2 [u "Acme Inc., Austin"; u "Senior Engineer"]
            0 None []).
Proof.
  apply (proj2 (positions_loop_ends
                  [u "Acme Inc., Austin"; u "Senior Engineer"]) 2 0 None []).
  simpl. lia.
Defined.

(** ** One position per company line *)








(** ** The file names the servers take *)

Lemma startswith_nil (s : str) : startswith s [] = true.
Proof. destruct s; reflexivity. Qed.

Lemma split_go_done (cur r : str) :
  split_go [46%N] (Some 0) cur 0 r = [rev cur ++ r].
Proof.
  revert cur. induction r as [|c r IH]; intros cur; cbn [split_go].
  - rewrite app_nil_r. reflexivity.
  - cbn [andb]. rewrite IH. cbn [rev]. rewrite <- app_assoc. reflexivity.
Qed.

Lemma split_go_first (cur r : str) :
  existsb (ceqb 46) r = true ->
  exists rest,
    split_go [46%N] (Some 1) cur 0 r = [rev cur ++ before_dot r; rest].
Proof.
  revert cur. induction r as [|c r IH]; intros cur H; [discriminate|].
  cbn [split_go startswith andb existsb before_dot] in *.
  rewrite startswith_nil, andb_true_r. destruct (ceqb 46 c) eqn:E.
  - exists r. cbn [option_map Nat.pred length Nat.sub].
    rewrite (split_go_done [] r), app_nil_r. reflexivity.
  - cbn [orb] in H. destruct (IH (c :: cur) H) as (rest & ->).
    exists rest. cbn [rev]. rewrite <- app_assoc. reflexivity.
Qed.

Lemma contains_dot (s : str) :
  contains s [46%N] = existsb (ceqb 46) s.
Proof.
  induction s as [|c s IH]; [reflexivity|].
  cbn [contains startswith existsb].
  rewrite IH, startswith_nil, andb_true_r. reflexivity.
Qed.

Lemma before_dot_lower (r : str) :
  before_dot (map lower_c r) = map lower_c (before_dot r).
Proof.
  induction r as [|c r IH]; [reflexivity|].
  cbn [map before_dot].
  assert (E : ceqb 46 (lower_c c) = ceqb 46 c).
  { unfold lower_c, is_upper, in_range, ceqb.
    destruct ((65 <=? c)%N && (c <=? 90)%N) eqn:U; [| reflexivity].
    apply andb_true_iff in U. destruct U as [U1 U2].
    apply N.leb_le in U1, U2.
    transitivity false; [| symmetry]; apply N.eqb_neq; lia. }
  rewrite E. destruct (ceqb 46 c); [reflexivity|].
  cbn [map]. rewrite IH. reflexivity.
Qed.

Lemma existsb_dot_lower (r : str) :
  existsb (ceqb 46) (map lower_c r) = existsb (ceqb 46) r.
Proof.
  induction r as [|c r IH]; [reflexivity|].
  cbn [map existsb]. rewrite IH. f_equal.
  unfold lower_c, is_upper, in_range, ceqb.
  destruct ((65 <=? c)%N && (c <=? 90)%N) eqn:U; [| reflexivity].
  apply andb_true_iff in U. destruct U as [U1 U2].
  apply N.leb_le in U1, U2.
  transitivity false; [| symmetry]; apply N.eqb_neq; lia.
Qed.

(** A reversed name starts with a reversed extension and a dot exactly
    when it has a dot and that is what precedes its first dot. *)
Lemma startswith_before_dot (p r : str) :
  forallb (fun c => negb (ceqb 46 c)) p = true ->
  startswith r (p ++ [46%N]) = true
  <-> existsb (ceqb 46) r = true /\ before_dot r = p.
Proof.
  revert r. induction p as [|x p IH]; intros r Hp.
  - destruct r as [|c r]; cbn [app startswith existsb before_dot].
    + split; [discriminate | intros [H _]; discriminate].
    + rewrite startswith_nil, andb_true_r. destruct (ceqb 46 c); cbn [orb].
      * split; auto.
      * split; [discriminate | intros [_ H]; discriminate].
  - cbn [forallb] in Hp. apply andb_true_iff in Hp. destruct Hp as [Hx Hp].
    apply negb_true_iff in Hx.
    destruct r as [|c r]; cbn [app startswith existsb before_dot].
    + split; [discriminate | intros [H _]; discriminate].
    + destruct (ceqb 46 c) eqn:E; cbn [orb].
      * apply ceqb_eq in E. subst c. unfold ceqb in *.
        rewrite N.eqb_sym, Hx. cbn [andb].
        split; [discriminate | intros [_ H]; discriminate].
      * rewrite andb_true_iff, (IH r Hp), ceqb_eq.
        split.
        -- intros (-> & He & ->). auto.
        -- intros (He & H). injection H as -> ->. auto.
Qed.

Lemma endswith_extension (filename e : str) :
  forallb (fun c => negb (ceqb 46 c)) (rev e) = true ->
  endswith (lower filename) (u "." ++ e)
  = existsb (ceqb 46) (rev filename)
    && eqb (lower (rev (before_dot (rev filename)))) e.
Proof.
  intros He. unfold endswith, lower.
  rewrite <- map_rev. change (u ".") with [46%N].
  cbn [app rev]. apply eq_true_iff_eq.
  rewrite (@startswith_before_dot (rev e) _ He), andb_true_iff, eqb_eq.
  rewrite existsb_dot_lower, before_dot_lower, (map_rev lower_c).
  split; intros [H1 H2]; split; try exact H1.
  - rewrite H2. apply rev_involutive.
  - rewrite <- H2. symmetry. apply rev_involutive.
Qed.

Lemma existsb_reversed (f : char -> bool) (s : str) :
  existsb f (rev s) = existsb f s.
Proof.
  induction s as [|c s IH]; [reflexivity|].
  cbn [rev existsb]. rewrite existsb_app, IH. cbn [existsb].
  rewrite orb_false_r. apply orb_comm.
Qed.

Lemma allowed_file_extension (filename : str) :
  allowed_file filename
  = existsb (ceqb 46) (rev filename)
    && mem (lower (rev (before_dot (rev filename)))) ALLOWED_EXTENSIONS.
Proof.
  unfold allowed_file. change (u ".") with [46%N].
  rewrite contains_dot, <- (existsb_reversed (ceqb 46)).
  destruct (existsb (ceqb 46) (rev filename)) eqn:D; [| reflexivity].
  cbn [andb]. unfold rsplitn, splitn. cbn [rev app].
  destruct (@split_go_first [] (rev filename) D) as (rest & E).
  unfold str, char in *. rewrite E. reflexivity.
Qed.

(** X11.  [allowed_file] of [clean_server.py] accepts exactly the file
    names for which [extract_text_from_file] of [fixed_server.py] has a
    branch: those whose lower-cased name ends in ".pdf", ".txt", ".docx"
    or ".doc".  A name it refuses would get "Unsupported file format"
    from the extractor without any file being read. *)
Theorem allowed_file_matches_extractor (filename : str) :
  allowed_file filename
  = (endswith (lower filename) (u ".pdf")
     || endswith (lower filename) (u ".txt")
     || endswith (lower filename) (u ".docx")
     || endswith (lower filename) (u ".doc"))
  /\ (forall io file_path,
        allowed_file filename = false ->
        extract_text_from_file io file_path filename
        = u "Unsupported file format").
Proof.
  assert (E : allowed_file filename
              = (endswith (lower filename) (u ".pdf")
                 || endswith (lower filename) (u ".txt")
                 || endswith (lower filename) (u ".docx")
                 || endswith (lower filename) (u ".doc"))).
  { rewrite allowed_file_extension.
    change (u ".pdf") with (u "." ++ u "pdf").
    change (u ".txt") with (u "." ++ u "txt").
    change (u ".docx") with (u "." ++ u "docx").
    change (u ".doc") with (u "." ++ u "doc").
    rewrite !endswith_extension by reflexivity.
    unfold ALLOWED_EXTENSIONS, mem. cbn [existsb].
    destruct (existsb (ceqb 46) (rev filename)); cbn [andb orb];
      [| reflexivity].
    destruct (eqb _ (u "pdf")), (eqb _ (u "doc")), (eqb _ (u "docx")),
      (eqb _ (u "txt")); reflexivity. }
  split; [exact E|].
  intros io file_path H. rewrite E in H.
  apply orb_false_iff in H. destruct H as [H Hdoc].
  apply orb_false_iff in H. destruct H as [H Hdocx].
  apply orb_false_iff in H. destruct H as [Hpdf Htxt].
  unfold extract_text_from_file. rewrite Hpdf, Htxt, Hdocx, Hdoc.
  reflexivity.
Qed.

Lemma allowed_file_matches_extractor_witness :
  allowed_file (u "portrait.JPG") = false
  /\ extract_text_from_file no_readers (u "/tmp/upload") (u "portrait.JPG")
     = u "Unsupported file format".
Proof.
  split; [vm_compute; reflexivity|].
  apply (proj2 (allowed_file_matches_extractor (u "portrait.JPG"))).
  vm_compute. reflexivity.
Defined.

(** ** A year on its own *)

Lemma lone_year_table :
  forallb (fun c =>
    forallb (fun d3 => forallb (lone_year_holds c d3) digits) digits)
    [u "19"; u "20"] = true.
Proof. vm_compute. reflexivity. Qed.

(** X12.  A date string that is only a year between 1900 and 2099 is
    read as the whole year: the start date is the first of January and
    the end date the thirty-first of December of that year. *)
Theorem lone_year_is_whole_year (c : str) (d3 d4 : N) :
  In c [u "19"; u "20"] -> (d3 < 10)%N -> (d4 < 10)%N ->
  _parse_start_date (c ++ year2 d3 d4) = c ++ year2 d3 d4 ++ u "-01-01"
  /\ _parse_end_date (c ++ year2 d3 d4) = c ++ year2 d3 d4 ++ u "-12-31".
Proof.
  intros Hc H3 H4. pose proof lone_year_table as T.
  rewrite forallb_forall in T. specialize (T c Hc). cbv beta in T.
  rewrite forallb_forall in T. specialize (T d3 (@digit_In d3 H3)).
  rewrite forallb_forall in T. specialize (T d4 (@digit_In d4 H4)).
  unfold lone_year_holds in T. apply andb_true_iff in T.
  destruct T as [Ts Te]. apply eqb_eq in Ts, Te. split; assumption.
Qed.

Lemma lone_year_is_whole_year_witness :
  _parse_start_date (u "2019") = u "2019-01-01"
  /\ _parse_end_date (u "2019") = u "2019-12-31".
Proof.
  apply (@lone_year_is_whole_year (u "20") 1 9);
    [right; left; reflexivity | lia | lia].
Defined.
